(** * relove_backend: offers, cart, favorites, catalogue listing and routing

    A shallow embedding of the request handlers and model methods of the
    marketplace backend, together with the properties of its specification.

    Conventions of the embedding.
    - A JavaScript number is an IEEE 754 binary64 ([Js.number], the
      [spec_float] of the standard library with 53 bits of precision): the
      operations round to the nearest double, ties to even, and keep the
      sign of zero, the infinities and [NaN].
    - A JavaScript string is held as the bytes of its UTF-8 encoding; its
      length is counted in UTF-16 code units ([Js.length]).
    - A value of a request body is a scalar, or an array or object with the
      string it converts to ([Js.value]); a text field of a body is an
      optional string.
    - An [ObjectId] is represented by the 24 lower-case hexadecimal digits
      that its [toString] prints.
    - A collection of the store is a finite map from [_id] to document.
    - A handler is a function from the store and the request to a response
      and the store afterwards; where the source throws inside its [try],
      the handler answers what its [catch] sends.
    - The clock, the time zone of the server, the [_id] of a new document
      and the user that [verifyToken] attached to the request are inputs of
      the handlers. *)

From Stdlib Require Import ZArith String Ascii List Lia SpecFloat.
From stdpp Require Import base option list strings gmap sorting.

Local Open Scope Z_scope.

(** ** JavaScript values and conversions *)

Module Js.

(** *** Numbers *)

Definition prec : Z := 53.
Definition emax : Z := 1024.

Definition number : Type := spec_float.

Definition NaN : number := S754_nan.
Definition PosInf : number := S754_infinity false.
Definition NegInf : number := S754_infinity true.

Inductive value :=
  | Undefined
  | Null
  | Bool (b : bool)
  | Num (n : number)
  | Str (s : string)
  | Obj (printed : string).

Definition signed (minus : bool) (z : Z) : Z := if minus then - z else z.

(** The double nearest to an integer; 0 is [+0]. *)
Definition of_Z (z : Z) : number := binary_normalize prec emax z 0 false.

(** The double nearest to [m * 10 ^ e], for [m >= 0], with the sign
    [minus]: the integer is rounded when [e >= 0], the quotient of the
    integers [m] and [10 ^ (- e)] otherwise. *)
Definition of_decimal (minus : bool) (m e : Z) : number :=
  if 0 <=? e then binary_normalize prec emax (signed minus (m * 10 ^ e)) 0 minus
  else
    match m with
    | Zpos p =>
        SFdiv prec emax (S754_finite minus p 0)
          (S754_finite false (Z.to_pos (10 ^ (- e))) 0)
    | _ => S754_zero minus
    end.

(** [a + b], [a - b], [a * b], [a / b] and [- a] *)
Definition add (a b : number) : number := SFadd prec emax a b.
Definition sub (a b : number) : number := SFsub prec emax a b.
Definition mul (a b : number) : number := SFmul prec emax a b.
Definition div (a b : number) : number := SFdiv prec emax a b.
Definition neg (a : number) : number := SFopp a.

(** [a < b], [a <= b], [a >= b] and [a == b] on numbers; a comparison with
    [NaN] is false.  [ge] is also what the [min] validator of Mongoose and
    the [$gte] of MongoDB compute. *)
Definition lt (a b : number) : bool := SFltb a b.
Definition le (a b : number) : bool := SFleb a b.
Definition ge (a b : number) : bool := SFleb b a.
Definition eqb (a b : number) : bool := SFeqb a b.

Definition is_NaN (a : number) : bool :=
  match a with S754_nan => true | _ => false end.

(** A number that casts to the schema type Number: any but [NaN]. *)
Definition casts (n : number) : bool := negb (is_NaN n).

(** The integer that a number is, when it is one. *)
Definition integer_of (a : number) : option Z :=
  match a with
  | S754_zero _ => Some 0
  | S754_finite s m e =>
      if 0 <=? e then Some (signed s (Zpos m * 2 ^ e))
      else if Zpos m mod 2 ^ (- e) =? 0 then Some (signed s (Zpos m / 2 ^ (- e)))
      else None
  | _ => None
  end.

(** [Math.round]: the nearest integer, halves going up; a result of zero
    has the sign of the argument. *)
Definition round (a : number) : number :=
  match a with
  | S754_finite s m e =>
      if 0 <=? e then a
      else
        binary_normalize prec emax
          ((2 * signed s (Zpos m) + 2 ^ (- e)) / 2 ^ (1 - e)) 0 s
  | _ => a
  end.

(** [Math.ceil] *)
Definition ceil (a : number) : number :=
  match a with
  | S754_finite s m e =>
      if 0 <=? e then a
      else binary_normalize prec emax (- (- signed s (Zpos m) / 2 ^ (- e))) 0 s
  | _ => a
  end.

(** *** Characters and strings *)

Definition code (c : ascii) : Z := Z.of_nat (nat_of_ascii c).

(** The white space and line terminators of three bytes: U+1680,
    U+2000 to U+200A, U+2028, U+2029, U+202F, U+205F, U+3000 and U+FEFF. *)
Definition ws3 (x y z : Z) : bool :=
  ((x =? 225) && (y =? 154) && (z =? 128))
  || ((x =? 226) && (y =? 128)
      && (((128 <=? z) && (z <=? 138)) || (z =? 168) || (z =? 169)
          || (z =? 175)))
  || ((x =? 226) && (y =? 129) && (z =? 159))
  || ((x =? 227) && (y =? 128) && (z =? 128))
  || ((x =? 239) && (y =? 187) && (z =? 191)).

(** The white space of one byte: tab, line feed, vertical tab, form feed,
    carriage return and space. *)
Definition is_ws (c : ascii) : bool :=
  (code c =? 32) || ((9 <=? code c) && (code c <=? 13)).

(** The string after a white space character at its head; U+00A0 is the
    one of two bytes. *)
Definition strip_ws (s : list ascii) : option (list ascii) :=
  match s with
  | a :: r1 =>
      if is_ws a then Some r1
      else
        match r1 with
        | b :: r2 =>
            if (code a =? 194) && (code b =? 160) then Some r2
            else
              match r2 with
              | c :: r3 => if ws3 (code a) (code b) (code c) then Some r3 else None
              | [] => None
              end
        | [] => None
        end
  | [] => None
  end.

(** The same on a reversed string: a white space character at the end. *)
Definition strip_ws_end (s : list ascii) : option (list ascii) :=
  match s with
  | a :: r1 =>
      if is_ws a then Some r1
      else
        match r1 with
        | b :: r2 =>
            if (code b =? 194) && (code a =? 160) then Some r2
            else
              match r2 with
              | c :: r3 => if ws3 (code c) (code b) (code a) then Some r3 else None
              | [] => None
              end
        | [] => None
        end
  | [] => None
  end.

Fixpoint drop_while (strip : list ascii -> option (list ascii)) (fuel : nat)
    (s : list ascii) : list ascii :=
  match fuel with
  | O => s
  | S f =>
      match strip s with
      | Some r => drop_while strip f r
      | None => s
      end
  end.

Definition drop_ws (s : list ascii) : list ascii :=
  drop_while strip_ws (List.length s) s.

(** [String.prototype.trim] *)
Definition trim_chars (s : list ascii) : list ascii :=
  let t := rev (drop_ws s) in
  rev (drop_while strip_ws_end (List.length t) t).

Definition trim (s : string) : string :=
  string_of_list_ascii (trim_chars (list_ascii_of_string s)).

(** The UTF-16 code units of the character that a byte starts: none for a
    continuation byte, two for the first byte of four. *)
Definition units (c : ascii) : nat :=
  if code c <? 128 then 1%nat
  else if code c <? 192 then 0%nat
  else if code c <? 240 then 1%nat
  else 2%nat.

(** [s.length] *)
Definition length (s : string) : nat :=
  list_sum (map units (list_ascii_of_string s)).

Definition digit_of (c : ascii) : option Z :=
  let n := code c in
  if (48 <=? n) && (n <=? 57) then Some (n - 48)
  else if (97 <=? n) && (n <=? 122) then Some (n - 87)
  else if (65 <=? n) && (n <=? 90) then Some (n - 55)
  else None.

Definition digit_in (radix : Z) (c : ascii) : option Z :=
  match digit_of c with
  | Some d => if d <? radix then Some d else None
  | None => None
  end.

(** The longest prefix of digits of [s] in [radix], accumulated onto [acc];
    returns the value, the number of digits read and the rest. *)
Fixpoint digits (radix acc : Z) (cnt : nat) (s : list ascii)
  : Z * nat * list ascii :=
  match s with
  | c :: r =>
      match digit_in radix c with
      | Some d => digits radix (acc * radix + d) (S cnt) r
      | None => (acc, cnt, s)
      end
  | [] => (acc, cnt, [])
  end.

Definition is_char (c : ascii) (a b : string) : bool :=
  (String c EmptyString =? a)%string || (String c EmptyString =? b)%string.

(** An optional sign: whether it is a minus, and the rest. *)
Definition read_sign (s : list ascii) : bool * list ascii :=
  match s with
  | c :: r =>
      if is_char c "-" "-" then (true, r)
      else if is_char c "+" "+" then (false, r)
      else (false, s)
  | [] => (false, [])
  end.

(** *** [parseInt] of a string *)

(** [parseInt(s)] without a radix: leading white space, a sign, an optional
    [0x] prefix, then the longest run of digits, whose integer is rounded
    to a double; [-0] when the digits after a minus are zero. *)
Definition parseInt_chars (s : list ascii) : number :=
  let '(minus, s2) := read_sign (drop_ws s) in
  let '(radix, s3) :=
    match s2 with
    | z :: x :: r =>
        if is_char z "0" "0" && is_char x "x" "X" then (16, r) else (10, s2)
    | _ => (10, s2)
    end in
  let '(v, n, _) := digits radix 0 0 s3 in
  match n with
  | O => NaN
  | S _ => binary_normalize prec emax (signed minus v) 0 minus
  end.

Definition parseInt_string (s : string) : number :=
  parseInt_chars (list_ascii_of_string s).

(** *** [Number.prototype.toString] *)

Definition digit_char (d : Z) : ascii := ascii_of_nat (Z.to_nat (48 + d)).

Fixpoint decimal_fuel (fuel : nat) (n : Z) (acc : list ascii) : list ascii :=
  match fuel with
  | O => acc
  | S f =>
      let acc' := digit_char (n mod 10) :: acc in
      if n <? 10 then acc' else decimal_fuel f (n / 10) acc'
  end.

(** The decimal digits of a natural number. *)
Definition decimal (n : Z) : list ascii :=
  decimal_fuel (S (Z.to_nat (Z.log2 n))) n [].

(** The least [j], from the one given, with [num * 10 ^ j >= den]. *)
Fixpoint lead_exp (fuel : nat) (num den j : Z) : Z :=
  match fuel with
  | O => j
  | S f => if den <=? num * 10 ^ j then j else lead_exp f num den (j + 1)
  end.

(** The [n] with [10 ^ (n - 1) <= num / den < 10 ^ n], for a positive
    rational. *)
Definition magnitude (num den : Z) : Z :=
  if den <=? num then Z.of_nat (List.length (decimal (num / den)))
  else 1 - lead_exp (S (Z.to_nat (Z.log2 den))) num den 1.

(** The decimals of [k] digits next to [x = num / den], below and above:
    the one that is read back as [x], the closer one when both are; [s]
    and [n] stand for the decimal [s * 10 ^ (n - k)]. *)
Definition candidate (x : number) (num den n0 k : Z) : option (Z * Z) :=
  let p := n0 - k in
  let a := if 0 <=? p then num else num * 10 ^ (- p) in
  let b := if 0 <=? p then den * 10 ^ p else den in
  let lo := a / b in
  let r := a mod b in
  let reads (s : Z) := eqb (of_decimal false s p) x in
  let pick (s : Z) := if s =? 10 ^ k then (10 ^ (k - 1), n0 + 1) else (s, n0) in
  match reads lo, reads (lo + 1) with
  | true, true =>
      Some (pick (if 2 * r <? b then lo
                  else if b <? 2 * r then lo + 1
                  else if Z.even lo then lo else lo + 1))
  | true, false => Some (pick lo)
  | false, true => Some (pick (lo + 1))
  | false, false => None
  end.

(** The shortest decimal that is read back as [x]: its digits [s], their
    number [k], and [n]. *)
Fixpoint shortest (fuel : nat) (x : number) (num den n0 k : Z) : Z * Z * Z :=
  match fuel with
  | O => (0, k, n0)
  | S f =>
      match candidate x num den n0 k with
      | Some (s, n) => (s, k, n)
      | None => shortest f x num den n0 (k + 1)
      end
  end.

Definition zeros (n : Z) : list ascii := repeat "0"%char (Z.to_nat n).

(** The notation of the digits [ds], [k] of them, for the decimal point
    after [n] digits: plain for [-6 < n <= 21], with an exponent
    otherwise. *)
Definition layout (ds : list ascii) (k n : Z) : list ascii :=
  if (k <=? n) && (n <=? 21) then ds ++ zeros (n - k)
  else if (0 <? n) && (n <=? 21) then
    take (Z.to_nat n) ds ++ "."%char :: drop (Z.to_nat n) ds
  else if (-6 <? n) && (n <=? 0) then
    "0"%char :: "."%char :: zeros (- n) ++ ds
  else
    let e := n - 1 in
    let es := (if e <? 0 then "-"%char else "+"%char) :: decimal (Z.abs e) in
    match ds with
    | [d] => d :: "e"%char :: es
    | d :: rest => d :: "."%char :: rest ++ "e"%char :: es
    | [] => []
    end.

(** [String(x)] of a number. *)
Definition toString_chars (x : number) : list ascii :=
  match x with
  | S754_nan => list_ascii_of_string "NaN"
  | S754_zero _ => list_ascii_of_string "0"
  | S754_infinity s =>
      list_ascii_of_string (if s then "-Infinity" else "Infinity")
  | S754_finite s m e =>
      let num := if 0 <=? e then Zpos m * 2 ^ e else Zpos m in
      let den := if 0 <=? e then 1 else 2 ^ (- e) in
      let '(d, k, n) :=
        shortest 17 (S754_finite false m e) num den (magnitude num den) 1 in
      (if s then ["-"%char] else []) ++ layout (decimal d) k n
  end.

Definition toString (x : number) : string :=
  string_of_list_ascii (toString_chars x).

(** [parseInt(v)]: the argument is converted to a string first; the
    strings of [undefined], [null] and the booleans have no digit. *)
Definition parseInt (v : value) : number :=
  match v with
  | Num n => parseInt_chars (toString_chars n)
  | Str s => parseInt_string s
  | Obj s => parseInt_string s
  | _ => NaN
  end.

(** *** [Number(v)] *)

(** An unsigned decimal literal: digits, an optional fraction, an optional
    exponent, and nothing after it; the digits as an integer [m] and the
    exponent [e] of the value [m * 10 ^ e]. *)
Definition decimal_chars (s : list ascii) : option (Z * Z) :=
  let '(m, n1, r1) := digits 10 0 0 s in
  let '(m2, n2, r2) :=
    match r1 with
    | c :: r => if is_char c "." "." then digits 10 m 0 r else (m, O, r1)
    | [] => (m, O, [])
    end in
  match (n1 + n2)%nat with
  | O => None
  | S _ =>
      match r2 with
      | [] => Some (m2, - Z.of_nat n2)
      | c :: r =>
          if is_char c "e" "E" then
            let '(minus, r3) := read_sign r in
            match digits 10 0 0 r3 with
            | (e, S _, []) => Some (m2, signed minus e - Z.of_nat n2)
            | _ => None
            end
          else None
      end
  end.

Definition radix_chars (radix : Z) (s : list ascii) : number :=
  match digits radix 0 0 s with
  | (v, S _, []) => of_Z v
  | _ => NaN
  end.

(** [Number(s)] of a string: white space trimmed, the empty string is 0. *)
Definition toNumber_chars (s : list ascii) : number :=
  match trim_chars s with
  | [] => of_Z 0
  | (z :: x :: r) as t =>
      if is_char z "0" "0" && is_char x "x" "X" then radix_chars 16 r
      else if is_char z "0" "0" && is_char x "o" "O" then radix_chars 8 r
      else if is_char z "0" "0" && is_char x "b" "B" then radix_chars 2 r
      else
        let '(minus, u) := read_sign t in
        if (string_of_list_ascii u =? "Infinity")%string
        then (if minus then NegInf else PosInf)
        else match decimal_chars u with
             | Some (m, e) => of_decimal minus m e
             | None => NaN
             end
  | t =>
      match decimal_chars t with
      | Some (m, e) => of_decimal false m e
      | None => NaN
      end
  end.

Definition toNumber (v : value) : number :=
  match v with
  | Undefined => NaN
  | Null => of_Z 0
  | Bool b => if b then of_Z 1 else of_Z 0
  | Num n => n
  | Str s => toNumber_chars (list_ascii_of_string s)
  | Obj s => toNumber_chars (list_ascii_of_string s)
  end.

(** [!!v] *)
Definition truthy (v : value) : bool :=
  match v with
  | Undefined | Null => false
  | Bool b => b
  | Num (S754_zero _) | Num S754_nan => false
  | Num _ => true
  | Str s => negb (s =? "")%string
  | Obj _ => true
  end.

Definition is_upper (c : ascii) : bool :=
  (65 <=? code c) && (code c <=? 90).

Definition lower_char (c : ascii) : ascii :=
  if is_upper c then ascii_of_nat (nat_of_ascii c + 32) else c.

(** [String.prototype.toLowerCase] on the ASCII letters; it is applied to
    hexadecimal digits and to the segments of a path that are compared with
    the literal segments of a route. *)
Definition toLowerCase (s : string) : string :=
  string_of_list_ascii (map lower_char (list_ascii_of_string s)).

(** [v === name] for a string literal, the test of a [case] of a
    [switch]. *)
Definition is_string (v : value) (name : string) : bool :=
  match v with
  | Str s => (s =? name)%string
  | _ => false
  end.

(** [v < n] for a number [n]: the left operand is converted to a number. *)
Definition lt_number (v : value) (n : number) : bool := lt (toNumber v) n.

End Js.

#[global] Arguments Js.of_Z : simpl never.
#[global] Arguments Js.of_decimal : simpl never.
#[global] Arguments Js.add : simpl never.
#[global] Arguments Js.sub : simpl never.
#[global] Arguments Js.mul : simpl never.
#[global] Arguments Js.div : simpl never.
#[global] Arguments Js.lt : simpl never.
#[global] Arguments Js.le : simpl never.
#[global] Arguments Js.ge : simpl never.
#[global] Arguments Js.round : simpl never.
#[global] Arguments Js.ceil : simpl never.
#[global] Arguments Js.integer_of : simpl never.
#[global] Arguments Js.parseInt : simpl never.
#[global] Arguments Js.toNumber : simpl never.
#[global] Arguments Js.toString : simpl never.
#[global] Arguments Js.trim : simpl never.
#[global] Arguments Js.length : simpl never.

(** ** ObjectId *)

Module ObjectId.

Definition is_hex (c : ascii) : bool :=
  match Js.digit_in 16 c with Some _ => true | None => false end.

(** 24 hexadecimal digits of either case. *)
Definition wellformed (s : string) : bool :=
  (length (list_ascii_of_string s) =? 24)%nat
  && forallb is_hex (list_ascii_of_string s).

(** A string of 12 characters that are 12 bytes. *)
Definition twelve_bytes (s : string) : bool :=
  (length (list_ascii_of_string s) =? 12)%nat
  && forallb (fun c => Js.code c <? 128) (list_ascii_of_string s).

Definition hex_digit (n : Z) : ascii :=
  nth (Z.to_nat n) (list_ascii_of_string "0123456789abcdef") "0"%char.

(** The bytes of a string, each as two lower-case hexadecimal digits. *)
Definition hex_of_bytes (s : list ascii) : list ascii :=
  flat_map (fun c => [hex_digit (Js.code c / 16); hex_digit (Js.code c mod 16)])
    s.

(** The strings that [toString] prints: 24 lower-case hexadecimal digits. *)
Definition canonical (s : string) : bool :=
  wellformed s
  && forallb (fun c => negb (Js.is_upper c)) (list_ascii_of_string s).

(** Casting a string to an ObjectId, as the driver does for [findById],
    for a query condition and for a path of type ObjectId: the driver reads
    24 hexadecimal digits of either case, and the ObjectId prints them in
    lower case; it also takes a string of 12 bytes for the bytes of the
    ObjectId; [None] is a CastError. *)
Definition cast (s : string) : option string :=
  if wellformed s then Some (Js.toLowerCase s)
  else if twelve_bytes s then
    Some (string_of_list_ascii (hex_of_bytes (list_ascii_of_string s)))
  else None.

End ObjectId.

(** ** models/Product.js *)

Module Product.

Record t := {
  title : string;
  price : Js.number;
  originalPrice : option Js.number;
  category : string;
  condition : string;
  seller : string;
  isAvailable : bool;
  createdAt : Z
}.

(** The value read from an optional numeric path. *)
Definition path_value (o : option Js.number) : Js.value :=
  match o with
  | Some q => Js.Num q
  | None => Js.Undefined
  end.

(** [ProductSchema.virtual('discountPercentage')] *)
Definition discountPercentage (p : t) : Js.number :=
  let original := path_value (originalPrice p) in
  if negb (Js.truthy original) then Js.of_Z 0
  else Js.round
         (Js.mul
            (Js.div (Js.sub (Js.toNumber original) (price p))
                    (Js.toNumber original))
            (Js.of_Z 100)).

(** The sentence of the specification, word for word: 0 when no
    originalPrice is set, else round((originalPrice - price) /
    originalPrice * 100), in the arithmetic of JavaScript. *)
Definition spec_discountPercentage (p : t) : Js.number :=
  match originalPrice p with
  | None => Js.of_Z 0
  | Some original =>
      Js.round
        (Js.mul (Js.div (Js.sub original (price p)) original) (Js.of_Z 100))
  end.

End Product.

(** ** Dates *)

Module Date.

(** The time zone of the server: the offset of local time from UTC, in
    milliseconds, at an instant given in UTC and at one given in local
    time. *)
Record zone := {
  offset_at : Z -> Z;
  offset_of_local : Z -> Z
}.

Definition msPerHour : Z := 3600000.
Definition msPerDay : Z := 86400000.

(** The time values of a Date are within 100 000 000 days of the epoch;
    [None] is an invalid Date. *)
Definition TimeClip (t : Z) : option Z :=
  if Z.abs t <=? 8640000000000000 then Some t else None.

Definition LocalTime (tz : zone) (t : Z) : Z := t + offset_at tz t.
Definition UTC (tz : zone) (t : Z) : Z := t - offset_of_local tz t.

(** [date.getHours()] *)
Definition getHours (tz : zone) (t : Z) : Z :=
  (LocalTime tz t / msPerHour) mod 24.

(** [date.setHours(hour)]: the hour of the local time is replaced, the
    day, the minutes, the seconds and the milliseconds are kept. *)
Definition setHours (tz : zone) (t hour : Z) : option Z :=
  let l := LocalTime tz t in
  TimeClip
    (UTC tz (l / msPerDay * msPerDay + hour * msPerHour + l mod msPerHour)).

End Date.

(** ** models/Offer.js *)

Module Offer.

(** The values of the path [status]. *)
Inductive state := pending | accepted | rejected | countered | expired.

Global Instance state_eq_dec : EqDecision state.
Proof. solve_decision. Defined.

Record counter := { counter_price : Js.number; counter_message : string }.

Record t := {
  product : string;
  buyer : string;
  seller : string;
  offerPrice : Js.number;
  message : string;
  status : state;
  counterOffer : option counter;
  expiresAt : Z
}.

Definition set_status (s : state) (o : t) : t :=
  {| product := product o; buyer := buyer o; seller := seller o;
     offerPrice := offerPrice o; message := message o; status := s;
     counterOffer := counterOffer o; expiresAt := expiresAt o |}.

Definition set_counterOffer (c : counter) (o : t) : t :=
  {| product := product o; buyer := buyer o; seller := seller o;
     offerPrice := offerPrice o; message := message o;
     status := status o; counterOffer := Some c;
     expiresAt := expiresAt o |}.

(** 48 hours in milliseconds. *)
Definition hours48 : Z := 48 * 60 * 60 * 1000.

(** The default of [expiresAt]:
    [new Date(now.setHours(now.getHours() + 48))] for the clock [now], in
    milliseconds; [None] is an invalid Date. *)
Definition default_expiresAt (tz : Date.zone) (now : Z) : option Z :=
  Date.setHours tz now (Date.getHours tz now + 48).

(** [new Offer({product, buyer, seller, offerPrice, message})]: the paths
    that are given, [message] trimmed, [status] and [expiresAt] from their
    defaults; [None] when the default of [expiresAt] is an invalid Date,
    which does not cast. *)
Definition create (tz : Date.zone) (now : Z) (product_ buyer_ seller_ : string)
    (offerPrice_ : Js.number) (message_ : string) : option t :=
  match default_expiresAt tz now with
  | Some expires =>
      Some {| product := product_; buyer := buyer_; seller := seller_;
              offerPrice := offerPrice_; message := Js.trim message_;
              status := pending; counterOffer := None;
              expiresAt := expires |}
  | None => None
  end.

(** The validation that [save] runs on the paths of an offer. *)
Definition validate (o : t) : bool :=
  Js.casts (offerPrice o) && Js.ge (offerPrice o) (Js.of_Z 1)
  && (Js.length (message o) <=? 500)%nat
  && match counterOffer o with
     | Some c => Js.casts (counter_price c)
     | None => true
     end.

(** [offer.save()] of a new document: validated, then inserted under its
    fresh [_id]; [None] is a rejected save. *)
Definition insert_new (id : string) (o : t) (col : gmap string t)
  : option (gmap string t) :=
  if validate o then
    match col !! id with
    | None => Some (<[id := o]> col)
    | Some _ => None
    end
  else None.

(** [offer.save()] of a loaded document. *)
Definition save (id : string) (o : t) (col : gmap string t)
  : option (gmap string t) :=
  if validate o then Some (<[id := o]> col) else None.

(** [Offer.findOne(cond)]: a document that satisfies the condition. *)
Definition findOne (cond : t -> bool) (col : gmap string t)
  : option (string * t) :=
  List.find (fun kv => cond kv.2) (map_to_list col).

End Offer.

(** ** models/User.js *)

Module User.

Record cart_item := { product : string; quantity : Js.number }.

Record t := { favorites : list string; cart : list cart_item }.

Inductive rejection := ValidationError | CastError | ItemNotFound.

(** The promise a method returns: fulfilled with the saved document, or
    rejected. *)
Inductive promise := Saved (u : t) | Rejected (e : rejection).

Definition set_quantity (q : Js.number) (item : cart_item) : cart_item :=
  {| product := product item; quantity := q |}.

Definition set_cart (c : list cart_item) (u : t) : t :=
  {| favorites := favorites u; cart := c |}.

Definition set_favorites (f : list string) (u : t) : t :=
  {| favorites := f; cart := cart u |}.

(** The validation of the cart paths: [quantity] is a number, [min: 1]. *)
Definition valid_item (item : cart_item) : bool :=
  Js.casts (quantity item) && Js.ge (quantity item) (Js.of_Z 1).

Definition validate (u : t) : bool := forallb valid_item (cart u).

(** [this.save()]: the document is validated; the handler that awaits the
    promise writes the fulfilled document to the store. *)
Definition save (u : t) : promise :=
  if validate u then Saved u else Rejected ValidationError.

(** [this.favorites.includes(productId)]: the array compares each id,
    printed, with the argument. *)
Definition includes (ids : list string) (productId : string) : bool :=
  existsb (String.eqb productId) ids.

(** [UserSchema.methods.addToFavorites]; the pushed id is cast to an
    ObjectId. *)
Definition addToFavorites (u : t) (productId : string) : promise :=
  if negb (includes (favorites u) productId) then
    match ObjectId.cast productId with
    | Some id => save (set_favorites (favorites u ++ [id]) u)
    | None => Rejected CastError
    end
  else save u.

(** [UserSchema.methods.removeFromFavorites] *)
Definition removeFromFavorites (u : t) (productId : string) : promise :=
  save (set_favorites
          (List.filter (fun id => negb (String.eqb id productId)) (favorites u))
          u).

(** [this.cart.find(item => item.product.toString() === productId.toString())]:
    the first entry of that product, with its index. *)
Definition find_item (c : list cart_item) (productId : string)
  : option (nat * cart_item) :=
  list_find (fun item => product item = productId) c.

(** [UserSchema.methods.addToCart]; [quantity = 1] when it is not given.
    The pushed entry is cast to the schema: its product becomes the
    ObjectId that the parameter spells, and a parameter that does not cast
    makes the save reject. *)
Definition addToCart (u : t) (productId : string)
    (quantity_ : option Js.number) : promise :=
  let q := default (Js.of_Z 1) quantity_ in
  match find_item (cart u) productId with
  | Some (i, item) =>
      save (set_cart
              (<[i := set_quantity (Js.add (quantity item) q) item]> (cart u))
              u)
  | None =>
      match ObjectId.cast productId with
      | Some id =>
          save (set_cart (cart u ++ [{| product := id; quantity := q |}]) u)
      | None => Rejected CastError
      end
  end.

(** [UserSchema.methods.updateCartItem] *)
Definition updateCartItem (u : t) (productId : string)
    (quantity_ : Js.number) : promise :=
  match find_item (cart u) productId with
  | Some (i, item) =>
      save (set_cart (<[i := set_quantity quantity_ item]> (cart u)) u)
  | None => Rejected ItemNotFound
  end.

(** [UserSchema.methods.removeFromCart] *)
Definition removeFromCart (u : t) (productId : string) : promise :=
  save (set_cart
          (List.filter
             (fun item => negb (String.eqb (product item) productId))
             (cart u))
          u).

(** [UserSchema.methods.clearCart] *)
Definition clearCart (u : t) : promise := save (set_cart [] u).

End User.

(** ** The store and the responses *)

Record store := {
  products : gmap string Product.t;
  offers : gmap string Offer.t;
  users : gmap string User.t
}.

Definition set_offers (o : gmap string Offer.t) (st : store) : store :=
  {| products := products st; offers := o; users := users st |}.

Definition set_user (id : string) (u : User.t) (st : store) : store :=
  {| products := products st; offers := offers st;
     users := <[id := u]> (users st) |}.

(** The JSON document of a response. *)
Inductive document :=
  | Message (m : string)
  | OfferDoc (id : string) (o : Offer.t)
  | CartDoc (items : list User.cart_item) (total : Js.number)
  | FavoritesDoc (ids : list string)
  | PageDoc (items : list (string * Product.t)) (total : Z)
      (page pages : Js.number).

Record response := { status : nat; body : document }.

Definition reply (code : nat) (d : document) : response :=
  {| status := code; body := d |}.

Definition error (code : nat) (m : string) : response :=
  reply code (Message m).

(** The response of every [catch] block that has no case of its own. *)
Definition server_error : response := error 500 "Server error".

(** ** controllers/offer.controller.js *)

Module OfferController.

Record offer_body := { offerPrice : Js.value; message : option string }.

(** The text of [x || ''] for an optional text field. *)
Definition or_empty (m : option string) : string := default "" m.

(** The condition [{product, buyer, status: 'pending'}]. *)
Definition pending_by (productId buyerId : string) (o : Offer.t) : bool :=
  String.eqb (Offer.product o) productId
  && String.eqb (Offer.buyer o) buyerId
  && bool_decide (Offer.status o = Offer.pending).

(** [exports.makeOffer]; [tz] is the time zone of the server, [now] the
    clock and [newId] the [_id] generated for the new document.  A
    parameter that does not cast makes [findById] throw, and a rejected
    [save] throws: both are answered by the [catch]. *)
Definition makeOffer (st : store) (tz : Date.zone) (now : Z) (newId : string)
    (dbUser : string) (productId : string) (b : offer_body)
  : response * store :=
  if negb (Js.truthy (offerPrice b)) then
    (error 400 "Offer price is required", st)
  else
    match ObjectId.cast productId with
    | None => (server_error, st)
    | Some pid =>
        match products st !! pid with
        | None => (error 404 "Product not found", st)
        | Some product =>
            if negb (Product.isAvailable product) then
              (error 400 "Product is not available", st)
            else if String.eqb (Product.seller product) dbUser then
              (error 400 "You cannot make an offer on your own product", st)
            else
              match Offer.findOne (pending_by pid dbUser) (offers st) with
              | Some _ =>
                  (error 400
                     "You already have a pending offer on this product", st)
              | None =>
                  match Offer.create tz now pid dbUser (Product.seller product)
                          (Js.toNumber (offerPrice b)) (or_empty (message b))
                  with
                  | Some offer =>
                      match Offer.insert_new newId offer (offers st) with
                      | Some col =>
                          (reply 201 (OfferDoc newId offer), set_offers col st)
                      | None => (server_error, st)
                      end
                  | None => (server_error, st)
                  end
              end
        end
    end.

Record response_body := {
  action : Js.value;
  counterPrice : Js.value;
  counterMessage : option string
}.

(** [exports.respondToOffer].  The offer is read with its product
    populated; when the product no longer exists, [offer.product] is null
    and reading its seller throws. *)
Definition respondToOffer (st : store) (dbUser : string) (offerId : string)
    (b : response_body) : response * store :=
  match ObjectId.cast offerId with
  | None => (server_error, st)
  | Some oid =>
      match offers st !! oid with
      | None => (error 404 "Offer not found", st)
      | Some offer =>
          match products st !! Offer.product offer with
          | None => (server_error, st)
          | Some product =>
              if negb (String.eqb (Product.seller product) dbUser) then
                (error 403 "Not authorized to respond to this offer", st)
              else
                let finish (offer' : Offer.t) :=
                  match Offer.save oid offer' (offers st) with
                  | Some col =>
                      (reply 200 (OfferDoc oid offer'), set_offers col st)
                  | None => (server_error, st)
                  end in
                if Js.is_string (action b) "accept" then
                  finish (Offer.set_status Offer.accepted offer)
                else if Js.is_string (action b) "reject" then
                  finish (Offer.set_status Offer.rejected offer)
                else if Js.is_string (action b) "counter" then
                  if negb (Js.truthy (counterPrice b)) then
                    (error 400 "Counter offer price is required", st)
                  else
                    finish
                      (Offer.set_counterOffer
                         {| Offer.counter_price :=
                              Js.toNumber (counterPrice b);
                            Offer.counter_message :=
                              or_empty (counterMessage b) |}
                         (Offer.set_status Offer.countered offer))
                else (error 400 "Invalid action", st)
          end
      end
  end.

(** [exports.respondToCounterOffer] *)
Definition respondToCounterOffer (st : store) (dbUser : string)
    (offerId : string) (action_ : Js.value) : response * store :=
  match ObjectId.cast offerId with
  | None => (server_error, st)
  | Some oid =>
      match offers st !! oid with
      | None => (error 404 "Offer not found", st)
      | Some offer =>
          if negb (String.eqb (Offer.buyer offer) dbUser) then
            (error 403 "Not authorized to respond to this counter offer", st)
          else if negb (bool_decide (Offer.status offer = Offer.countered))
          then
            (error 400
               "This offer does not have a counter offer to respond to", st)
          else
            let finish (offer' : Offer.t) :=
              match Offer.save oid offer' (offers st) with
              | Some col =>
                  (reply 200 (OfferDoc oid offer'), set_offers col st)
              | None => (server_error, st)
              end in
            if Js.is_string action_ "accept" then
              finish (Offer.set_status Offer.accepted offer)
            else if Js.is_string action_ "reject" then
              finish (Offer.set_status Offer.rejected offer)
            else (error 400 "Invalid action", st)
      end
  end.

End OfferController.

(** ** controllers/user.controller.js *)

Module UserController.

(** The total of a populated cart: [sum + item.product.price * item.quantity]
    from 0; [None] when an entry's product no longer exists, where reading
    [price] of [null] throws. *)
Definition cart_total (ps : gmap string Product.t)
    (c : list User.cart_item) : option Js.number :=
  foldl (fun acc item =>
           match acc, ps !! User.product item with
           | Some sum, Some p =>
               Some (Js.add sum
                       (Js.mul (Product.price p) (User.quantity item)))
           | _, _ => None
           end)
        (Some (Js.of_Z 0)) c.

(** The cart read back, populated, and sent with its total. *)
Definition cart_response (st : store) (u : User.t) : response :=
  match cart_total (products st) (User.cart u) with
  | Some total => reply 200 (CartDoc (User.cart u) total)
  | None => server_error
  end.

(** The favorites read back, populated: the ids whose product exists. *)
Definition favorites_response (st : store) (u : User.t) : response :=
  reply 200
    (FavoritesDoc
       (List.filter (fun id => bool_decide (is_Some (products st !! id)))
          (User.favorites u))).

(** [exports.addToFavorites].  In this handler and the next ones, a user
    record that is gone makes [User.findById] return null, and the call of
    its method throws. *)
Definition addToFavorites (st : store) (dbUser productId : string)
  : response * store :=
  match ObjectId.cast productId with
  | None => (server_error, st)
  | Some pid =>
      match products st !! pid with
      | None => (error 404 "Product not found", st)
      | Some _ =>
          match users st !! dbUser with
          | None => (server_error, st)
          | Some user =>
              match User.addToFavorites user productId with
              | User.Saved u =>
                  let st' := set_user dbUser u st in
                  (favorites_response st' u, st')
              | User.Rejected _ => (server_error, st)
              end
          end
      end
  end.

(** [exports.removeFromFavorites] *)
Definition removeFromFavorites (st : store) (dbUser productId : string)
  : response * store :=
  match users st !! dbUser with
  | None => (server_error, st)
  | Some user =>
      match User.removeFromFavorites user productId with
      | User.Saved u =>
          let st' := set_user dbUser u st in
          (favorites_response st' u, st')
      | User.Rejected _ => (server_error, st)
      end
  end.

(** [exports.addToCart]; [quantity] is the field of the body, 1 when the
    body has none. *)
Definition addToCart (st : store) (dbUser productId : string)
    (quantity : Js.value) : response * store :=
  let quantity :=
    match quantity with
    | Js.Undefined => Js.Num (Js.of_Z 1)
    | v => v
    end in
  match ObjectId.cast productId with
  | None => (server_error, st)
  | Some pid =>
      match products st !! pid with
      | None => (error 404 "Product not found", st)
      | Some product =>
          if negb (Product.isAvailable product) then
            (error 400 "Product is not available", st)
          else
            match users st !! dbUser with
            | None => (server_error, st)
            | Some user =>
                match User.addToCart user productId
                        (Some (Js.parseInt quantity)) with
                | User.Saved u =>
                    let st' := set_user dbUser u st in
                    (cart_response st' u, st')
                | User.Rejected _ => (server_error, st)
                end
            end
      end
  end.

(** [exports.updateCartItem] *)
Definition updateCartItem (st : store) (dbUser productId : string)
    (quantity : Js.value) : response * store :=
  if negb (Js.truthy quantity) || Js.lt_number quantity (Js.of_Z 1) then
    (error 400 "Quantity must be at least 1", st)
  else
    match users st !! dbUser with
    | None => (server_error, st)
    | Some user =>
        match User.updateCartItem user productId (Js.parseInt quantity) with
        | User.Saved u =>
            let st' := set_user dbUser u st in
            (cart_response st' u, st')
        | User.Rejected User.ItemNotFound =>
            (error 404 "Item not found in cart", st)
        | User.Rejected _ => (server_error, st)
        end
    end.

(** [exports.removeFromCart] *)
Definition removeFromCart (st : store) (dbUser productId : string)
  : response * store :=
  match users st !! dbUser with
  | None => (server_error, st)
  | Some user =>
      match User.removeFromCart user productId with
      | User.Saved u =>
          let st' := set_user dbUser u st in
          (cart_response st' u, st')
      | User.Rejected _ => (server_error, st)
      end
  end.

(** [exports.clearCart] *)
Definition clearCart (st : store) (dbUser : string) : response * store :=
  match users st !! dbUser with
  | None => (server_error, st)
  | Some user =>
      match User.clearCart user with
      | User.Saved u =>
          (reply 200 (CartDoc [] (Js.of_Z 0)), set_user dbUser u st)
      | User.Rejected _ => (server_error, st)
      end
  end.

End UserController.

(** ** controllers/product.controller.js: the listing *)

Module ProductController.

Record query := {
  category : option string;
  condition : option string;
  priceMin : option string;
  priceMax : option string;
  sort : option string;
  page : option string;
  limit : option string;
  seller : option string;
  search : option string
}.

(** A parameter of the query string that is present and truthy. *)
Definition given (o : option string) : option string :=
  match o with
  | Some s => if (s =? "")%string then None else Some s
  | None => None
  end.

(** The conditions of the find, after the casts of the schema. *)
Record conditions := {
  on_category : option string;
  on_condition : option string;
  on_seller : option string;
  price_gte : option Js.number;
  price_lte : option Js.number;
  on_text : option string
}.

Definition cast_bound (o : option string) : option (option Js.number) :=
  match given o with
  | None => Some None
  | Some s =>
      let n := Js.toNumber (Js.Str s) in
      if Js.casts n then Some (Some n) else None
  end.

Definition cast_seller (o : option string) : option (option string) :=
  match given o with
  | None => Some None
  | Some s =>
      match ObjectId.cast s with
      | Some id => Some (Some id)
      | None => None
      end
  end.

(** The query object that the handler builds, cast; [None] is the CastError
    that executing it throws. *)
Definition cast_conditions (q : query) : option conditions :=
  match cast_seller (seller q), cast_bound (priceMin q),
        cast_bound (priceMax q) with
  | Some s, Some lo, Some hi =>
      Some {| on_category := given (category q);
              on_condition := given (condition q);
              on_seller := s;
              price_gte := lo;
              price_lte := hi;
              on_text := given (search q) |}
  | _, _, _ => None
  end.

Definition holds {A} (o : option A) (f : A -> bool) : bool :=
  match o with
  | Some a => f a
  | None => true
  end.

(** Whether a product satisfies the conditions; [text_search] is the text
    index of the store. *)
Definition matches (text_search : string -> Product.t -> bool)
    (c : conditions) (p : Product.t) : bool :=
  holds (on_category c) (String.eqb (Product.category p))
  && holds (on_condition c) (String.eqb (Product.condition p))
  && holds (on_seller c) (String.eqb (Product.seller p))
  && holds (price_gte c) (fun lo => Js.ge (Product.price p) lo)
  && holds (price_lte c) (fun hi => Js.ge hi (Product.price p))
  && holds (on_text c) (fun s => text_search s p).

Inductive order := CreatedAsc | CreatedDesc | PriceAsc | PriceDesc.

(** The [switch (sort)]. *)
Definition sortOption (s : option string) : order :=
  match s with
  | Some s =>
      if (s =? "oldest")%string then CreatedAsc
      else if (s =? "price_low")%string then PriceAsc
      else if (s =? "price_high")%string then PriceDesc
      else CreatedDesc
  | None => CreatedDesc
  end.

(** The order of the store on numbers: that of the numbers, with [NaN]
    before every number. *)
Definition price_le (a b : Js.number) : bool :=
  Js.is_NaN a || (negb (Js.is_NaN b) && Js.le a b).

(** A key of that order: [price_le a b] compares the keys of [a] and [b],
    component after component. *)
Definition price_key (a : Js.number) : Z * Z * Z :=
  match a with
  | S754_nan => (-3, 0, 0)
  | S754_infinity true => (-2, 0, 0)
  | S754_finite true m e => (-1, - e, - Zpos m)
  | S754_zero _ => (0, 0, 0)
  | S754_finite false m e => (1, e, Zpos m)
  | S754_infinity false => (2, 0, 0)
  end.

Definition key_le (x y : Z * Z * Z) : Prop :=
  x.1.1 < y.1.1
  \/ (x.1.1 = y.1.1 /\ (x.1.2 < y.1.2 \/ (x.1.2 = y.1.2 /\ x.2 <= y.2))).

(** [x] may come before [y] in the order. *)
Definition precedes (o : order) (x y : string * Product.t) : Prop :=
  match o with
  | CreatedAsc => (Product.createdAt x.2 <= Product.createdAt y.2)%Z
  | CreatedDesc => (Product.createdAt y.2 <= Product.createdAt x.2)%Z
  | PriceAsc => price_le (Product.price x.2) (Product.price y.2) = true
  | PriceDesc => price_le (Product.price y.2) (Product.price x.2) = true
  end.

Global Instance precedes_dec o : RelDecision (precedes o).
Proof.
  intros x y. destruct o; unfold precedes; apply _.
Defined.

(** [.skip(skip).limit(limit)] on the sorted result: a skip has to be a
    non-negative integer; a limit of 0 is no limit and a negative limit is
    its absolute value; [None] is the error of the driver. *)
Definition window {A} (skip limit : Js.number) (l : list A)
  : option (list A) :=
  match Js.integer_of skip, Js.integer_of limit with
  | Some s, Some n =>
      if (s <? 0)%Z then None
      else
        let rest := drop (Z.to_nat s) l in
        Some (if (n =? 0)%Z then rest else take (Z.to_nat (Z.abs n)) rest)
  | _, _ => None
  end.

Definition param_or (d : Z) (o : option string) : Js.value :=
  match o with
  | Some s => Js.Str s
  | None => Js.Num (Js.of_Z d)
  end.

(** [exports.getProducts]; the products are sent with their ids, the
    populated name of the seller is left out. *)
Definition getProducts (text_search : string -> Product.t -> bool)
    (st : store) (q : query) : response :=
  let pageNum := Js.parseInt (param_or 1 (page q)) in
  let limitNum := Js.parseInt (param_or 12 (limit q)) in
  let skip := Js.mul (Js.sub pageNum (Js.of_Z 1)) limitNum in
  match cast_conditions q with
  | None => server_error
  | Some c =>
      let found :=
        List.filter (fun kv => matches text_search c kv.2)
          (map_to_list (products st)) in
      match window skip limitNum
              (merge_sort (precedes (sortOption (sort q))) found) with
      | None => server_error
      | Some items =>
          let total := Z.of_nat (length found) in
          reply 200
            (PageDoc items total pageNum
               (Js.ceil (Js.div (Js.of_Z total) limitNum)))
      end
  end.

End ProductController.

(** ** routes/user.routes.js and the mount of the application *)

Module Router.

Inductive verb := GET | POST | PUT | DELETE.

Global Instance verb_eq_dec : EqDecision verb.
Proof. solve_decision. Defined.

Inductive segment := Lit (s : string) | Param (name : string).

Inductive handler :=
  | getCurrentUser | updateProfile
  | getFavorites | addToFavorites | removeFromFavorites
  | getCart | addToCart | updateCartItem | removeFromCart | clearCart
  | getUserListings | getReceivedOffers | getSentOffers
  | getAllUsers | getUserById | updateUser | deleteUser.

Global Instance handler_eq_dec : EqDecision handler.
Proof. solve_decision. Defined.

Record route := { on : verb; pattern : list segment; target : handler }.

(** The routes of the user router, in the order of their registration. *)
Definition user_routes : list route :=
  [ {| on := GET; pattern := [Lit "me"]; target := getCurrentUser |};
    {| on := PUT; pattern := [Lit "me"]; target := updateProfile |};
    {| on := GET; pattern := [Lit "favorites"]; target := getFavorites |};
    {| on := POST; pattern := [Lit "favorites"; Param "productId"];
       target := addToFavorites |};
    {| on := DELETE; pattern := [Lit "favorites"; Param "productId"];
       target := removeFromFavorites |};
    {| on := GET; pattern := [Lit "cart"]; target := getCart |};
    {| on := POST; pattern := [Lit "cart"; Param "productId"];
       target := addToCart |};
    {| on := PUT; pattern := [Lit "cart"; Param "productId"];
       target := updateCartItem |};
    {| on := DELETE; pattern := [Lit "cart"; Param "productId"];
       target := removeFromCart |};
    {| on := PUT; pattern := [Lit "cart"; Lit "clear"]; target := clearCart |};
    {| on := GET; pattern := [Lit "listings"]; target := getUserListings |};
    {| on := GET; pattern := [Lit "offers"; Lit "received"];
       target := getReceivedOffers |};
    {| on := GET; pattern := [Lit "offers"; Lit "sent"];
       target := getSentOffers |};
    {| on := GET; pattern := []; target := getAllUsers |};
    {| on := GET; pattern := [Param "id"]; target := getUserById |};
    {| on := PUT; pattern := [Param "id"]; target := updateUser |};
    {| on := DELETE; pattern := [Param "id"]; target := deleteUser |} ].

(** A path, as its non-empty segments, against a pattern: a literal matches
    its text whatever the case of the letters, a parameter matches any
    segment and is bound to it. *)
Fixpoint match_pattern (pat : list segment) (path : list string)
  : option (list (string * string)) :=
  match pat, path with
  | [], [] => Some []
  | Lit s :: pat', x :: path' =>
      if (Js.toLowerCase s =? Js.toLowerCase x)%string
      then match_pattern pat' path' else None
  | Param name :: pat', x :: path' =>
      match match_pattern pat' path' with
      | Some ps => Some ((name, x) :: ps)
      | None => None
      end
  | _, _ => None
  end.

(** The first route of the table that takes the request. *)
Fixpoint dispatch (routes : list route) (v : verb) (path : list string)
  : option (handler * list (string * string)) :=
  match routes with
  | [] => None
  | r :: rest =>
      if bool_decide (on r = v) then
        match match_pattern (pattern r) path with
        | Some ps => Some (target r, ps)
        | None => dispatch rest v path
        end
      else dispatch rest v path
  end.

(** [app.use('/api/users', userRoutes)] *)
Definition mounted (path : list string) : option (list string) :=
  match path with
  | a :: u :: rest =>
      if (Js.toLowerCase a =? "api")%string
         && (Js.toLowerCase u =? "users")%string
      then Some rest else None
  | _ => None
  end.

Definition param (name : string) (ps : list (string * string)) : string :=
  match List.find (fun kv => String.eqb kv.1 name) ps with
  | Some kv => kv.2
  | None => ""
  end.

(** A request to the cart: [caller] is the user that [verifyToken] attached,
    [None] when it refused the token; [quantity] is the field of the body. *)
Record request := {
  method : verb;
  url : list string;
  caller : option string;
  quantity : Js.value
}.

(** A request through the mount, the router, [verifyToken] and the handler.
    [None] when no route of the user router takes it, or when the route
    leads to a handler that is not part of this development. *)
Definition serve (st : store) (r : request) : option (response * store) :=
  match mounted (url r) with
  | None => None
  | Some path =>
      match dispatch user_routes (method r) path with
      | None => None
      | Some (h, ps) =>
          match caller r with
          | None => Some (error 401 "Invalid or expired token", st)
          | Some dbUser =>
              let productId := param "productId" ps in
              match h with
              | addToFavorites =>
                  Some (UserController.addToFavorites st dbUser productId)
              | removeFromFavorites =>
                  Some (UserController.removeFromFavorites st dbUser productId)
              | addToCart =>
                  Some (UserController.addToCart st dbUser productId
                          (quantity r))
              | updateCartItem =>
                  Some (UserController.updateCartItem st dbUser productId
                          (quantity r))
              | removeFromCart =>
                  Some (UserController.removeFromCart st dbUser productId)
              | clearCart => Some (UserController.clearCart st dbUser)
              | _ => None
              end
          end
      end
  end.

End Router.

(** ** Sample data *)

Module Sample.

Definition alice : string := "64b7f0a1c2d3e4f501234501".
Definition bob : string := "64b7f0a1c2d3e4f501234502".

Definition shoes_id : string := "64b7f0a1c2d3e4f5012345a1".
Definition offer_id : string := "64b7f0a1c2d3e4f5012345b1".
Definition fresh_id : string := "64b7f0a1c2d3e4f5012345b2".

Definition footwear (cost : Z) (at_ : Z) : Product.t :=
  {| Product.title := "Shoes"; Product.price := Js.of_Z cost;
     Product.originalPrice := None; Product.category := "Footwear";
     Product.condition := "Good"; Product.seller := alice;
     Product.isAvailable := true; Product.createdAt := at_ |}.

(** Shoes that alice sells for 100. *)
Definition shoes : Product.t := footwear 100 1000.

(** A product whose original price is stored as 0. *)
Definition free_before : Product.t :=
  {| Product.title := "Scarf"; Product.price := Js.of_Z 10;
     Product.originalPrice := Some (Js.of_Z 0); Product.category := "Accessory";
     Product.condition := "New"; Product.seller := alice;
     Product.isAvailable := true; Product.createdAt := 2000 |}.

(** A product reduced from 120 to 90. *)
Definition reduced : Product.t :=
  {| Product.title := "Coat"; Product.price := Js.of_Z 90;
     Product.originalPrice := Some (Js.of_Z 120); Product.category := "Clothing";
     Product.condition := "Like New"; Product.seller := alice;
     Product.isAvailable := true; Product.createdAt := 3000 |}.

(** bob's offer of 50 on the shoes, in a given status. *)
Definition offer_in (s : Offer.state) : Offer.t :=
  {| Offer.product := shoes_id; Offer.buyer := bob; Offer.seller := alice;
     Offer.offerPrice := Js.of_Z 50; Offer.message := "";
     Offer.status := s; Offer.counterOffer := None;
     Offer.expiresAt := 5000 + Offer.hours48 |}.

Definition empty_user : User.t := {| User.favorites := []; User.cart := [] |}.

(** bob with the shoes in his cart, [n] times. *)
Definition bob_with (n : Z) : User.t :=
  {| User.favorites := [shoes_id];
     User.cart := [ {| User.product := shoes_id; User.quantity := Js.of_Z n |} ] |}.

(** A store with the shoes, alice and bob, and bob's offer in status [s]. *)
Definition market (s : Offer.state) : store :=
  {| products := {[ shoes_id := shoes ]};
     offers := {[ offer_id := offer_in s ]};
     users := {[ alice := empty_user; bob := bob_with 5 ]} |}.

(** The same store before any offer was made. *)
Definition quiet_market : store :=
  {| products := {[ shoes_id := shoes ]};
     offers := ∅;
     users := {[ alice := empty_user; bob := bob_with 5 ]} |}.

Definition boots_id : string := "64b7f0a1c2d3e4f5012345a2".
Definition clogs_id : string := "64b7f0a1c2d3e4f5012345a3".
Definition flats_id : string := "64b7f0a1c2d3e4f5012345a4".
Definition heels_id : string := "64b7f0a1c2d3e4f5012345a5".
Definition coat_id : string := "64b7f0a1c2d3e4f5012345a6".

(** Four Footwear products priced 10, 40, 25 and 5, and a coat. *)
Definition catalogue : store :=
  {| products :=
       {[ boots_id := footwear 10 1; clogs_id := footwear 40 2;
          flats_id := footwear 25 3; heels_id := footwear 5 4;
          coat_id := reduced ]};
     offers := ∅;
     users := ∅ |}.

(** The boots as another seller's: a catalogue of two sellers. *)
Definition two_sellers : store :=
  {| products :=
       {[ boots_id :=
            {| Product.title := "Boots"; Product.price := Js.of_Z 10;
               Product.originalPrice := None; Product.category := "Footwear";
               Product.condition := "Good"; Product.seller := bob;
               Product.isAvailable := true; Product.createdAt := 1 |};
          clogs_id := footwear 40 2;
          flats_id := footwear 25 3; heels_id := footwear 5 4 ]};
     offers := ∅;
     users := ∅ |}.

Definition footwear_query : ProductController.query :=
  {| ProductController.category := Some "Footwear";
     ProductController.condition := None;
     ProductController.priceMin := None;
     ProductController.priceMax := None;
     ProductController.sort := Some "price_low";
     ProductController.page := Some "1";
     ProductController.limit := Some "2";
     ProductController.seller := None;
     ProductController.search := None |}.

(** A lamp priced [cost], reduced from [before]. *)
Definition priced (cost before : Z) : Product.t :=
  {| Product.title := "Lamp"; Product.price := Js.of_Z cost;
     Product.originalPrice := Some (Js.of_Z before);
     Product.category := "Home"; Product.condition := "Good";
     Product.seller := alice; Product.isAvailable := true;
     Product.createdAt := 4000 |}.

(** A server that keeps UTC. *)
Definition utc : Date.zone :=
  {| Date.offset_at := fun _ => 0; Date.offset_of_local := fun _ => 0 |}.

(** A server one hour ahead of UTC until the instant 100 000 000, when its
    clocks are put one hour forward. *)
Definition summer : Date.zone :=
  {| Date.offset_at := fun t => if t <? 100000000 then 3600000 else 7200000;
     Date.offset_of_local :=
       fun l => if l <? 103600000 then 3600000 else 7200000 |}.

(** The query for a page of the Footwear, by ascending price. *)
Definition footwear_page (p n : string) : ProductController.query :=
  {| ProductController.category := Some "Footwear";
     ProductController.condition := None;
     ProductController.priceMin := None;
     ProductController.priceMax := None;
     ProductController.sort := Some "price_low";
     ProductController.page := Some p;
     ProductController.limit := Some n;
     ProductController.seller := None;
     ProductController.search := None |}.

(** The query for what a seller sells at a price from [lo] to [hi], by
    ascending price. *)
Definition priced_query (seller lo hi : string) : ProductController.query :=
  {| ProductController.category := None;
     ProductController.condition := None;
     ProductController.priceMin := Some lo;
     ProductController.priceMax := Some hi;
     ProductController.sort := Some "price_low";
     ProductController.page := None;
     ProductController.limit := None;
     ProductController.seller := Some seller;
     ProductController.search := None |}.

End Sample.

(** ** Handlers that read: what they send *)

(** The answer of a handler that sends a value of type [A] or a message. *)
Inductive answer (A : Type) :=
  | Sent (code : nat) (a : A)
  | Refused (code : nat) (m : string).
Arguments Sent {A} code a.
Arguments Refused {A} code m.

Definition answer_code {A} (r : answer A) : nat :=
  match r with
  | Sent code _ => code
  | Refused code _ => code
  end.

(** [Model.findOne(cond)] on a collection: a document that satisfies the
    condition. *)
Definition find_doc {A} (cond : A -> bool) (col : gmap string A)
  : option (string * A) :=
  List.find (fun kv => cond kv.2) (map_to_list col).

(** [Model.find(cond)] on a collection: the documents that satisfy the
    condition. *)
Definition find_docs {A} (cond : A -> bool) (col : gmap string A)
  : list (string * A) :=
  List.filter (fun kv => cond kv.2) (map_to_list col).

(** ** controllers/offer.controller.js: the reads *)

Module OfferQueries.

(** The order of [sort({ createdAt: -1 })] on offers; [created] gives the
    time at which the document of an id was created. *)
Definition newest (created : string -> Z) (x y : string * Offer.t) : Prop :=
  created y.1 <= created x.1.

Global Instance newest_dec created : RelDecision (newest created).
Proof. intros x y. unfold newest. apply _. Defined.

(** [exports.getProductOffers] *)
Definition getProductOffers (created : string -> Z) (st : store)
    (dbUser productId : string) : answer (list (string * Offer.t)) :=
  match ObjectId.cast productId with
  | None => Refused 500 "Server error"
  | Some pid =>
      match products st !! pid with
      | None => Refused 404 "Product not found"
      | Some product =>
          if negb (String.eqb (Product.seller product) dbUser) then
            Refused 403 "Not authorized to view these offers"
          else
            Sent 200
              (merge_sort (newest created)
                 (find_docs (fun o => String.eqb (Offer.product o) pid)
                    (offers st)))
      end
  end.

(** [exports.getOfferById].  The offer is read with its buyer and seller
    populated; a party whose user record is gone is null, and reading its
    [_id] throws. *)
Definition getOfferById (st : store) (dbUser offerId : string)
  : answer (string * Offer.t) :=
  match ObjectId.cast offerId with
  | None => Refused 500 "Server error"
  | Some oid =>
      match offers st !! oid with
      | None => Refused 404 "Offer not found"
      | Some offer =>
          match users st !! Offer.buyer offer with
          | None => Refused 500 "Server error"
          | Some _ =>
              if String.eqb (Offer.buyer offer) dbUser then
                Sent 200 (oid, offer)
              else
                match users st !! Offer.seller offer with
                | None => Refused 500 "Server error"
                | Some _ =>
                    if String.eqb (Offer.seller offer) dbUser then
                      Sent 200 (oid, offer)
                    else Refused 403 "Not authorized to view this offer"
                end
          end
      end
  end.

End OfferQueries.

(** ** controllers/user.controller.js: the reads *)

Module UserQueries.

(** [exports.getCart] *)
Definition getCart (st : store) (dbUser : string) : response :=
  match users st !! dbUser with
  | None => server_error
  | Some user => UserController.cart_response st user
  end.

(** [exports.getFavorites] *)
Definition getFavorites (st : store) (dbUser : string) : response :=
  match users st !! dbUser with
  | None => server_error
  | Some user => UserController.favorites_response st user
  end.

(** [exports.getUserListings]: the products that the caller sells, the
    newest first. *)
Definition getUserListings (st : store) (dbUser : string)
  : answer (list (string * Product.t)) :=
  Sent 200
    (merge_sort (ProductController.precedes ProductController.CreatedDesc)
       (find_docs (fun p => String.eqb (Product.seller p) dbUser)
          (products st))).

End UserQueries.

(** ** controllers/product.controller.js: related products *)

Module ProductQueries.

(** [exports.getRelatedProducts]: a parameter that does not cast makes
    [findById] throw an error of kind ObjectId, which the [catch] answers
    with 404. *)
Definition getRelatedProducts (st : store) (id : string)
  : answer (list (string * Product.t)) :=
  match ObjectId.cast id with
  | None => Refused 404 "Product not found"
  | Some pid =>
      match products st !! pid with
      | None => Refused 404 "Product not found"
      | Some product =>
          Sent 200
            (take 6
               (merge_sort
                  (ProductController.precedes ProductController.CreatedDesc)
                  (List.filter
                     (fun kv =>
                        negb (String.eqb kv.1 pid)
                        && String.eqb (Product.category kv.2)
                             (Product.category product))
                     (map_to_list (products st)))))
      end
  end.

End ProductQueries.

(** ** What a handler of the user router may do to the store *)

(** Nothing, or it replaces the record of the caller, which existed, by one
    that [keeps] relates to it. *)
Definition stores_caller (st : store) (dbUser : string) (st' : store)
    (keeps : User.t -> User.t -> Prop) : Prop :=
  st' = st
  \/ exists user u, users st !! dbUser = Some user
                    /\ st' = set_user dbUser u st /\ keeps user u.

(** ** More sample data *)

Module Fixture.

(** bob with the shoes and the boots in his cart, and no favorites. *)
Definition bob_two : User.t :=
  {| User.favorites := [];
     User.cart :=
       [ {| User.product := Sample.shoes_id; User.quantity := Js.of_Z 1 |};
         {| User.product := Sample.boots_id; User.quantity := Js.of_Z 2 |} ] |}.

(** A store from which the shoes are gone while bob's cart still has
    them. *)
Definition stale_market : store :=
  {| products := {[ Sample.boots_id := Sample.footwear 10 1 ]};
     offers := ∅;
     users := {[ Sample.bob := bob_two ]} |}.

(** The id of the shoes, spelled with capital letters. *)
Definition shoes_capitals : string := "64B7F0A1C2D3E4F5012345A1".

(** Every product, with no limit. *)
Definition unlimited_query : ProductController.query :=
  {| ProductController.category := None;
     ProductController.condition := None;
     ProductController.priceMin := None;
     ProductController.priceMax := None;
     ProductController.sort := None;
     ProductController.page := Some "3";
     ProductController.limit := Some "0";
     ProductController.seller := None;
     ProductController.search := None |}.

(** The time at which bob's offer was created. *)
Definition offer_created (id : string) : Z :=
  if String.eqb id Sample.offer_id then 5000 else 0.

End Fixture.

(** * Properties *)

(** ** Conversions of JavaScript, on samples *)

Example parseInt_samples :
  Js.parseInt (Js.Str " 12px") = Js.of_Z 12 /\
  Js.parseInt (Js.Str "-0x1A") = Js.of_Z (-26) /\
  Js.parseInt (Js.Str "abc") = Js.NaN /\
  Js.parseInt (Js.Str "9007199254740993") = Js.of_Z 9007199254740992 /\
  Js.parseInt (Js.Str "0.99999999999999999") = Js.of_Z 0 /\
  Js.parseInt (Js.Num (Js.of_decimal false 15 (-1))) = Js.of_Z 1 /\
  Js.parseInt (Js.Num (Js.of_decimal true 35 (-1))) = Js.of_Z (-3) /\
  Js.parseInt (Js.Num (Js.of_decimal false 15 20)) = Js.of_Z 1 /\
  Js.parseInt (Js.Num (Js.of_decimal false 5 (-7))) = Js.of_Z 5 /\
  Js.parseInt (Js.Num (Js.of_Z 12)) = Js.of_Z 12 /\
  Js.parseInt (Js.Obj "3,4") = Js.of_Z 3 /\
  Js.parseInt (Js.Bool true) = Js.NaN.
Proof. vm_compute. repeat split; reflexivity. Qed.

Example toNumber_samples :
  Js.toNumber (Js.Str " 42 ") = Js.of_Z 42 /\
  Js.toNumber (Js.Str "") = Js.of_Z 0 /\
  Js.toNumber (Js.Str "0x10") = Js.of_Z 16 /\
  Js.toNumber (Js.Str "-1.5e1") = Js.of_Z (-15) /\
  Js.toNumber (Js.Str "0.99999999999999999") = Js.of_Z 1 /\
  Js.toNumber (Js.Str "1e1000") = Js.PosInf /\
  Js.toNumber (Js.Str "12px") = Js.NaN /\
  Js.toNumber (Js.Str ".") = Js.NaN /\
  Js.toNumber (Js.Str "-Infinity") = Js.NegInf.
Proof. vm_compute. repeat split; reflexivity. Qed.

Example toString_samples :
  Js.toString (Js.of_decimal false 1 (-1)) = "0.1" /\
  Js.toString (Js.add (Js.of_decimal false 1 (-1)) (Js.of_decimal false 2 (-1)))
  = "0.30000000000000004" /\
  Js.toString (Js.of_Z (2 ^ 60)) = "1152921504606847000" /\
  Js.toString (Js.of_decimal false 1 21) = "1e+21" /\
  Js.toString (Js.of_decimal true 123 (-8)) = "-0.00000123" /\
  Js.toString (Js.of_decimal false 5 (-324)) = "5e-324".
Proof. vm_compute. repeat split; reflexivity. Qed.

(** ** Numbers *)

Lemma ge_casts (n m : Js.number) : Js.ge n m = true -> Js.casts n = true.
Proof. unfold Js.ge. destruct n, m; cbn; congruence. Qed.

(** ** The discount of a product (models/Product.js) *)

Lemma discountPercentage_unset (p : Product.t) :
  Product.originalPrice p = None -> Product.discountPercentage p = Js.of_Z 0.
Proof. unfold Product.discountPercentage. intros ->. reflexivity. Qed.

Lemma discountPercentage_falsy (p : Product.t) (original : Js.number) :
  Product.originalPrice p = Some original ->
  Js.truthy (Js.Num original) = false ->
  Product.discountPercentage p = Js.of_Z 0.
Proof.
  unfold Product.discountPercentage. intros -> Hz. cbn [Product.path_value].
  by rewrite Hz.
Qed.

Lemma discountPercentage_set (p : Product.t) (original : Js.number) :
  Product.originalPrice p = Some original ->
  Js.truthy (Js.Num original) = true ->
  Product.discountPercentage p
  = Js.round
      (Js.mul (Js.div (Js.sub original (Product.price p)) original)
         (Js.of_Z 100)).
Proof.
  unfold Product.discountPercentage. intros -> Hz. cbn [Product.path_value].
  by rewrite Hz.
Qed.

(** C7, as stated, fails: a product whose originalPrice is set to 0 has the
    discount 0, where the formula of the claim divides by zero and is
    minus infinity. *)
Lemma discountPercentage_zero_original :
  Product.originalPrice Sample.free_before = Some (Js.of_Z 0) /\
  Product.discountPercentage Sample.free_before = Js.of_Z 0 /\
  Product.spec_discountPercentage Sample.free_before = Js.NegInf /\
  Product.discountPercentage Sample.free_before
  <> Product.spec_discountPercentage Sample.free_before.
Proof. vm_compute. repeat split; try reflexivity. discriminate. Qed.

(** C7, amended: the discount of a product is 0 when no originalPrice is
    set or when it is falsy (0, or not a number), and otherwise it is
    Math.round((originalPrice - price) / originalPrice * 100) in the
    arithmetic of doubles, the value of the formula of the specification:
    25 for a price of 90 reduced from 120, and 57 for a price of 17 reduced
    from 40, where the quotient is the double below 57.5. *)
Theorem discountPercentage_spec (p : Product.t) :
  (Product.originalPrice p = None -> Product.discountPercentage p = Js.of_Z 0)
  /\ (forall original, Product.originalPrice p = Some original ->
        Js.truthy (Js.Num original) = false ->
        Product.discountPercentage p = Js.of_Z 0)
  /\ (forall original, Product.originalPrice p = Some original ->
        Js.truthy (Js.Num original) = true ->
        Product.discountPercentage p
        = Js.round
            (Js.mul (Js.div (Js.sub original (Product.price p)) original)
               (Js.of_Z 100))
        /\ Product.discountPercentage p = Product.spec_discountPercentage p)
  /\ Product.discountPercentage Sample.reduced = Js.of_Z 25
  /\ Product.discountPercentage (Sample.priced 17 40) = Js.of_Z 57
  /\ Js.toString
       (Js.mul (Js.div (Js.sub (Js.of_Z 40) (Js.of_Z 17)) (Js.of_Z 40))
          (Js.of_Z 100))
     = "57.49999999999999".
Proof.
  split; [apply discountPercentage_unset|].
  split; [apply discountPercentage_falsy|].
  split.
  { intros original Ho Hnz. split; [by apply discountPercentage_set|].
    rewrite (discountPercentage_set p original Ho Hnz).
    unfold Product.spec_discountPercentage. by rewrite Ho. }
  vm_compute. repeat split; reflexivity.
Qed.

Lemma discountPercentage_spec_witness :
  Product.discountPercentage Sample.reduced
  = Js.round
      (Js.mul (Js.div (Js.sub (Js.of_Z 120) (Js.of_Z 90)) (Js.of_Z 120))
         (Js.of_Z 100)).
Proof.
  destruct (discountPercentage_spec Sample.reduced) as (_ & _ & H & _).
  destruct (H (Js.of_Z 120) eq_refl eq_refl) as [-> _]. reflexivity.
Defined.

(** ** Offers (controllers/offer.controller.js) *)

Lemma string_eqb_true (a b : string) : (a =? b)%string = true <-> a = b.
Proof. apply String.eqb_eq. Qed.

Lemma string_eqb_false (a b : string) : (a =? b)%string = false <-> a <> b.
Proof. apply String.eqb_neq. Qed.

(** [findOne] finds nothing exactly when no document satisfies the
    condition. *)
Lemma findOne_None (cond : Offer.t -> bool) (col : gmap string Offer.t) :
  Offer.findOne cond col = None
  <-> (forall id o, col !! id = Some o -> cond o = false).
Proof.
  unfold Offer.findOne. split.
  - intros H id o Hid.
    apply (find_none _ _ H (id, o)).
    apply list_elem_of_In, elem_of_map_to_list. exact Hid.
  - intros H. destruct (find _ _) as [[id o]|] eqn:E; [|reflexivity].
    apply find_some in E as [Hin Hc].
    apply list_elem_of_In, elem_of_map_to_list in Hin.
    cbn in Hc. rewrite (H id o Hin) in Hc. discriminate.
Qed.

Lemma findOne_Some (cond : Offer.t -> bool) (col : gmap string Offer.t) id o :
  Offer.findOne cond col = Some (id, o) -> col !! id = Some o /\ cond o = true.
Proof.
  unfold Offer.findOne. intros E. apply find_some in E as [Hin Hc].
  apply list_elem_of_In, elem_of_map_to_list in Hin. auto.
Qed.

(** Changing the status of an offer does not change whether it validates. *)
Lemma validate_set_status (s : Offer.state) (o : Offer.t) :
  Offer.validate (Offer.set_status s o) = Offer.validate o.
Proof. reflexivity. Qed.

(** The response of the seller is applied whatever the status of the offer:
    an accept by the seller of the product moves any stored offer to
    [accepted]. *)
Lemma respondToOffer_accept_any_status (st : store) (dbUser offerId oid : string)
    (offer : Offer.t) (product : Product.t) (b : OfferController.response_body) :
  ObjectId.cast offerId = Some oid ->
  offers st !! oid = Some offer ->
  products st !! Offer.product offer = Some product ->
  Product.seller product = dbUser ->
  Offer.validate offer = true ->
  OfferController.action b = Js.Str "accept" ->
  OfferController.respondToOffer st dbUser offerId b
  = (reply 200 (OfferDoc oid (Offer.set_status Offer.accepted offer)),
     set_offers (<[oid := Offer.set_status Offer.accepted offer]> (offers st)) st).
Proof.
  intros Hc Ho Hp Hs Hv Ha. unfold OfferController.respondToOffer.
  rewrite Hc, Ho, Hp, Ha. apply string_eqb_true in Hs. rewrite Hs. cbn.
  unfold Offer.save. rewrite validate_set_status, Hv. reflexivity.
Qed.

(** C1: on an offer that is already [accepted], a [reject] by the seller is
    answered 200 and stores the offer as [rejected]; the handler does not
    read the status. *)
Theorem respondToOffer_overwrites_accepted :
  Offer.status (Sample.offer_in Offer.accepted) = Offer.accepted /\
  OfferController.respondToOffer (Sample.market Offer.accepted)
    Sample.alice Sample.offer_id
    {| OfferController.action := Js.Str "reject";
       OfferController.counterPrice := Js.Undefined;
       OfferController.counterMessage := None |}
  = (reply 200 (OfferDoc Sample.offer_id (Sample.offer_in Offer.rejected)),
     Sample.market Offer.rejected).
Proof. split; [reflexivity|]. vm_compute. reflexivity. Qed.

Lemma is_string_other (v : Js.value) (name : string) :
  v <> Js.Str name -> Js.is_string v name = false.
Proof.
  destruct v; cbn; try reflexivity. intros H.
  apply string_eqb_false. congruence.
Qed.

(** C3: the buyer's response to a counter offer.  For a stored offer:
    a caller who is not its buyer is answered 403; the buyer is answered
    400 when the status is not [countered] and when the action is neither
    accept nor reject; in these cases, and whenever the status is not
    [countered], the store is unchanged.  The store changes only for the
    buyer of a [countered] offer with one of the two actions, and then the
    status becomes [accepted] or [rejected]. *)
Theorem respondToCounterOffer_guards (st : store) (dbUser offerId oid : string)
    (offer : Offer.t) (action : Js.value) :
  ObjectId.cast offerId = Some oid ->
  offers st !! oid = Some offer ->
  let result := OfferController.respondToCounterOffer st dbUser offerId action in
  (Offer.buyer offer <> dbUser ->
     status result.1 = 403%nat /\ result.2 = st)
  /\ (Offer.buyer offer = dbUser -> Offer.status offer <> Offer.countered ->
        status result.1 = 400%nat /\ result.2 = st)
  /\ (Offer.buyer offer = dbUser ->
      action <> Js.Str "accept" -> action <> Js.Str "reject" ->
        status result.1 = 400%nat /\ result.2 = st)
  /\ (Offer.status offer <> Offer.countered -> result.2 = st)
  /\ (result.2 <> st \/ status result.1 = 200%nat ->
        Offer.status offer = Offer.countered /\ Offer.buyer offer = dbUser
        /\ (action = Js.Str "accept" \/ action = Js.Str "reject"))
  /\ (Offer.buyer offer = dbUser -> Offer.status offer = Offer.countered ->
      Offer.validate offer = true ->
        (action = Js.Str "accept" ->
           result = (reply 200 (OfferDoc oid (Offer.set_status Offer.accepted offer)),
                     set_offers (<[oid := Offer.set_status Offer.accepted offer]>
                                   (offers st)) st))
        /\ (action = Js.Str "reject" ->
              result = (reply 200 (OfferDoc oid (Offer.set_status Offer.rejected offer)),
                        set_offers (<[oid := Offer.set_status Offer.rejected offer]>
                                      (offers st)) st))).
Proof.
  intros Hc Ho result. subst result.
  unfold OfferController.respondToCounterOffer. rewrite Hc, Ho.
  destruct (String.eqb (Offer.buyer offer) dbUser) eqn:Eb; cbn [negb].
  2:{ apply string_eqb_false in Eb. cbn.
      split; [intros _; split; reflexivity|].
      split; [intros; contradiction|].
      split; [intros; contradiction|].
      split; [reflexivity|].
      split; [intros [Hx|Hx]; [contradiction | discriminate]|].
      intros; contradiction. }
  apply string_eqb_true in Eb.
  destruct (bool_decide (Offer.status offer = Offer.countered)) eqn:Es;
    cbn [negb].
  2:{ apply bool_decide_eq_false in Es. cbn.
      split; [intros; contradiction|].
      split; [intros _ _; split; reflexivity|].
      split; [intros _ _ _; split; reflexivity|].
      split; [reflexivity|].
      split; [intros [Hx|Hx]; [contradiction | discriminate]|].
      intros; contradiction. }
  apply bool_decide_eq_true in Es.
  split; [intros; contradiction|]. split; [intros; contradiction|].
  split.
  { intros _ Ha Hr. rewrite (is_string_other _ _ Ha), (is_string_other _ _ Hr).
    split; reflexivity. }
  split; [intros; contradiction|].
  split.
  { intros H. split; [exact Es|]. split; [exact Eb|].
    destruct (Js.is_string action "accept") eqn:Ea.
    { left. destruct action; try discriminate. cbn in Ea.
      apply string_eqb_true in Ea. congruence. }
    destruct (Js.is_string action "reject") eqn:Er.
    { right. destruct action; try discriminate. cbn in Er.
      apply string_eqb_true in Er. congruence. }
    cbn in H. destruct H as [Hx|Hx]; [contradiction | discriminate]. }
  intros _ _ Hv. unfold Offer.save.
  split; intros ->; cbn; rewrite validate_set_status, Hv; reflexivity.
Qed.

Lemma respondToCounterOffer_guards_witness :
  OfferController.respondToCounterOffer (Sample.market Offer.countered)
    Sample.bob Sample.offer_id (Js.Str "accept")
  = (reply 200 (OfferDoc Sample.offer_id (Sample.offer_in Offer.accepted)),
     Sample.market Offer.accepted)
  /\ (OfferController.respondToCounterOffer (Sample.market Offer.pending)
        Sample.bob Sample.offer_id (Js.Str "accept")).2
     = Sample.market Offer.pending.
Proof.
  split.
  - destruct (respondToCounterOffer_guards (Sample.market Offer.countered)
                Sample.bob Sample.offer_id Sample.offer_id
                (Sample.offer_in Offer.countered) (Js.Str "accept")
                eq_refl eq_refl) as (_ & _ & _ & _ & _ & H).
    destruct (H eq_refl eq_refl eq_refl) as [H1 _].
    rewrite (H1 eq_refl). vm_compute. reflexivity.
  - destruct (respondToCounterOffer_guards (Sample.market Offer.pending)
                Sample.bob Sample.offer_id Sample.offer_id
                (Sample.offer_in Offer.pending) (Js.Str "accept")
                eq_refl eq_refl) as (_ & H & _).
    apply H; [reflexivity | discriminate].
Defined.

Lemma pending_by_true (pid buyerId : string) (o : Offer.t) :
  OfferController.pending_by pid buyerId o = true
  <-> Offer.product o = pid /\ Offer.buyer o = buyerId
      /\ Offer.status o = Offer.pending.
Proof.
  unfold OfferController.pending_by.
  rewrite !andb_true_iff, !string_eqb_true, bool_decide_eq_true. tauto.
Qed.

(** No stored offer of the buyer on the product is pending. *)
Lemma no_pending_findOne (st : store) (pid buyerId : string) :
  (forall id o, offers st !! id = Some o ->
     ~ (Offer.product o = pid /\ Offer.buyer o = buyerId
        /\ Offer.status o = Offer.pending))
  <-> Offer.findOne (OfferController.pending_by pid buyerId) (offers st) = None.
Proof.
  rewrite findOne_None. split; intros H id o Hid.
  - destruct (OfferController.pending_by pid buyerId o) eqn:E; [|reflexivity].
    apply pending_by_true in E. destruct (H id o Hid E).
  - intros E. apply pending_by_true in E. rewrite (H id o Hid) in E.
    discriminate.
Qed.

(** ** The default of [expiresAt] (models/Offer.js) *)

(** Setting the hours of a date to its hours plus [h] moves its local time
    [h] hours ahead. *)
Lemma setHours_plus (tz : Date.zone) (t h : Z) :
  Date.setHours tz t (Date.getHours tz t + h)
  = Date.TimeClip
      (Date.UTC tz (Date.LocalTime tz t + h * Date.msPerHour)).
Proof.
  unfold Date.setHours, Date.getHours. f_equal. f_equal.
  set (l := Date.LocalTime tz t). unfold Date.msPerDay, Date.msPerHour.
  pose proof (Z.div_mod l 3600000 ltac:(lia)) as H1.
  pose proof (Z.div_mod (l / 3600000) 24 ltac:(lia)) as H2.
  assert (l / 3600000 / 24 = l / 86400000) as H3
    by (rewrite Z.div_div by lia; reflexivity).
  rewrite H3 in H2. lia.
Qed.

Lemma default_expiresAt_local (tz : Date.zone) (now : Z) :
  Offer.default_expiresAt tz now
  = Date.TimeClip
      (now + Date.offset_at tz now + Offer.hours48
       - Date.offset_of_local tz
           (now + Date.offset_at tz now + Offer.hours48)).
Proof. unfold Offer.default_expiresAt. by rewrite setHours_plus. Qed.

Lemma TimeClip_Some (t e : Z) : Date.TimeClip t = Some e -> e = t.
Proof. unfold Date.TimeClip. destruct (_ <=? _); congruence. Qed.

Lemma validate_create (tz : Date.zone) (now : Z) (pid buyerId sellerId : string)
    (n : Js.number) (m : string) (offer : Offer.t) :
  Offer.create tz now pid buyerId sellerId n m = Some offer ->
  Offer.validate offer
  = Js.casts n && Js.ge n (Js.of_Z 1) && (Js.length (Js.trim m) <=? 500)%nat.
Proof.
  unfold Offer.create. destruct (Offer.default_expiresAt tz now); [|done].
  intros [= <-]. unfold Offer.validate. cbn. apply andb_true_r.
Qed.




(** ** Favorites and cart (models/User.js, controllers/user.controller.js) *)

Lemma set_user_same (st : store) (id : string) (u : User.t) :
  users st !! id = Some u -> set_user id u st = st.
Proof.
  intros H. destruct st as [ps os us]. unfold set_user. cbn in *.
  f_equal. by apply insert_id.
Qed.

Lemma includes_elem_of (ids : list string) (p : string) :
  User.includes ids p = true <-> p ∈ ids.
Proof.
  unfold User.includes. rewrite existsb_exists. split.
  - intros (x & Hin & Hx). apply string_eqb_true in Hx. subst x.
    by apply list_elem_of_In.
  - intros Hin. exists p. split; [by apply list_elem_of_In|].
    by apply string_eqb_true.
Qed.

Lemma filter_other_id (ids : list string) (p : string) :
  p ∉ ids -> List.filter (fun id => negb (String.eqb id p)) ids = ids.
Proof.
  induction ids as [|x ids IH]; [reflexivity|].
  rewrite not_elem_of_cons. intros [Hx Hids]. cbn.
  assert (String.eqb x p = false) as -> by (apply string_eqb_false; congruence).
  cbn. by rewrite IH.
Qed.

Lemma save_valid (u : User.t) : User.validate u = true -> User.save u = User.Saved u.
Proof. unfold User.save. by intros ->. Qed.

Lemma lower_chars_id (l : list ascii) :
  forallb (fun c => negb (Js.is_upper c)) l = true -> map Js.lower_char l = l.
Proof.
  induction l as [|c l IH]; [reflexivity|].
  cbn. rewrite andb_true_iff. intros [Hc Hl].
  unfold Js.lower_char at 1. apply negb_true_iff in Hc. rewrite Hc.
  by rewrite (IH Hl).
Qed.

(** Casting the printed form of an ObjectId gives the same ObjectId. *)
Lemma cast_canonical (s : string) :
  ObjectId.canonical s = true -> ObjectId.cast s = Some s.
Proof.
  unfold ObjectId.canonical, ObjectId.cast. rewrite andb_true_iff.
  intros [-> Hl]. unfold Js.toLowerCase.
  by rewrite (lower_chars_id _ Hl), string_of_list_ascii_of_string.
Qed.

(** A string that is one of the printed ids of a list and casts to an
    id, casts to itself. *)
Lemma cast_of_printed (ids : list string) (s pid : string) :
  Forall (fun id => ObjectId.canonical id = true) ids ->
  s ∈ ids -> ObjectId.cast s = Some pid -> pid = s.
Proof.
  intros Hall Hin Hc. rewrite Forall_forall in Hall.
  rewrite (cast_canonical _ (Hall s Hin)) in Hc. congruence.
Qed.

(** For a user whose favorites are ObjectIds and a parameter that casts to
    a product: adding a product that is among the favorites is fulfilled
    and leaves the set of favorites as it is, and the document itself when
    the parameter is the id as printed; removing a product that is not
    among them is fulfilled and leaves the document as it is.  Through the
    handlers, for a product that exists, the answer is 200, and the store
    is unchanged when the parameter is the id as printed. *)
Lemma favorites_of_printed_ids (u : User.t) (productId pid : string) :
  User.validate u = true ->
  Forall (fun id => ObjectId.canonical id = true) (User.favorites u) ->
  ObjectId.cast productId = Some pid ->
  (pid ∈ User.favorites u ->
     exists u',
       User.addToFavorites u productId = User.Saved u'
       /\ (forall x, x ∈ User.favorites u' <-> x ∈ User.favorites u)
       /\ User.cart u' = User.cart u
       /\ (productId = pid -> u' = u))
  /\ (pid ∉ User.favorites u ->
        User.removeFromFavorites u productId = User.Saved u)
  /\ (forall (st : store) (dbUser : string),
        users st !! dbUser = Some u ->
        (pid ∈ User.favorites u -> is_Some (products st !! pid) ->
           status (UserController.addToFavorites st dbUser productId).1 = 200%nat
           /\ (productId = pid ->
               (UserController.addToFavorites st dbUser productId).2 = st))
        /\ (pid ∉ User.favorites u ->
              status (UserController.removeFromFavorites st dbUser productId).1
              = 200%nat
              /\ (UserController.removeFromFavorites st dbUser productId).2 = st)).
Proof.
  intros Hv Hall Hc.
  assert (pid ∈ User.favorites u ->
          exists u',
            User.addToFavorites u productId = User.Saved u'
            /\ (forall x, x ∈ User.favorites u' <-> x ∈ User.favorites u)
            /\ User.cart u' = User.cart u
            /\ (productId = pid -> u' = u)) as Hadd.
  { intros Hin. unfold User.addToFavorites.
    destruct (User.includes (User.favorites u) productId) eqn:Ei; cbn [negb].
    - exists u. rewrite (save_valid _ Hv). repeat split; auto.
    - rewrite Hc. eexists. rewrite save_valid by exact Hv.
      split; [reflexivity|]. cbn. split; [|split; [reflexivity|]].
      + intros x. rewrite elem_of_app, list_elem_of_singleton.
        split; [intros [?| ->]; auto | auto].
      + intros ->. apply includes_elem_of in Hin. congruence. }
  assert (pid ∉ User.favorites u ->
          User.removeFromFavorites u productId = User.Saved u) as Hrem.
  { intros Hin. unfold User.removeFromFavorites.
    rewrite filter_other_id.
    - replace (User.set_favorites (User.favorites u) u) with u by by destruct u.
      by apply save_valid.
    - intros Hp. apply Hin.
      by rewrite (cast_of_printed _ _ _ Hall Hp Hc). }
  split; [exact Hadd|]. split; [exact Hrem|].
  intros st dbUser Hu. split.
  - intros Hin [p Hp]. unfold UserController.addToFavorites.
    destruct (Hadd Hin) as (u' & Hm & _ & _ & Hsame).
    rewrite Hc, Hp, Hu, Hm. cbn. split; [reflexivity|].
    intros E. rewrite (Hsame E). by apply set_user_same.
  - intros Hin. unfold UserController.removeFromFavorites.
    rewrite Hu, (Hrem Hin). cbn. split; [reflexivity|].
    by apply set_user_same.
Qed.

(** C6: the favorites of bob hold the shoes.  A request to add the shoes
    that spells their id in capital hexadecimal digits is cast to the shoes
    by [findById], which finds the product; [includes] compares the printed
    id of each favorite with the parameter as it is spelled and finds none,
    so the id is pushed again: the answer is 200, the stored favorites hold
    the shoes twice, and the shoes are sent twice. *)
Theorem addToFavorites_duplicates_favorite :
  let shouted := "64B7F0A1C2D3E4F5012345A1" in
  let result :=
    UserController.addToFavorites Sample.quiet_market Sample.bob shouted in
  ObjectId.cast shouted = Some Sample.shoes_id
  /\ User.favorites <$> users Sample.quiet_market !! Sample.bob
     = Some [Sample.shoes_id]
  /\ result.1 = reply 200 (FavoritesDoc [Sample.shoes_id; Sample.shoes_id])
  /\ User.favorites <$> users result.2 !! Sample.bob
     = Some [Sample.shoes_id; Sample.shoes_id].
Proof. vm_compute. repeat split; reflexivity. Qed.

Lemma find_item_Some (c : list User.cart_item) (p : string) i item :
  User.find_item c p = Some (i, item) ->
  c !! i = Some item /\ User.product item = p.
Proof. unfold User.find_item. rewrite list_find_Some. tauto. Qed.

Lemma find_item_None (c : list User.cart_item) (p : string) :
  User.find_item c p = None <-> Forall (fun item => User.product item <> p) c.
Proof. unfold User.find_item. apply list_find_None. Qed.

(** In a cart of one entry per product, the entry of a product is the one
    that [find] returns. *)
Lemma find_item_unique (c : list User.cart_item) i item :
  NoDup (User.product <$> c) -> c !! i = Some item ->
  User.find_item c (User.product item) = Some (i, item).
Proof.
  intros Hnd Hi. unfold User.find_item. apply list_find_Some.
  split; [exact Hi|]. split; [reflexivity|].
  intros j y Hj Hlt Heq.
  assert (j = i) as ->; [|lia].
  eapply (NoDup_lookup _ _ _ _ Hnd).
  - rewrite list_lookup_fmap, Hj. reflexivity.
  - rewrite list_lookup_fmap, Hi. cbn. by rewrite Heq.
Qed.

Lemma products_set_quantity (c : list User.cart_item) i item q :
  c !! i = Some item ->
  User.product <$> <[i := User.set_quantity q item]> c = User.product <$> c.
Proof.
  intros Hi. rewrite list_fmap_insert. cbn. apply list_insert_id.
  by rewrite list_lookup_fmap, Hi.
Qed.

Lemma forallb_insert {A} (f : A -> bool) (l : list A) i x :
  forallb f l = true -> f x = true -> forallb f (<[i := x]> l) = true.
Proof.
  revert i. induction l as [|y l IH]; intros i; [by destruct i|].
  cbn. rewrite andb_true_iff. intros [Hy Hl] Hx.
  destruct i; cbn; rewrite andb_true_iff; auto.
Qed.

Lemma forallb_snoc {A} (f : A -> bool) (l : list A) x :
  forallb f l = true -> f x = true -> forallb f (l ++ [x]) = true.
Proof. intros Hl Hx. rewrite forallb_app, Hl. cbn. by rewrite Hx. Qed.

Lemma forallb_filter {A} (f g : A -> bool) (l : list A) :
  forallb f l = true -> forallb f (List.filter g l) = true.
Proof.
  induction l as [|y l IH]; [done|]. cbn. rewrite andb_true_iff.
  intros [Hy Hl]. destruct (g y); cbn; [rewrite Hy|]; auto.
Qed.

Lemma NoDup_products_filter (g : User.cart_item -> bool)
    (c : list User.cart_item) :
  NoDup (User.product <$> c) -> NoDup (User.product <$> List.filter g c).
Proof.
  induction c as [|x c IH]; [done|]. cbn. rewrite NoDup_cons.
  intros [Hx Hc]. destruct (g x); [|auto].
  cbn. apply NoDup_cons. split; [|auto].
  intros Hin. apply Hx. apply list_elem_of_fmap in Hin as (y & Hy & Hin).
  apply list_elem_of_fmap. exists y. split; [exact Hy|].
  apply list_elem_of_In in Hin. apply filter_In in Hin as [Hin _].
  by apply list_elem_of_In.
Qed.

Lemma NoDup_products_snoc (c : list User.cart_item) (p : string) q :
  NoDup (User.product <$> c) ->
  Forall (fun item => User.product item <> p) c ->
  NoDup (User.product <$> c ++ [{| User.product := p; User.quantity := q |}]).
Proof.
  intros Hnd Hall. rewrite fmap_app. cbn. apply NoDup_app.
  split; [exact Hnd|]. split; [|apply NoDup_singleton].
  intros x Hx Hp. apply list_elem_of_singleton in Hp. subst x.
  apply list_elem_of_fmap in Hx as (y & Hy & Hin).
  rewrite Forall_forall in Hall. by apply (Hall y Hin).
Qed.

(** What [save] fulfils with is the document it was given. *)
Lemma save_Saved (u u' : User.t) : User.save u = User.Saved u' -> u' = u.
Proof. unfold User.save. destruct (User.validate u); congruence. Qed.

Lemma addToCart_keeps_unique (u u' : User.t) (p : string) q :
  NoDup (User.product <$> User.cart u) -> ObjectId.canonical p = true ->
  User.addToCart u p q = User.Saved u' ->
  NoDup (User.product <$> User.cart u').
Proof.
  intros Hnd Hp. unfold User.addToCart.
  destruct (User.find_item (User.cart u) p) as [[i item]|] eqn:Hf.
  - intros ->%save_Saved. cbn. apply find_item_Some in Hf as [Hi _].
    by rewrite products_set_quantity.
  - rewrite (cast_canonical _ Hp). intros ->%save_Saved. cbn.
    apply NoDup_products_snoc; [exact Hnd|]. by apply find_item_None.
Qed.

Lemma updateCartItem_keeps_unique (u u' : User.t) (p : string) q :
  NoDup (User.product <$> User.cart u) ->
  User.updateCartItem u p q = User.Saved u' ->
  NoDup (User.product <$> User.cart u').
Proof.
  intros Hnd. unfold User.updateCartItem.
  destruct (User.find_item (User.cart u) p) as [[i item]|] eqn:Hf; [|done].
  intros ->%save_Saved. cbn. apply find_item_Some in Hf as [Hi _].
  by rewrite products_set_quantity.
Qed.

Lemma removeFromCart_keeps_unique (u u' : User.t) (p : string) :
  NoDup (User.product <$> User.cart u) ->
  User.removeFromCart u p = User.Saved u' ->
  NoDup (User.product <$> User.cart u').
Proof.
  intros Hnd. unfold User.removeFromCart. intros ->%save_Saved. cbn.
  by apply NoDup_products_filter.
Qed.

Lemma clearCart_keeps_unique (u u' : User.t) :
  User.clearCart u = User.Saved u' -> NoDup (User.product <$> User.cart u').
Proof. unfold User.clearCart. intros ->%save_Saved. cbn. apply NoDup_nil_2. Qed.

(** Storing a user whose cart has one entry per product keeps every cart of
    the store so. *)
Lemma set_user_keeps_unique (st : store) (id : string) (u : User.t) :
  (forall i v, users st !! i = Some v -> NoDup (User.product <$> User.cart v)) ->
  NoDup (User.product <$> User.cart u) ->
  forall i v, users (set_user id u st) !! i = Some v ->
              NoDup (User.product <$> User.cart v).
Proof.
  intros Hst Hu i v. cbn. destruct (decide (id = i)) as [->|Hne].
  - rewrite lookup_insert_eq. by intros [= <-].
  - rewrite lookup_insert_ne by done. apply Hst.
Qed.

Lemma valid_item_ge (p : string) (q : Js.number) :
  Js.ge q (Js.of_Z 1) = true ->
  User.valid_item {| User.product := p; User.quantity := q |} = true.
Proof.
  intros H. unfold User.valid_item. cbn. by rewrite H, (ge_casts _ _ H).
Qed.

(** Adding to an entry that exists: the document handed to [save] has the
    quantity of that entry grown by the amount. *)
Lemma addToCart_existing_save (u : User.t) (p : string) (q : Js.number) i item :
  NoDup (User.product <$> User.cart u) ->
  User.cart u !! i = Some item -> User.product item = p ->
  User.addToCart u p (Some q)
  = User.save
      (User.set_cart
         (<[i := User.set_quantity (Js.add (User.quantity item) q) item]>
            (User.cart u)) u).
Proof.
  intros Hnd Hi Hp. unfold User.addToCart. subst p.
  by rewrite (find_item_unique _ _ _ Hnd Hi).
Qed.

Lemma addToCart_existing (u : User.t) (p : string) (q : Js.number) i item :
  NoDup (User.product <$> User.cart u) ->
  User.cart u !! i = Some item -> User.product item = p ->
  User.validate u = true ->
  Js.ge (Js.add (User.quantity item) q) (Js.of_Z 1) = true ->
  User.addToCart u p (Some q)
  = User.Saved
      (User.set_cart
         (<[i := User.set_quantity (Js.add (User.quantity item) q) item]>
            (User.cart u)) u).
Proof.
  intros Hnd Hi Hp Hv Hq. rewrite (addToCart_existing_save u p q i item Hnd Hi Hp).
  apply save_valid. unfold User.validate. cbn.
  apply forallb_insert; [exact Hv|]. by apply valid_item_ge.
Qed.

(** Adding a product that has no entry: the document handed to [save] has
    one entry more. *)
Lemma addToCart_absent_save (u : User.t) (p : string) (q : Js.number) :
  Forall (fun item => User.product item <> p) (User.cart u) ->
  ObjectId.canonical p = true ->
  User.addToCart u p (Some q)
  = User.save
      (User.set_cart
         (User.cart u ++ [{| User.product := p; User.quantity := q |}]) u).
Proof.
  intros Hall Hp. unfold User.addToCart.
  by rewrite (proj2 (find_item_None _ _) Hall), (cast_canonical _ Hp).
Qed.

Lemma addToCart_absent (u : User.t) (p : string) (q : Js.number) :
  Forall (fun item => User.product item <> p) (User.cart u) ->
  ObjectId.canonical p = true ->
  User.validate u = true ->
  Js.ge q (Js.of_Z 1) = true ->
  User.addToCart u p (Some q)
  = User.Saved
      (User.set_cart
         (User.cart u ++ [{| User.product := p; User.quantity := q |}]) u).
Proof.
  intros Hall Hp Hv Hq. rewrite (addToCart_absent_save u p q Hall Hp).
  apply save_valid. unfold User.validate. cbn.
  apply forallb_snoc; [exact Hv|]. by apply valid_item_ge.
Qed.

(** The handler stores what the method fulfils with. *)
Lemma addToCart_stores (st : store) (dbUser productId pid : string)
    (product : Product.t) (user u : User.t) (quantity : Js.value) :
  ObjectId.cast productId = Some pid ->
  products st !! pid = Some product ->
  Product.isAvailable product = true ->
  users st !! dbUser = Some user ->
  User.addToCart user productId
    (Some (Js.parseInt (match quantity with
                        | Js.Undefined => Js.Num (Js.of_Z 1)
                        | v => v
                        end))) = User.Saved u ->
  (UserController.addToCart st dbUser productId quantity).2
  = set_user dbUser u st.
Proof.
  intros Hc Hp Ha Hu Hm. unfold UserController.addToCart.
  rewrite Hc, Hp, Ha, Hu. cbn [negb]. by rewrite Hm.
Qed.

(** For a product of the store, named by its id as [toString] prints it:
    the carts of the store have at most one entry per product, and the four
    handlers of the cart keep them so.  Adding a product that has an entry
    adds the amount to the quantity of that entry and appends nothing;
    adding a product that has none appends one entry; that is the document
    the method hands to [save], and the one the handler stores when the
    quantity is at least 1; the amount is 1 when the body gives none. *)
Lemma cart_of_printed_ids (st : store) (dbUser productId : string)
    (product : Product.t) (quantity : Js.value) :
  let unique (c : list User.cart_item) := NoDup (User.product <$> c) in
  let carts_unique (s : store) :=
    forall id v, users s !! id = Some v -> unique (User.cart v) in
  let amount :=
    Js.parseInt (match quantity with
                 | Js.Undefined => Js.Num (Js.of_Z 1)
                 | v => v
                 end) in
  (forall id p, products st !! id = Some p -> ObjectId.canonical id = true) ->
  products st !! productId = Some product ->
  carts_unique st ->
  (carts_unique (UserController.addToCart st dbUser productId quantity).2
   /\ carts_unique (UserController.updateCartItem st dbUser productId quantity).2
   /\ carts_unique (UserController.removeFromCart st dbUser productId).2
   /\ carts_unique (UserController.clearCart st dbUser).2)
  /\ (forall user,
        users st !! dbUser = Some user ->
        (forall i item,
           User.cart user !! i = Some item ->
           User.product item = productId ->
           let c' :=
             <[i := User.set_quantity (Js.add (User.quantity item) amount) item]>
               (User.cart user) in
           User.addToCart user productId (Some amount)
           = User.save (User.set_cart c' user)
           /\ length c' = length (User.cart user)
           /\ User.product <$> c' = User.product <$> User.cart user
           /\ (User.validate user = true ->
               Product.isAvailable product = true ->
               Js.ge (Js.add (User.quantity item) amount) (Js.of_Z 1) = true ->
               (UserController.addToCart st dbUser productId quantity).2
               = set_user dbUser (User.set_cart c' user) st))
        /\ (Forall (fun item => User.product item <> productId) (User.cart user) ->
            let c' :=
              User.cart user
              ++ [{| User.product := productId; User.quantity := amount |}] in
            User.addToCart user productId (Some amount)
            = User.save (User.set_cart c' user)
            /\ (User.validate user = true ->
                Product.isAvailable product = true ->
                Js.ge amount (Js.of_Z 1) = true ->
                (UserController.addToCart st dbUser productId quantity).2
                = set_user dbUser (User.set_cart c' user) st)))
  /\ (quantity = Js.Undefined -> amount = Js.of_Z 1).
Proof.
  intros unique carts_unique amount Hwf Hp Hst.
  subst unique carts_unique. cbv beta in *.
  pose proof (Hwf _ _ Hp) as Hcan. pose proof (cast_canonical _ Hcan) as Hc.
  split; [|split].
  - split; [|split; [|split]].
    + unfold UserController.addToCart. rewrite Hc, Hp.
      destruct (negb (Product.isAvailable product)); [exact Hst|].
      destruct (users st !! dbUser) as [user|] eqn:Hu; [|exact Hst].
      destruct (User.addToCart user productId _) as [u'|] eqn:Hm; [|exact Hst].
      cbn. apply set_user_keeps_unique; [exact Hst|].
      eapply addToCart_keeps_unique; eauto.
    + unfold UserController.updateCartItem.
      destruct (_ || _); [exact Hst|].
      destruct (users st !! dbUser) as [user|] eqn:Hu; [|exact Hst].
      destruct (User.updateCartItem user productId _) as [u'|[]] eqn:Hm;
        try exact Hst.
      cbn. apply set_user_keeps_unique; [exact Hst|].
      eapply updateCartItem_keeps_unique; eauto.
    + unfold UserController.removeFromCart.
      destruct (users st !! dbUser) as [user|] eqn:Hu; [|exact Hst].
      destruct (User.removeFromCart user productId) as [u'|] eqn:Hm;
        [|exact Hst].
      cbn. apply set_user_keeps_unique; [exact Hst|].
      eapply removeFromCart_keeps_unique; eauto.
    + unfold UserController.clearCart.
      destruct (users st !! dbUser) as [user|] eqn:Hu; [|exact Hst].
      destruct (User.clearCart user) as [u'|] eqn:Hm; [|exact Hst].
      cbn. apply set_user_keeps_unique; [exact Hst|].
      eapply clearCart_keeps_unique; eauto.
  - intros user Hu. pose proof (Hst _ _ Hu) as Hnd. split.
    + intros i item Hi Hpi. cbv zeta.
      split; [by apply addToCart_existing_save|].
      split; [apply length_insert|].
      split; [by apply products_set_quantity|].
      intros Hv Ha Hq. eapply addToCart_stores; eauto.
      by apply addToCart_existing.
    + intros Hall. cbv zeta. split; [by apply addToCart_absent_save|].
      intros Hv Ha Hq. eapply addToCart_stores; eauto.
      by apply addToCart_absent.
  - intros ->. vm_compute. reflexivity.
Qed.

(** C4: the cart of bob holds the shoes, 5 times.  A request to add the
    shoes that spells their id in capital hexadecimal digits is cast to the
    shoes by [findById], which finds the product; the method compares the
    printed id of each entry with the parameter as it is spelled, finds no
    entry, and appends a second entry of the shoes: the answer is 200 and
    the stored cart has two entries of one product. *)
Theorem addToCart_duplicates_entry :
  let shouted := "64B7F0A1C2D3E4F5012345A1" in
  let result :=
    UserController.addToCart Sample.quiet_market Sample.bob shouted
      (Js.Num (Js.of_Z 1)) in
  ObjectId.cast shouted = Some Sample.shoes_id
  /\ User.cart <$> users Sample.quiet_market !! Sample.bob
     = Some [{| User.product := Sample.shoes_id; User.quantity := Js.of_Z 5 |}]
  /\ status result.1 = 200%nat
  /\ User.cart <$> users result.2 !! Sample.bob
     = Some [{| User.product := Sample.shoes_id; User.quantity := Js.of_Z 5 |};
             {| User.product := Sample.shoes_id; User.quantity := Js.of_Z 1 |}].
Proof. vm_compute. repeat split; reflexivity. Qed.

(** ** [parseInt] of a number written in plain notation *)


(** ** Quantities of the cart *)

Lemma updateCartItem_found (u : User.t) (p : string) (q : Js.number) i item :
  NoDup (User.product <$> User.cart u) ->
  User.cart u !! i = Some item -> User.product item = p ->
  User.validate u = true -> Js.ge q (Js.of_Z 1) = true ->
  User.updateCartItem u p q
  = User.Saved (User.set_cart (<[i := User.set_quantity q item]> (User.cart u)) u).
Proof.
  intros Hnd Hi Hp Hv Hq. unfold User.updateCartItem. subst p.
  rewrite (find_item_unique _ _ _ Hnd Hi).
  apply save_valid. unfold User.validate. cbn.
  apply forallb_insert; [exact Hv|]. by apply valid_item_ge.
Qed.

(** The updated cart either populates, and is sent with 200, or holds a
    product that no longer exists, and the answer is 500. *)
Lemma cart_response_status (st : store) (u : User.t) :
  status (UserController.cart_response st u) = 200%nat
  \/ status (UserController.cart_response st u) = 500%nat.
Proof.
  unfold UserController.cart_response.
  destruct (UserController.cart_total _ _); cbn; auto.
Qed.

Lemma forallb_insert_false {A} (f : A -> bool) (l : list A) i x y :
  l !! i = Some y -> f x = false -> forallb f (<[i := x]> l) = false.
Proof.
  revert i. induction l as [|a l IH]; intros i; [by destruct i|].
  destruct i; simpl.
  - intros _ ->. reflexivity.
  - intros Hi Hx. rewrite (IH i Hi Hx). apply andb_false_r.
Qed.

Lemma forallb_snoc_false {A} (f : A -> bool) (l : list A) x :
  f x = false -> forallb f (l ++ [x]) = false.
Proof. intros Hx. rewrite forallb_app. cbn. rewrite Hx. apply andb_false_r. Qed.

Lemma valid_item_lt (p : string) (q : Js.number) :
  Js.ge q (Js.of_Z 1) = false ->
  User.valid_item {| User.product := p; User.quantity := q |} = false.
Proof. intros H. unfold User.valid_item. cbn. rewrite H. apply andb_false_r. Qed.

Lemma updateCartItem_refused (u : User.t) (p : string) (q : Js.number) i item :
  NoDup (User.product <$> User.cart u) ->
  User.cart u !! i = Some item -> User.product item = p ->
  Js.ge q (Js.of_Z 1) = false ->
  User.updateCartItem u p q = User.Rejected User.ValidationError.
Proof.
  intros Hnd Hi Hp Hq. unfold User.updateCartItem. subst p.
  rewrite (find_item_unique _ _ _ Hnd Hi).
  unfold User.save, User.validate. cbn [User.cart User.set_cart].
  rewrite (forallb_insert_false _ _ _ _ _ Hi); [reflexivity|].
  by apply valid_item_lt.
Qed.

(** C5, as stated, fails: a requested quantity of 1.5 for a product of the
    cart is answered 200 and stores the quantity 1, not 1.5. *)
Lemma updateCartItem_truncates :
  let result :=
    UserController.updateCartItem Sample.quiet_market Sample.bob
      Sample.shoes_id (Js.Num (Js.of_decimal false 15 (-1))) in
  status result.1 = 200%nat
  /\ User.cart <$> users result.2 !! Sample.bob
     = Some [{| User.product := Sample.shoes_id; User.quantity := Js.of_Z 1 |}]
  /\ Js.eqb (Js.of_Z 1) (Js.of_decimal false 15 (-1)) = false.
Proof. vm_compute. repeat split; reflexivity. Qed.

(** C5, amended: a quantity that is missing, falsy or, as a number, below 1
    is answered 400, and 400 is answered only then; otherwise a product,
    named by its id as printed, that has no entry in the caller's cart is
    answered 404; in both cases the store is unchanged.  Otherwise the
    quantity of the entry is set to parseInt(quantity) when that is at
    least 1, and the answer is then 200, or 500 when a product of the cart
    is gone; when parseInt(quantity) is below 1 or not a number the answer
    is 500 and the store is unchanged.  parseInt reads the integer part: 3
    for 3, 1 for 1.5, and 0 for the string 0.99999999999999999, which is 1
    as a number and so passes the first test. *)
Theorem updateCartItem_spec (st : store) (dbUser productId : string)
    (quantity : Js.value) :
  let result := UserController.updateCartItem st dbUser productId quantity in
  let amount := Js.parseInt quantity in
  (quantity = Js.Undefined \/ Js.truthy quantity = false
   \/ Js.lt_number quantity (Js.of_Z 1) = true ->
     result = (error 400 "Quantity must be at least 1", st))
  /\ (status result.1 = 400%nat ->
      Js.truthy quantity = false \/ Js.lt_number quantity (Js.of_Z 1) = true)
  /\ (Js.truthy quantity = true -> Js.lt_number quantity (Js.of_Z 1) = false ->
      forall user, users st !! dbUser = Some user ->
        (ObjectId.canonical productId = true ->
         Forall (fun item => User.product item <> productId) (User.cart user) ->
           result = (error 404 "Item not found in cart", st))
        /\ (forall i item,
              NoDup (User.product <$> User.cart user) ->
              User.cart user !! i = Some item ->
              User.product item = productId ->
              User.validate user = true ->
              (Js.ge amount (Js.of_Z 1) = true ->
               let u :=
                 User.set_cart
                   (<[i := User.set_quantity amount item]> (User.cart user))
                   user in
               result.2 = set_user dbUser u st
               /\ (status result.1 = 200%nat \/ status result.1 = 500%nat)
               /\ (status result.1 = 200%nat
                   <-> UserController.cart_total (products st) (User.cart u)
                       <> None))
              /\ (Js.ge amount (Js.of_Z 1) = false ->
                  result = (server_error, st))))
  /\ Js.parseInt (Js.Num (Js.of_Z 3)) = Js.of_Z 3
  /\ Js.parseInt (Js.Num (Js.of_decimal false 15 (-1))) = Js.of_Z 1
  /\ (Js.truthy (Js.Str "0.99999999999999999") = true
      /\ Js.lt_number (Js.Str "0.99999999999999999") (Js.of_Z 1) = false
      /\ Js.parseInt (Js.Str "0.99999999999999999") = Js.of_Z 0
      /\ Js.ge (Js.of_Z 0) (Js.of_Z 1) = false).
Proof.
  intros result amount. subst result amount.
  unfold UserController.updateCartItem. split.
  { intros [->|[Ht|Hl]]; [reflexivity| |].
    - by rewrite Ht.
    - rewrite Hl. by rewrite orb_true_r. }
  split.
  { destruct (Js.truthy quantity) eqn:Ht; [|auto].
    destruct (Js.lt_number quantity (Js.of_Z 1)) eqn:Hl; [auto|].
    cbn [negb orb].
    destruct (users st !! dbUser) as [user|]; [|discriminate].
    destruct (User.updateCartItem user productId _) as [u|[]]; try discriminate.
    cbn [fst]. destruct (cart_response_status (set_user dbUser u st) u) as [E|E];
      rewrite E; discriminate. }
  split; [|vm_compute; repeat split; reflexivity].
  intros Ht Hl user Hu. rewrite Ht, Hl, Hu. cbn [negb orb]. split.
  { intros _ Hall. unfold User.updateCartItem.
    by rewrite (proj2 (find_item_None _ _) Hall). }
  intros i item Hnd Hi Hp Hv. split.
  - intros Hq. cbv zeta.
    rewrite (updateCartItem_found user productId _ i item Hnd Hi Hp Hv Hq).
    cbn [fst snd]. split; [reflexivity|]. split; [apply cart_response_status|].
    unfold UserController.cart_response. cbn [products set_user].
    destruct (UserController.cart_total _ _); cbn; split; congruence.
  - intros Hq. by rewrite (updateCartItem_refused user productId _ i item).
Qed.

Lemma updateCartItem_spec_witness :
  (UserController.updateCartItem Sample.quiet_market Sample.bob
     Sample.shoes_id (Js.Num (Js.of_Z 3))).2
  = set_user Sample.bob
      (User.set_cart
         [{| User.product := Sample.shoes_id; User.quantity := Js.of_Z 3 |}]
         (Sample.bob_with 5))
      Sample.quiet_market
  /\ UserController.updateCartItem Sample.quiet_market Sample.bob
       Sample.boots_id (Js.Num (Js.of_Z 3))
     = (error 404 "Item not found in cart", Sample.quiet_market)
  /\ UserController.updateCartItem Sample.quiet_market Sample.bob
       Sample.shoes_id (Js.Num (Js.of_Z 0))
     = (error 400 "Quantity must be at least 1", Sample.quiet_market)
  /\ UserController.updateCartItem Sample.quiet_market Sample.bob
       Sample.shoes_id (Js.Str "0.99999999999999999")
     = (server_error, Sample.quiet_market).
Proof.
  split; [|split; [|split]].
  - destruct (updateCartItem_spec Sample.quiet_market Sample.bob
                Sample.shoes_id (Js.Num (Js.of_Z 3))) as (_ & _ & H & _).
    destruct (H eq_refl eq_refl (Sample.bob_with 5) eq_refl) as [_ H2].
    destruct (H2 O {| User.product := Sample.shoes_id;
                      User.quantity := Js.of_Z 5 |}
                (NoDup_singleton _) eq_refl eq_refl eq_refl) as [H3 _].
    destruct (H3 eq_refl) as [H4 _]. exact H4.
  - destruct (updateCartItem_spec Sample.quiet_market Sample.bob
                Sample.boots_id (Js.Num (Js.of_Z 3))) as (_ & _ & H & _).
    destruct (H eq_refl eq_refl (Sample.bob_with 5) eq_refl) as [H1 _].
    apply H1; [reflexivity|].
    cbn. apply Forall_cons. split; [discriminate | apply Forall_nil_2].
  - destruct (updateCartItem_spec Sample.quiet_market Sample.bob
                Sample.shoes_id (Js.Num (Js.of_Z 0))) as [H _].
    apply H. right. left. reflexivity.
  - destruct (updateCartItem_spec Sample.quiet_market Sample.bob
                Sample.shoes_id (Js.Str "0.99999999999999999"))
      as (_ & _ & H & _).
    destruct (H eq_refl eq_refl (Sample.bob_with 5) eq_refl) as [_ H2].
    destruct (H2 O {| User.product := Sample.shoes_id;
                      User.quantity := Js.of_Z 5 |}
                (NoDup_singleton _) eq_refl eq_refl eq_refl) as [_ H3].
    exact (H3 eq_refl).
Defined.

Lemma addToCart_existing_refused (u : User.t) (p : string) (q : Js.number)
    i item :
  NoDup (User.product <$> User.cart u) ->
  User.cart u !! i = Some item -> User.product item = p ->
  Js.ge (Js.add (User.quantity item) q) (Js.of_Z 1) = false ->
  User.addToCart u p (Some q) = User.Rejected User.ValidationError.
Proof.
  intros Hnd Hi Hp Hq.
  rewrite (addToCart_existing_save u p q i item Hnd Hi Hp).
  unfold User.save, User.validate. cbn [User.cart User.set_cart].
  rewrite (forallb_insert_false _ _ _ _ _ Hi); [reflexivity|].
  by apply valid_item_lt.
Qed.

Lemma addToCart_absent_refused (u : User.t) (p : string) (q : Js.number) :
  Forall (fun item => User.product item <> p) (User.cart u) ->
  Js.ge q (Js.of_Z 1) = false ->
  exists e, User.addToCart u p (Some q) = User.Rejected e.
Proof.
  intros Hall Hq. unfold User.addToCart.
  rewrite (proj2 (find_item_None _ _) Hall). cbn [default].
  destruct (ObjectId.cast p) as [id|]; [|by eexists].
  unfold User.save, User.validate. cbn [User.cart User.set_cart].
  rewrite forallb_snoc_false; [by eexists|]. by apply valid_item_lt.
Qed.

(** C10, as stated, fails: a request to add -1.5 of a product that the cart
    holds 5 times is answered 200 and stores the quantity 4: the quantity
    is decreased by 1, not by the amount. *)
Lemma addToCart_truncates_amount :
  let result :=
    UserController.addToCart Sample.quiet_market Sample.bob Sample.shoes_id
      (Js.Num (Js.of_decimal true 15 (-1))) in
  status result.1 = 200%nat
  /\ User.cart <$> users result.2 !! Sample.bob
     = Some [{| User.product := Sample.shoes_id; User.quantity := Js.of_Z 4 |}]
  /\ Js.add (Js.of_Z 5) (Js.of_decimal true 15 (-1)) = Js.of_decimal false 35 (-1)
  /\ Js.eqb (Js.of_Z 4) (Js.of_decimal false 35 (-1)) = false.
Proof. vm_compute. repeat split; reflexivity. Qed.

(** C10, amended: the handler that adds to the cart does not bound the
    quantity from below.  Its only 400 is for a product that is not
    available.  The amount is parseInt(quantity), 1 when the body gives no
    quantity.  For a product that has an entry, the amount, negative or
    not, is added to the quantity of the entry; the sum is stored when it
    is at least 1, and the answer is 500 with the store unchanged when it
    is not.  For a product that has no entry and an amount that is not at
    least 1 the answer is 500 with the store unchanged.  parseInt reads the
    integer part: -2 for -2 and -1 for -1.5. *)
Theorem addToCart_no_lower_bound (st : store) (dbUser productId : string)
    (quantity : Js.value) :
  let result := UserController.addToCart st dbUser productId quantity in
  let amount :=
    Js.parseInt (match quantity with
                 | Js.Undefined => Js.Num (Js.of_Z 1)
                 | v => v
                 end) in
  (status result.1 = 400%nat ->
     exists pid product,
       ObjectId.cast productId = Some pid
       /\ products st !! pid = Some product
       /\ Product.isAvailable product = false)
  /\ (forall pid product user,
        ObjectId.cast productId = Some pid ->
        products st !! pid = Some product ->
        Product.isAvailable product = true ->
        users st !! dbUser = Some user ->
        User.validate user = true ->
        (forall i item,
           NoDup (User.product <$> User.cart user) ->
           User.cart user !! i = Some item ->
           User.product item = productId ->
           let changed := Js.add (User.quantity item) amount in
           (Js.ge changed (Js.of_Z 1) = true ->
              result.2
              = set_user dbUser
                  (User.set_cart
                     (<[i := User.set_quantity changed item]> (User.cart user))
                     user) st
              /\ (status result.1 = 200%nat \/ status result.1 = 500%nat))
           /\ (Js.ge changed (Js.of_Z 1) = false ->
                 result = (server_error, st)))
        /\ (Forall (fun item => User.product item <> productId) (User.cart user) ->
            Js.ge amount (Js.of_Z 1) = false -> result = (server_error, st)))
  /\ Js.parseInt (Js.Num (Js.of_Z (-2))) = Js.of_Z (-2)
  /\ Js.parseInt (Js.Num (Js.of_decimal true 15 (-1))) = Js.of_Z (-1)
  /\ Js.add (Js.of_Z 5) (Js.of_Z (-2)) = Js.of_Z 3
  /\ Js.ge (Js.add (Js.of_Z 5) (Js.of_Z (-5))) (Js.of_Z 1) = false.
Proof.
  intros result amount. subst result.
  unfold UserController.addToCart. fold amount. split.
  { destruct (ObjectId.cast productId) as [pid|] eqn:Hc; [|discriminate].
    destruct (products st !! pid) as [product|] eqn:Hp; [|discriminate].
    destruct (Product.isAvailable product) eqn:Ha; cbn [negb].
    2:{ intros _. by exists pid, product. }
    destruct (users st !! dbUser) as [user|]; [|discriminate].
    destruct (User.addToCart user productId _) as [u'|]; [|discriminate].
    cbn. destruct (cart_response_status (set_user dbUser u' st) u') as [E|E];
      rewrite E; discriminate. }
  split; [|vm_compute; repeat split; reflexivity].
  intros pid product user Hc Hp Ha Hu Hv.
  rewrite Hc, Hp, Ha, Hu. cbn [negb]. split.
  - intros i item Hnd Hi Hpi. cbv zeta. split.
    + intros Hq.
      rewrite (addToCart_existing user productId _ i item Hnd Hi Hpi Hv Hq).
      cbn [fst snd]. split; [reflexivity|]. apply cart_response_status.
    + intros Hq.
      by rewrite (addToCart_existing_refused user productId _ i item).
  - intros Hall Hq.
    destruct (addToCart_absent_refused user productId amount Hall Hq) as [e ->].
    reflexivity.
Qed.

Lemma addToCart_no_lower_bound_witness :
  (UserController.addToCart Sample.quiet_market Sample.bob Sample.shoes_id
     (Js.Num (Js.of_Z (-2)))).2
  = set_user Sample.bob
      (User.set_cart
         [{| User.product := Sample.shoes_id;
             User.quantity :=
               Js.add (Js.of_Z 5) (Js.parseInt (Js.Num (Js.of_Z (-2)))) |}]
         (Sample.bob_with 5))
      Sample.quiet_market
  /\ UserController.addToCart Sample.quiet_market Sample.bob Sample.shoes_id
       (Js.Num (Js.of_Z (-5)))
     = (server_error, Sample.quiet_market).
Proof.
  split.
  - destruct (addToCart_no_lower_bound Sample.quiet_market Sample.bob
                Sample.shoes_id (Js.Num (Js.of_Z (-2)))) as (_ & H & _).
    destruct (H Sample.shoes_id Sample.shoes (Sample.bob_with 5)
                eq_refl eq_refl eq_refl eq_refl eq_refl) as [H1 _].
    destruct (H1 O {| User.product := Sample.shoes_id;
                      User.quantity := Js.of_Z 5 |}
                (NoDup_singleton _) eq_refl eq_refl) as [H2 _].
    destruct (H2 eq_refl) as [H3 _]. exact H3.
  - destruct (addToCart_no_lower_bound Sample.quiet_market Sample.bob
                Sample.shoes_id (Js.Num (Js.of_Z (-5)))) as (_ & H & _).
    destruct (H Sample.shoes_id Sample.shoes (Sample.bob_with 5)
                eq_refl eq_refl eq_refl eq_refl eq_refl) as [H1 _].
    destruct (H1 O {| User.product := Sample.shoes_id;
                      User.quantity := Js.of_Z 5 |}
                (NoDup_singleton _) eq_refl eq_refl) as [_ H2].
    exact (H2 eq_refl).
Defined.

(** ** Routing of the cart (routes/user.routes.js) *)

(** A path that the pattern [/cart/clear] takes is taken by the pattern
    [/cart/:productId]. *)
Lemma clear_pattern_shadowed (path : list string) ps :
  Router.match_pattern [Router.Lit "cart"; Router.Lit "clear"] path = Some ps ->
  exists ps',
    Router.match_pattern [Router.Lit "cart"; Router.Param "productId"] path
    = Some ps'.
Proof.
  destruct path as [|x [|y [|z l]]]; cbn [Router.match_pattern];
    try discriminate.
  - destruct (_ =? Js.toLowerCase x)%string; discriminate.
  - destruct (_ =? Js.toLowerCase x)%string; [|discriminate].
    intros _. eauto.
  - destruct (_ =? Js.toLowerCase x)%string; [|discriminate].
    destruct (_ =? Js.toLowerCase y)%string; discriminate.
Qed.

Lemma dispatch_on (r : Router.route) rest v path :
  Router.on r = v ->
  Router.dispatch (r :: rest) v path
  = match Router.match_pattern (Router.pattern r) path with
    | Some ps => Some (Router.target r, ps)
    | None => Router.dispatch rest v path
    end.
Proof. intros H. cbn. by rewrite bool_decide_eq_true_2. Qed.

Lemma dispatch_off (r : Router.route) rest v path :
  Router.on r <> v ->
  Router.dispatch (r :: rest) v path = Router.dispatch rest v path.
Proof. intros H. cbn. by rewrite bool_decide_eq_false_2. Qed.

(** One route of the table: skipped when its verb differs, otherwise tried
    against the path. *)
Ltac next_route :=
  first
    [ rewrite dispatch_off by discriminate
    | rewrite dispatch_on by reflexivity;
      cbn [Router.pattern Router.target];
      match goal with
      | |- context [match Router.match_pattern ?p ?l with _ => _ end] =>
          let E := fresh "E" in
          destruct (Router.match_pattern p l) eqn:E; [try discriminate|]
      end ].

(** No request is dispatched to [clearCart]. *)
Lemma clearCart_unreachable (v : Router.verb) (path : list string) ps :
  Router.dispatch Router.user_routes v path <> Some (Router.clearCart, ps).
Proof.
  unfold Router.user_routes.
  destruct v; repeat next_route; try discriminate.
  match goal with
  | E : Router.match_pattern [Router.Lit "cart"; Router.Lit "clear"] _ = Some _
    |- _ => destruct (clear_pattern_shadowed _ _ E) as [? F]; congruence
  end.
Qed.

Lemma canonical_not_clear (s : string) :
  ObjectId.canonical s = true -> s <> "clear".
Proof. intros H ->. discriminate. Qed.

(** C9: PUT /api/users/cart/clear is dispatched to [updateCartItem] with
    [productId] bound to the text "clear"; no request at all is
    dispatched to [clearCart]; and the request is answered 400, 401, 404 or
    500 and leaves the store, so the cart, as it was. *)
Theorem cart_clear_is_shadowed :
  Router.mounted ["api"; "users"; "cart"; "clear"] = Some ["cart"; "clear"]
  /\ Router.dispatch Router.user_routes Router.PUT ["cart"; "clear"]
     = Some (Router.updateCartItem, [("productId", "clear")])
  /\ (forall v path ps,
        Router.dispatch Router.user_routes v path
        <> Some (Router.clearCart, ps))
  /\ (forall (st : store) (r : Router.request),
        Router.method r = Router.PUT ->
        Router.url r = ["api"; "users"; "cart"; "clear"] ->
        (forall id u, users st !! id = Some u ->
           Forall (fun item => ObjectId.canonical (User.product item) = true)
             (User.cart u)) ->
        exists resp,
          Router.serve st r = Some (resp, st)
          /\ (status resp = 400%nat \/ status resp = 401%nat
              \/ status resp = 404%nat \/ status resp = 500%nat)).
Proof.
  split; [reflexivity|]. split; [reflexivity|].
  split; [apply clearCart_unreachable|].
  intros st r Hm Hurl Hwf. unfold Router.serve. rewrite Hurl, Hm.
  change (Router.mounted ["api"; "users"; "cart"; "clear"])
    with (Some ["cart"; "clear"]).
  cbv iota beta.
  change (Router.dispatch Router.user_routes Router.PUT ["cart"; "clear"])
    with (Some (Router.updateCartItem, [("productId", "clear")])).
  cbv iota beta zeta.
  destruct (Router.caller r) as [dbUser|]; [|eexists; split; [reflexivity|cbn; auto]].
  change (Router.param "productId" [("productId", "clear")]) with "clear".
  unfold UserController.updateCartItem.
  destruct (_ || _); [eexists; split; [reflexivity|cbn; auto]|].
  destruct (users st !! dbUser) as [user|] eqn:Hu;
    [|eexists; split; [reflexivity|cbn; auto 6]].
  unfold User.updateCartItem.
  rewrite (proj2 (find_item_None (User.cart user) "clear")).
  - eexists; split; [reflexivity|cbn; auto 6].
  - eapply Forall_impl; [exact (Hwf dbUser user Hu)|].
    intros item. apply canonical_not_clear.
Qed.

Lemma cart_clear_is_shadowed_witness :
  exists resp,
    Router.serve Sample.quiet_market
      {| Router.method := Router.PUT;
         Router.url := ["api"; "users"; "cart"; "clear"];
         Router.caller := Some Sample.bob;
         Router.quantity := Js.Undefined |}
    = Some (resp, Sample.quiet_market)
    /\ (status resp = 400%nat \/ status resp = 401%nat
        \/ status resp = 404%nat \/ status resp = 500%nat).
Proof.
  destruct cart_clear_is_shadowed as (_ & _ & _ & H).
  apply H; [reflexivity | reflexivity |].
  intros id u. cbn.
  destruct (decide (id = Sample.alice)) as [->|Ha].
  { vm_compute. intros [= <-]. apply Forall_nil_2. }
  destruct (decide (id = Sample.bob)) as [->|Hb].
  { vm_compute. intros [= <-]. apply Forall_cons. split; [reflexivity|].
    apply Forall_nil_2. }
  rewrite lookup_insert_ne by done. rewrite lookup_insert_ne by done.
  rewrite lookup_empty. discriminate.
Defined.

(** ** The listing of products (controllers/product.controller.js) *)

Lemma price_le_key (a b : Js.number) :
  ProductController.price_le a b = true
  <-> ProductController.key_le (ProductController.price_key a)
        (ProductController.price_key b).
Proof.
  unfold ProductController.price_le, ProductController.key_le, Js.le, SFleb,
    SFcompare.
  destruct a as [s1|s1| |s1 m1 e1], b as [s2|s2| |s2 m2 e2];
    try destruct s1; try destruct s2; cbn;
    try (split; [intros _; lia | reflexivity]);
    try (split; [discriminate | lia]).
  all: change (Pos.compare_cont Eq m1 m2) with (Pos.compare m1 m2).
  all: destruct (Z.compare_spec e1 e2); destruct (Pos.compare_spec m1 m2);
    cbn; split; try discriminate; try reflexivity; try lia.
Qed.

Lemma price_order_total :
  Total (ProductController.precedes ProductController.PriceAsc).
Proof.
  intros x y. unfold ProductController.precedes. rewrite !price_le_key.
  unfold ProductController.key_le. lia.
Qed.

Lemma price_order_transitive :
  Transitive (ProductController.precedes ProductController.PriceAsc).
Proof.
  intros x y z. unfold ProductController.precedes. rewrite !price_le_key.
  unfold ProductController.key_le. lia.
Qed.

(** On numbers, the order of the store is the order of the numbers. *)
Lemma price_le_numbers (a b : Js.number) :
  Js.is_NaN a = false -> Js.is_NaN b = false ->
  ProductController.price_le a b = Js.le a b.
Proof. unfold ProductController.price_le. by intros -> ->. Qed.

Lemma StronglySorted_impl {A} (R1 R2 : relation A) (l : list A) :
  (forall x y, x ∈ l -> y ∈ l -> R1 x y -> R2 x y) ->
  StronglySorted R1 l -> StronglySorted R2 l.
Proof.
  intros H Hs. induction Hs as [|x l Hl IH Hx]; constructor.
  - apply IH. intros a b Ha Hb. apply H; by right.
  - rewrite Forall_forall in *. intros y Hy.
    apply H; [left | by right | by apply Hx].
Qed.

(** The window of a page: the skip and the limit as integers. *)
Lemma window_page {A} (skip limit : Js.number) (l : list A) (s n : Z) :
  Js.integer_of skip = Some s -> 0 <= s ->
  Js.integer_of limit = Some n -> 1 <= n ->
  ProductController.window skip limit l
  = Some (take (Z.to_nat n) (drop (Z.to_nat s) l)).
Proof.
  intros Hs Hs0 Hn Hn1. unfold ProductController.window. rewrite Hs, Hn.
  assert ((s <? 0) = false) as -> by (apply Z.ltb_ge; lia).
  assert ((n =? 0) = false) as -> by (apply Z.eqb_neq; lia).
  by rewrite Z.abs_eq by lia.
Qed.

Lemma given_Some (o : option string) (v : string) :
  ProductController.given o = Some v <-> o = Some v /\ v <> "".
Proof.
  unfold ProductController.given. destruct o as [s|]; [|by split; [|intros []]].
  destruct (String.eqb s "") eqn:E.
  - apply String.eqb_eq in E. split; [discriminate|]. intros [[= ->] H]. done.
  - apply String.eqb_neq in E. split.
    + by intros [= ->].
    + by intros [[= ->] _].
Qed.

(** What a parameter of the query asks of a product: nothing when it is
    absent or empty. *)
Lemma holds_given {A} (o : option string) (cast : string -> A)
    (f : A -> bool) :
  ProductController.holds (cast <$> ProductController.given o) f = true
  <-> (forall v, o = Some v -> v <> "" -> f (cast v) = true).
Proof.
  destruct (ProductController.given o) as [s|] eqn:E; cbn.
  - apply given_Some in E as [-> Hs]. split.
    + by intros H v [= <-] _.
    + intros H. by apply H.
  - split; [|done]. intros _ v Ho Hv.
    assert (ProductController.given o = Some v) as E'
      by (apply given_Some; by split).
    congruence.
Qed.

Lemma cast_bound_given (o : option string) :
  (forall v, o = Some v -> v <> "" -> Js.toNumber (Js.Str v) <> Js.NaN) ->
  ProductController.cast_bound o
  = Some ((fun v => Js.toNumber (Js.Str v)) <$> ProductController.given o).
Proof.
  intros H. unfold ProductController.cast_bound.
  destruct (ProductController.given o) as [v|] eqn:E; [|reflexivity].
  apply given_Some in E as [E Hv]. specialize (H v E Hv). cbn.
  destruct (Js.toNumber (Js.Str v)); try reflexivity. by destruct H.
Qed.

Lemma cast_seller_given (o : option string) :
  (forall v, o = Some v -> v <> "" -> is_Some (ObjectId.cast v)) ->
  ProductController.cast_seller o
  = Some (ProductController.given o ≫= ObjectId.cast).
Proof.
  intros H. unfold ProductController.cast_seller.
  destruct (ProductController.given o) as [v|] eqn:E; [|reflexivity].
  apply given_Some in E as [E Hv]. destruct (H v E Hv) as [sid Hsid].
  cbn. by rewrite Hsid.
Qed.

Lemma filter_sublist {A} (f : A -> bool) (l : list A) :
  List.filter f l `sublist_of` l.
Proof.
  induction l as [|x l IH]; cbn; [constructor|].
  destruct (f x); by constructor.
Qed.

(** The documents that a condition finds are those of the collection that
    satisfy it, each once. *)
Lemma elem_of_filter_docs {A} (f : string * A -> bool) (col : gmap string A)
    (kv : string * A) :
  kv ∈ List.filter f (map_to_list col) <-> col !! kv.1 = Some kv.2 /\ f kv = true.
Proof.
  rewrite list_elem_of_In, filter_In, <- list_elem_of_In.
  destruct kv as [k v]. by rewrite elem_of_map_to_list.
Qed.

Lemma NoDup_filter_docs {A} (f : string * A -> bool) (col : gmap string A) :
  NoDup (List.filter f (map_to_list col)).*1.
Proof.
  eapply sublist_NoDup; [apply (NoDup_fst_map_to_list col)|].
  apply fmap_sublist, filter_sublist.
Qed.




(** * Further properties *)

(** ** Offers: what the handlers refuse and what they leave alone *)

Lemma find_doc_None {A} (cond : A -> bool) (col : gmap string A) :
  find_doc cond col = None
  <-> (forall id a, col !! id = Some a -> cond a = false).
Proof.
  unfold find_doc. split.
  - intros H id a Hid.
    apply (find_none _ _ H (id, a)).
    apply list_elem_of_In, elem_of_map_to_list. exact Hid.
  - intros H. destruct (find _ _) as [[id a]|] eqn:E; [|reflexivity].
    apply find_some in E as [Hin Hc].
    apply list_elem_of_In, elem_of_map_to_list in Hin.
    cbn in Hc. rewrite (H id a Hin) in Hc. discriminate.
Qed.

Lemma find_doc_Some {A} (cond : A -> bool) (col : gmap string A) id a :
  find_doc cond col = Some (id, a) -> col !! id = Some a /\ cond a = true.
Proof.
  unfold find_doc. intros E. apply find_some in E as [Hin Hc].
  apply list_elem_of_In, elem_of_map_to_list in Hin. auto.
Qed.

Lemma elem_of_find_docs {A} (cond : A -> bool) (col : gmap string A) id a :
  (id, a) ∈ find_docs cond col <-> col !! id = Some a /\ cond a = true.
Proof.
  unfold find_docs. rewrite list_elem_of_In, filter_In, <- list_elem_of_In.
  by rewrite elem_of_map_to_list.
Qed.

(** What a request to [respondToOffer] can do: nothing, with an answer
    that is not 200, or replace one stored offer by the same offer in a
    new status, with the counter offer of the request when the action is
    counter, answered 200. *)
Lemma respondToOffer_cases (st : store) (dbUser offerId : string)
    (b : OfferController.response_body) :
  let result := OfferController.respondToOffer st dbUser offerId b in
  (result.2 = st /\ status result.1 <> 200%nat)
  \/ exists oid offer offer' product,
       ObjectId.cast offerId = Some oid
       /\ offers st !! oid = Some offer
       /\ products st !! Offer.product offer = Some product
       /\ Product.seller product = dbUser
       /\ result = (reply 200 (OfferDoc oid offer'),
                    set_offers (<[oid := offer']> (offers st)) st)
       /\ (offer' = Offer.set_status Offer.accepted offer
           \/ offer' = Offer.set_status Offer.rejected offer
           \/ exists c, offer' = Offer.set_counterOffer c
                                   (Offer.set_status Offer.countered offer)).
Proof.
  cbv zeta. unfold OfferController.respondToOffer.
  destruct (ObjectId.cast offerId) as [oid|] eqn:Hc; [|left; by split].
  destruct (offers st !! oid) as [offer|] eqn:Ho; [|left; by split].
  destruct (products st !! Offer.product offer) as [product|] eqn:Hp;
    [|left; by split].
  destruct (String.eqb (Product.seller product) dbUser) eqn:Hs; cbn [negb];
    [|left; by split].
  apply string_eqb_true in Hs.
  cbv zeta. unfold Offer.save.
  destruct (Js.is_string _ "accept").
  { destruct (Offer.validate _); [|left; by split].
    right. eexists oid, offer, _, product. repeat split; eauto. }
  destruct (Js.is_string _ "reject").
  { destruct (Offer.validate _); [|left; by split].
    right. eexists oid, offer, _, product. repeat split; eauto. }
  destruct (Js.is_string _ "counter"); [|left; by split].
  destruct (Js.truthy _); cbn [negb]; [|left; by split].
  destruct (Offer.validate _); [|left; by split].
  right. eexists oid, offer, _, product. repeat split; eauto.
Qed.

(** The same for [respondToCounterOffer]. *)
Lemma respondToCounterOffer_cases (st : store) (dbUser offerId : string)
    (action : Js.value) :
  let result := OfferController.respondToCounterOffer st dbUser offerId action in
  (result.2 = st /\ status result.1 <> 200%nat)
  \/ exists oid offer offer',
       ObjectId.cast offerId = Some oid
       /\ offers st !! oid = Some offer
       /\ Offer.buyer offer = dbUser
       /\ Offer.status offer = Offer.countered
       /\ result = (reply 200 (OfferDoc oid offer'),
                    set_offers (<[oid := offer']> (offers st)) st)
       /\ (offer' = Offer.set_status Offer.accepted offer
           \/ offer' = Offer.set_status Offer.rejected offer).
Proof.
  cbv zeta. unfold OfferController.respondToCounterOffer.
  destruct (ObjectId.cast offerId) as [oid|] eqn:Hc; [|left; by split].
  destruct (offers st !! oid) as [offer|] eqn:Ho; [|left; by split].
  destruct (String.eqb (Offer.buyer offer) dbUser) eqn:Hb; cbn [negb];
    [|left; by split].
  apply string_eqb_true in Hb.
  destruct (bool_decide (Offer.status offer = Offer.countered)) eqn:Hs;
    cbn [negb]; [|left; by split].
  apply bool_decide_eq_true in Hs.
  destruct (Js.is_string action "accept").
  { unfold Offer.save. destruct (Offer.validate _); [|left; by split].
    right. exists oid, offer, (Offer.set_status Offer.accepted offer).
    repeat split; auto. }
  destruct (Js.is_string action "reject"); [|left; by split].
  unfold Offer.save. destruct (Offer.validate _); [|left; by split].
  right. exists oid, offer, (Offer.set_status Offer.rejected offer).
  repeat split; auto.
Qed.

(** The document that [new Offer] builds. *)
Lemma create_Some (tz : Date.zone) (now : Z) (pid buyerId sellerId : string)
    (n : Js.number) (m : string) (offer : Offer.t) :
  Offer.create tz now pid buyerId sellerId n m = Some offer ->
  Offer.product offer = pid /\ Offer.buyer offer = buyerId
  /\ Offer.seller offer = sellerId /\ Offer.offerPrice offer = n
  /\ Offer.message offer = Js.trim m /\ Offer.status offer = Offer.pending
  /\ Offer.counterOffer offer = None
  /\ Offer.default_expiresAt tz now = Some (Offer.expiresAt offer).
Proof.
  unfold Offer.create. destruct (Offer.default_expiresAt tz now); [|done].
  intros [= <-]. by repeat split.
Qed.

(** What a request to [makeOffer] can do: nothing, with an answer that is
    not 201, or store one new pending offer under the new id. *)
Lemma makeOffer_cases (st : store) (tz : Date.zone) (now : Z) (newId dbUser productId : string)
    (b : OfferController.offer_body) :
  let result := OfferController.makeOffer st tz now newId dbUser productId b in
  (result.2 = st /\ status result.1 <> 201%nat)
  \/ exists pid product offer,
       ObjectId.cast productId = Some pid
       /\ products st !! pid = Some product
       /\ offers st !! newId = None
       /\ Offer.findOne (OfferController.pending_by pid dbUser) (offers st) = None
       /\ Offer.create tz now pid dbUser (Product.seller product)
            (Js.toNumber (OfferController.offerPrice b))
            (OfferController.or_empty (OfferController.message b))
          = Some offer
       /\ result = (reply 201 (OfferDoc newId offer),
                    set_offers (<[newId := offer]> (offers st)) st).
Proof.
  cbv zeta. unfold OfferController.makeOffer.
  destruct (Js.truthy _); cbn [negb]; [|left; by split].
  destruct (ObjectId.cast productId) as [pid|] eqn:Hc; [|left; by split].
  destruct (products st !! pid) as [product|] eqn:Hp; [|left; by split].
  destruct (Product.isAvailable product); cbn [negb]; [|left; by split].
  destruct (String.eqb (Product.seller product) dbUser); [left; by split|].
  destruct (Offer.findOne _ _) as [[]|] eqn:Hf; [left; by split|].
  destruct (Offer.create _ _ _ _ _ _ _) as [offer|] eqn:Hoffer;
    [|left; by split].
  unfold Offer.insert_new. destruct (Offer.validate _); [|left; by split].
  destruct (offers st !! newId) eqn:Hn; [left; by split|].
  right. exists pid, product, offer. repeat split; auto.
Qed.

(** X1: a request to the offers that is refused changes nothing: when
    [makeOffer] does not answer 201, and when [respondToOffer] or
    [respondToCounterOffer] does not answer 200, the store is the one before
    the request. *)
Theorem refused_offer_requests_change_nothing (st : store) (tz : Date.zone) (now : Z)
    (newId dbUser id : string) (b : OfferController.offer_body)
    (rb : OfferController.response_body) (action : Js.value) :
  (status (OfferController.makeOffer st tz now newId dbUser id b).1 <> 201%nat ->
     (OfferController.makeOffer st tz now newId dbUser id b).2 = st)
  /\ (status (OfferController.respondToOffer st dbUser id rb).1 <> 200%nat ->
        (OfferController.respondToOffer st dbUser id rb).2 = st)
  /\ (status (OfferController.respondToCounterOffer st dbUser id action).1
      <> 200%nat ->
        (OfferController.respondToCounterOffer st dbUser id action).2 = st).
Proof.
  split; [|split].
  - destruct (makeOffer_cases st tz now newId dbUser id b)
      as [[H _]|(pid & product & offer & _ & _ & _ & _ & _ & E)]; [done|].
    rewrite E. cbn. congruence.
  - destruct (respondToOffer_cases st dbUser id rb)
      as [[H _]|(oid & offer & offer' & product & _ & _ & _ & _ & E & _)];
      [done|].
    rewrite E. cbn. congruence.
  - destruct (respondToCounterOffer_cases st dbUser id action)
      as [[H _]|(oid & offer & offer' & _ & _ & _ & _ & E & _)]; [done|].
    rewrite E. cbn. congruence.
Qed.

Lemma refused_offer_requests_change_nothing_witness :
  (OfferController.respondToOffer (Sample.market Offer.pending) Sample.bob
     Sample.offer_id
     {| OfferController.action := Js.Str "accept";
        OfferController.counterPrice := Js.Undefined;
        OfferController.counterMessage := None |}).2
  = Sample.market Offer.pending.
Proof.
  apply (refused_offer_requests_change_nothing (Sample.market Offer.pending)
           Sample.utc 0 Sample.fresh_id Sample.bob Sample.offer_id
           {| OfferController.offerPrice := Js.Undefined;
              OfferController.message := None |}
           {| OfferController.action := Js.Str "accept";
              OfferController.counterPrice := Js.Undefined;
              OfferController.counterMessage := None |} Js.Undefined).
  vm_compute. discriminate.
Defined.

(** X2: the counter of the seller.  For a stored offer that validates, the
    seller of its product and the action counter: a counter price that is
    falsy is answered 400 and one that is not a number 500, the store
    unchanged; any other counter price, also one below 1, is stored as
    given, with the counter message or the empty text, in an offer that is
    [countered], answered 200. *)
Theorem respondToOffer_counter (st : store) (dbUser offerId oid : string)
    (offer : Offer.t) (product : Product.t)
    (b : OfferController.response_body) :
  ObjectId.cast offerId = Some oid ->
  offers st !! oid = Some offer ->
  products st !! Offer.product offer = Some product ->
  Product.seller product = dbUser ->
  Offer.validate offer = true ->
  OfferController.action b = Js.Str "counter" ->
  let result := OfferController.respondToOffer st dbUser offerId b in
  let price := Js.toNumber (OfferController.counterPrice b) in
  (Js.truthy (OfferController.counterPrice b) = false ->
     result = (error 400 "Counter offer price is required", st))
  /\ (Js.truthy (OfferController.counterPrice b) = true -> price = Js.NaN ->
        result = (server_error, st))
  /\ (Js.truthy (OfferController.counterPrice b) = true -> price <> Js.NaN ->
        let offer' :=
          Offer.set_counterOffer
            {| Offer.counter_price := price;
               Offer.counter_message :=
                 default "" (OfferController.counterMessage b) |}
            (Offer.set_status Offer.countered offer) in
        result = (reply 200 (OfferDoc oid offer'),
                  set_offers (<[oid := offer']> (offers st)) st)
        /\ Offer.status offer' = Offer.countered
        /\ Offer.offerPrice offer' = Offer.offerPrice offer).
Proof.
  intros Hc Ho Hp Hs Hv Ha. cbv zeta.
  unfold OfferController.respondToOffer.
  rewrite Hc, Ho, Hp, Ha. apply string_eqb_true in Hs. rewrite Hs.
  cbn [negb Js.is_string].
  change ("counter" =? "accept")%string with false.
  change ("counter" =? "reject")%string with false.
  change ("counter" =? "counter")%string with true. cbv iota.
  split; [intros ->; reflexivity|].
  assert (forall c, Offer.validate
                      (Offer.set_counterOffer c
                         (Offer.set_status Offer.countered offer))
                    = Js.casts (Offer.counter_price c)) as Hval.
  { intros c. unfold Offer.validate in *. cbn.
    apply andb_true_iff in Hv as [Hv _]. by rewrite Hv. }
  split.
  - intros -> Hn. cbn [negb]. unfold Offer.save. rewrite Hval. cbn.
    by rewrite Hn.
  - intros -> Hn. cbn [negb]. unfold Offer.save. rewrite Hval. cbn.
    unfold Js.NaN in Hn.
    destruct (Js.toNumber _); [| | congruence |]; by repeat split.
Qed.

Lemma respondToOffer_counter_witness :
  OfferController.respondToOffer (Sample.market Offer.pending) Sample.alice
    Sample.offer_id
    {| OfferController.action := Js.Str "counter";
       OfferController.counterPrice := Js.Num (Js.of_Z 70);
       OfferController.counterMessage := None |}
  = (reply 200
       (OfferDoc Sample.offer_id
          (Offer.set_counterOffer
             {| Offer.counter_price := Js.of_Z 70; Offer.counter_message := "" |}
             (Sample.offer_in Offer.countered))),
     set_offers
       (<[Sample.offer_id :=
            Offer.set_counterOffer
              {| Offer.counter_price := Js.of_Z 70; Offer.counter_message := "" |}
              (Sample.offer_in Offer.countered)]>
          (offers (Sample.market Offer.pending)))
       (Sample.market Offer.pending)).
Proof.
  destruct (respondToOffer_counter (Sample.market Offer.pending) Sample.alice
              Sample.offer_id Sample.offer_id (Sample.offer_in Offer.pending)
              Sample.shoes
              {| OfferController.action := Js.Str "counter";
                 OfferController.counterPrice := Js.Num (Js.of_Z 70);
                 OfferController.counterMessage := None |}
              eq_refl eq_refl eq_refl eq_refl eq_refl eq_refl) as (_ & _ & H).
  destruct (H eq_refl ltac:(discriminate)) as [E _]. exact E.
Defined.

(** X3: what the handlers of the offers leave alone.  None of them changes
    a product or a user.  [makeOffer] changes no stored offer; the two
    responses change no offer but the one of the request, and of that one
    only the status and the counter offer. *)
Theorem offer_handlers_frame (st : store) (tz : Date.zone) (now : Z)
    (newId dbUser id : string) (b : OfferController.offer_body)
    (rb : OfferController.response_body) (action : Js.value) :
  let made := (OfferController.makeOffer st tz now newId dbUser id b).2 in
  let answered := (OfferController.respondToOffer st dbUser id rb).2 in
  let settled := (OfferController.respondToCounterOffer st dbUser id action).2 in
  let same_terms (o o' : Offer.t) :=
    Offer.product o' = Offer.product o /\ Offer.buyer o' = Offer.buyer o
    /\ Offer.seller o' = Offer.seller o
    /\ Offer.offerPrice o' = Offer.offerPrice o
    /\ Offer.message o' = Offer.message o
    /\ Offer.expiresAt o' = Offer.expiresAt o in
  (products made = products st /\ users made = users st
   /\ forall i o, offers st !! i = Some o -> offers made !! i = Some o)
  /\ (products answered = products st /\ users answered = users st
      /\ forall i o, offers st !! i = Some o ->
           exists o', offers answered !! i = Some o' /\ same_terms o o'
                      /\ (ObjectId.cast id <> Some i -> o' = o))
  /\ (products settled = products st /\ users settled = users st
      /\ forall i o, offers st !! i = Some o ->
           exists o', offers settled !! i = Some o' /\ same_terms o o'
                      /\ (ObjectId.cast id <> Some i -> o' = o)).
Proof.
  cbv zeta. split; [|split].
  - destruct (makeOffer_cases st tz now newId dbUser id b)
      as [[-> _]|(pid & product & offer & _ & _ & Hn & _ & _ & ->)]; [done|].
    cbn. repeat split. intros i o Hi.
    rewrite lookup_insert_ne; [done | congruence].
  - destruct (respondToOffer_cases st dbUser id rb)
      as [[-> _]|(oid & offer & offer' & product & Hc & Ho & _ & _ & -> & Hs)].
    { repeat split. intros i o Hi. exists o. by repeat split. }
    cbn. repeat split. intros i o Hi.
    destruct (decide (oid = i)) as [<-|Hne].
    + rewrite lookup_insert_eq. exists offer'.
      assert (o = offer) as -> by congruence.
      split; [done|]. split; [|congruence].
      destruct Hs as [->|[->|[c ->]]]; by repeat split.
    + rewrite lookup_insert_ne by done. exists o. by repeat split.
  - destruct (respondToCounterOffer_cases st dbUser id action)
      as [[-> _]|(oid & offer & offer' & Hc & Ho & _ & _ & -> & Hs)].
    { repeat split. intros i o Hi. exists o. by repeat split. }
    cbn. repeat split. intros i o Hi.
    destruct (decide (oid = i)) as [<-|Hne].
    + rewrite lookup_insert_eq. exists offer'.
      assert (o = offer) as -> by congruence.
      split; [done|]. split; [|congruence].
      destruct Hs as [->| ->]; by repeat split.
    + rewrite lookup_insert_ne by done. exists o. by repeat split.
Qed.

Lemma offer_handlers_frame_witness :
  exists o',
    offers (OfferController.respondToOffer (Sample.market Offer.pending)
              Sample.alice Sample.offer_id
              {| OfferController.action := Js.Str "accept";
                 OfferController.counterPrice := Js.Undefined;
                 OfferController.counterMessage := None |}).2
    !! Sample.offer_id = Some o'
    /\ Offer.offerPrice o' = Js.of_Z 50.
Proof.
  destruct (offer_handlers_frame (Sample.market Offer.pending) Sample.utc 0
              Sample.fresh_id Sample.alice Sample.offer_id
              {| OfferController.offerPrice := Js.Undefined;
                 OfferController.message := None |}
              {| OfferController.action := Js.Str "accept";
                 OfferController.counterPrice := Js.Undefined;
                 OfferController.counterMessage := None |} Js.Undefined)
    as (_ & (_ & _ & H) & _).
  destruct (H Sample.offer_id (Sample.offer_in Offer.pending) eq_refl)
    as (o' & Ho & (_ & _ & _ & Hp & _) & _).
  exists o'. split; [exact Ho | exact Hp].
Defined.

(** X4: at most one pending offer of a buyer on a product.  When the store
    has at most one, it has at most one after [makeOffer], after
    [respondToOffer] and after [respondToCounterOffer]. *)
Theorem one_pending_offer_kept (st : store) (tz : Date.zone) (now : Z)
    (newId dbUser id : string) (b : OfferController.offer_body)
    (rb : OfferController.response_body) (action : Js.value) :
  let one_pending (s : store) :=
    forall i j a c,
      offers s !! i = Some a -> offers s !! j = Some c ->
      Offer.status a = Offer.pending -> Offer.status c = Offer.pending ->
      Offer.product a = Offer.product c -> Offer.buyer a = Offer.buyer c ->
      i = j in
  one_pending st ->
  one_pending (OfferController.makeOffer st tz now newId dbUser id b).2
  /\ one_pending (OfferController.respondToOffer st dbUser id rb).2
  /\ one_pending (OfferController.respondToCounterOffer st dbUser id action).2.
Proof.
  cbv zeta. intros Hst.
  assert (forall oid offer offer',
            offers st !! oid = Some offer ->
            Offer.product offer' = Offer.product offer ->
            Offer.buyer offer' = Offer.buyer offer ->
            Offer.status offer' <> Offer.pending ->
            forall i j a c,
              <[oid := offer']> (offers st) !! i = Some a ->
              <[oid := offer']> (offers st) !! j = Some c ->
              Offer.status a = Offer.pending -> Offer.status c = Offer.pending ->
              Offer.product a = Offer.product c -> Offer.buyer a = Offer.buyer c ->
              i = j) as Hresp.
  { intros oid offer offer' Ho Hp Hb Hs i j a c Hi Hj Ha Hc.
    destruct (decide (oid = i)) as [<-|Hi'];
      [rewrite lookup_insert_eq in Hi; congruence|].
    destruct (decide (oid = j)) as [<-|Hj'];
      [rewrite lookup_insert_eq in Hj; congruence|].
    rewrite lookup_insert_ne in Hi by done.
    rewrite lookup_insert_ne in Hj by done. by apply (Hst i j a c). }
  split; [|split].
  - destruct (makeOffer_cases st tz now newId dbUser id b)
      as [[-> _]|(pid & product & offer & _ & _ & Hn & Hf & Hcr & ->)]; [done|].
    apply create_Some in Hcr as (Hop & Hob & _).
    cbn. intros i j a c Hi Hj Ha Hc Hp Hb.
    pose proof (proj1 (findOne_None _ _) Hf) as Hnone.
    destruct (decide (newId = i)) as [<-|Hi'];
      destruct (decide (newId = j)) as [<-|Hj']; [done| | |].
    + rewrite lookup_insert_eq in Hi. rewrite lookup_insert_ne in Hj by done.
      injection Hi as <-. rewrite Hop in Hp. rewrite Hob in Hb.
      assert (OfferController.pending_by pid dbUser c = true) as E
        by (apply pending_by_true; auto).
      rewrite (Hnone j c Hj) in E. discriminate.
    + rewrite lookup_insert_eq in Hj. rewrite lookup_insert_ne in Hi by done.
      injection Hj as <-. rewrite Hop in Hp. rewrite Hob in Hb.
      assert (OfferController.pending_by pid dbUser a = true) as E
        by (apply pending_by_true; auto).
      rewrite (Hnone i a Hi) in E. discriminate.
    + rewrite lookup_insert_ne in Hi by done.
      rewrite lookup_insert_ne in Hj by done. by apply (Hst i j a c).
  - destruct (respondToOffer_cases st dbUser id rb)
      as [[-> _]|(oid & offer & offer' & product & _ & Ho & _ & _ & -> & Hs)];
      [done|].
    cbn. apply (Hresp oid offer offer' Ho);
      destruct Hs as [->|[->|[c ->]]]; done.
  - destruct (respondToCounterOffer_cases st dbUser id action)
      as [[-> _]|(oid & offer & offer' & _ & Ho & _ & _ & -> & Hs)]; [done|].
    cbn. apply (Hresp oid offer offer' Ho); destruct Hs as [->| ->]; done.
Qed.

Lemma one_pending_offer_kept_witness :
  is_Some
    (offers (OfferController.makeOffer Sample.quiet_market Sample.utc 5000
               Sample.fresh_id Sample.bob Sample.shoes_id
               {| OfferController.offerPrice := Js.Num (Js.of_Z 50);
                  OfferController.message := None |}).2 !! Sample.fresh_id)
  /\ (forall i j a c,
        offers (OfferController.makeOffer Sample.quiet_market Sample.utc 5000
                  Sample.fresh_id Sample.bob Sample.shoes_id
                  {| OfferController.offerPrice := Js.Num (Js.of_Z 50);
                     OfferController.message := None |}).2 !! i = Some a ->
        offers (OfferController.makeOffer Sample.quiet_market Sample.utc 5000
                  Sample.fresh_id Sample.bob Sample.shoes_id
                  {| OfferController.offerPrice := Js.Num (Js.of_Z 50);
                     OfferController.message := None |}).2 !! j = Some c ->
        Offer.status a = Offer.pending -> Offer.status c = Offer.pending ->
        Offer.product a = Offer.product c -> Offer.buyer a = Offer.buyer c ->
        i = j).
Proof.
  split; [by eexists|].
  apply (one_pending_offer_kept Sample.quiet_market Sample.utc 5000
           Sample.fresh_id
           Sample.bob Sample.shoes_id
           {| OfferController.offerPrice := Js.Num (Js.of_Z 50);
              OfferController.message := None |}
           {| OfferController.action := Js.Undefined;
              OfferController.counterPrice := Js.Undefined;
              OfferController.counterMessage := None |} Js.Undefined).
  intros i j a c Hi. cbn in Hi. rewrite lookup_empty in Hi. discriminate.
Defined.

(** The offer that [makeOffer] stores when nothing refuses it. *)
Lemma makeOffer_created (st : store) (tz : Date.zone) (now : Z)
    (newId dbUser productId pid : string) (product : Product.t)
    (b : OfferController.offer_body) (offer : Offer.t) :
  ObjectId.cast productId = Some pid ->
  products st !! pid = Some product ->
  Product.isAvailable product = true ->
  Product.seller product <> dbUser ->
  Offer.findOne (OfferController.pending_by pid dbUser) (offers st) = None ->
  Js.truthy (OfferController.offerPrice b) = true ->
  Js.ge (Js.toNumber (OfferController.offerPrice b)) (Js.of_Z 1) = true ->
  (Js.length (Js.trim (OfferController.or_empty (OfferController.message b)))
   <= 500)%nat ->
  offers st !! newId = None ->
  Offer.create tz now pid dbUser (Product.seller product)
    (Js.toNumber (OfferController.offerPrice b))
    (OfferController.or_empty (OfferController.message b)) = Some offer ->
  OfferController.makeOffer st tz now newId dbUser productId b
  = (reply 201 (OfferDoc newId offer),
     set_offers (<[newId := offer]> (offers st)) st)
  /\ Offer.validate offer = true.
Proof.
  intros Hc Hp Ha Hs Hn Ht Hg Hm Hf Hcr.
  unfold OfferController.makeOffer.
  rewrite Ht, Hc, Hp, Ha. cbn [negb].
  apply string_eqb_false in Hs. rewrite Hs, Hn, Hcr.
  unfold Offer.insert_new.
  rewrite (validate_create _ _ _ _ _ _ _ _ Hcr), Hg, (ge_casts _ _ Hg).
  apply Nat.leb_le in Hm. rewrite Hm, Hf. by split.
Qed.

(** The offer that the counter of the seller stores. *)
Lemma seller_counter_stored (st : store) (dbUser offerId oid : string)
    (offer : Offer.t) (product : Product.t)
    (b : OfferController.response_body) :
  ObjectId.cast offerId = Some oid ->
  offers st !! oid = Some offer ->
  products st !! Offer.product offer = Some product ->
  Product.seller product = dbUser ->
  Offer.validate offer = true ->
  OfferController.action b = Js.Str "counter" ->
  Js.truthy (OfferController.counterPrice b) = true ->
  Js.casts (Js.toNumber (OfferController.counterPrice b)) = true ->
  let offer' :=
    Offer.set_counterOffer
      {| Offer.counter_price := Js.toNumber (OfferController.counterPrice b);
         Offer.counter_message := default "" (OfferController.counterMessage b) |}
      (Offer.set_status Offer.countered offer) in
  OfferController.respondToOffer st dbUser offerId b
  = (reply 200 (OfferDoc oid offer'),
     set_offers (<[oid := offer']> (offers st)) st)
  /\ Offer.validate offer' = true.
Proof.
  intros Hc Ho Hp Hs Hv Ha Ht Hn. cbv zeta.
  assert (Offer.validate
            (Offer.set_counterOffer
               {| Offer.counter_price :=
                    Js.toNumber (OfferController.counterPrice b);
                  Offer.counter_message :=
                    default "" (OfferController.counterMessage b) |}
               (Offer.set_status Offer.countered offer)) = true) as Hv'.
  { unfold Offer.validate in *. cbn.
    apply andb_true_iff in Hv as [Hv _]. by rewrite Hv, Hn. }
  split; [|exact Hv'].
  unfold OfferController.respondToOffer.
  rewrite Hc, Ho, Hp, Ha, Ht. apply string_eqb_true in Hs. rewrite Hs.
  cbn [negb Js.is_string].
  change ("counter" =? "accept")%string with false.
  change ("counter" =? "reject")%string with false.
  change ("counter" =? "counter")%string with true. cbv iota.
  unfold Offer.save, OfferController.or_empty. by rewrite Hv'.
Qed.

(** The offer that the response of the buyer stores. *)
Lemma respondToCounterOffer_applied (st : store) (dbUser offerId oid : string)
    (offer : Offer.t) (action : Js.value) (s : Offer.state) :
  ObjectId.cast offerId = Some oid ->
  offers st !! oid = Some offer ->
  Offer.buyer offer = dbUser ->
  Offer.status offer = Offer.countered ->
  Offer.validate offer = true ->
  (action = Js.Str "accept" /\ s = Offer.accepted
   \/ action = Js.Str "reject" /\ s = Offer.rejected) ->
  OfferController.respondToCounterOffer st dbUser offerId action
  = (reply 200 (OfferDoc oid (Offer.set_status s offer)),
     set_offers (<[oid := Offer.set_status s offer]> (offers st)) st).
Proof.
  intros Hc Ho Hb Hs Hv Ha.
  unfold OfferController.respondToCounterOffer.
  rewrite Hc, Ho. apply string_eqb_true in Hb. rewrite Hb.
  rewrite (bool_decide_eq_true_2 _ Hs). cbn [negb].
  unfold Offer.save.
  destruct Ha as [[-> ->]|[-> ->]]; cbn; by rewrite validate_set_status, Hv.
Qed.

(** X5: a negotiation.  The buyer makes an offer that nothing refuses, the
    seller of the product counters it with a price, and the buyer rejects
    the counter: the three requests are answered 201, 200 and 200, the
    stored offer is [rejected] and keeps the price of the offer and the
    counter offer, and the buyer has no pending offer on the product. *)
Theorem negotiation_counter_then_reject (st : store) (tz : Date.zone) (now : Z)
    (newId buyer productId pid : string) (product : Product.t)
    (b : OfferController.offer_body) (counterPrice : Js.value)
    (counterMessage : option string) (expires : Z) :
  ObjectId.canonical newId = true ->
  ObjectId.cast productId = Some pid ->
  products st !! pid = Some product ->
  Product.isAvailable product = true ->
  Product.seller product <> buyer ->
  Offer.findOne (OfferController.pending_by pid buyer) (offers st) = None ->
  Js.truthy (OfferController.offerPrice b) = true ->
  Js.ge (Js.toNumber (OfferController.offerPrice b)) (Js.of_Z 1) = true ->
  (Js.length (Js.trim (OfferController.or_empty (OfferController.message b)))
   <= 500)%nat ->
  offers st !! newId = None ->
  Offer.default_expiresAt tz now = Some expires ->
  Js.truthy counterPrice = true ->
  Js.casts (Js.toNumber counterPrice) = true ->
  let made := OfferController.makeOffer st tz now newId buyer productId b in
  let countered :=
    OfferController.respondToOffer made.2 (Product.seller product) newId
      {| OfferController.action := Js.Str "counter";
         OfferController.counterPrice := counterPrice;
         OfferController.counterMessage := counterMessage |} in
  let rejected :=
    OfferController.respondToCounterOffer countered.2 buyer newId
      (Js.Str "reject") in
  status made.1 = 201%nat /\ status countered.1 = 200%nat
  /\ status rejected.1 = 200%nat
  /\ (exists offer,
        offers rejected.2 !! newId = Some offer
        /\ Offer.status offer = Offer.rejected
        /\ Offer.offerPrice offer = Js.toNumber (OfferController.offerPrice b)
        /\ Offer.counterOffer offer
           = Some {| Offer.counter_price := Js.toNumber counterPrice;
                     Offer.counter_message := default "" counterMessage |}
        /\ Offer.expiresAt offer = expires)
  /\ Offer.findOne (OfferController.pending_by pid buyer) (offers rejected.2)
     = None.
Proof.
  intros Hid Hc Hp Ha Hs Hn Ht Hg Hm Hf He Hct Hcn. cbv zeta.
  destruct (Offer.create tz now pid buyer (Product.seller product)
              (Js.toNumber (OfferController.offerPrice b))
              (OfferController.or_empty (OfferController.message b)))
    as [o1|] eqn:Hcr;
    [|unfold Offer.create in Hcr; by rewrite He in Hcr].
  destruct (makeOffer_created st tz now newId buyer productId pid product b o1
              Hc Hp Ha Hs Hn Ht Hg Hm Hf Hcr) as [E1 Hv1].
  rewrite E1. cbn [fst snd].
  apply create_Some in Hcr
    as (Ho1p & Ho1b & Ho1s & Ho1n & Ho1m & Ho1st & Ho1c & Ho1e).
  set (st1 := set_offers (<[newId := o1]> (offers st)) st).
  destruct (seller_counter_stored st1 (Product.seller product) newId newId
              o1 product
              {| OfferController.action := Js.Str "counter";
                 OfferController.counterPrice := counterPrice;
                 OfferController.counterMessage := counterMessage |})
    as [E2 Hv2]; try done.
  { by apply cast_canonical. }
  { cbn. apply lookup_insert_eq. }
  { by rewrite Ho1p. }
  rewrite E2. cbn [fst snd OfferController.counterPrice
                     OfferController.counterMessage].
  set (o2 := Offer.set_counterOffer _ _) in *.
  set (st2 := set_offers _ st1).
  rewrite (respondToCounterOffer_applied st2 buyer newId newId o2
             (Js.Str "reject") Offer.rejected); try done.
  2:{ by apply cast_canonical. }
  2:{ cbn. apply lookup_insert_eq. }
  2:{ by right. }
  cbn [fst snd]. split; [done|]. split; [done|]. split; [done|]. split.
  - exists (Offer.set_status Offer.rejected o2). cbn.
    rewrite lookup_insert_eq. repeat split; try done; cbn; congruence.
  - apply findOne_None. intros i o. cbn.
    destruct (decide (newId = i)) as [<-|Hne].
    + rewrite lookup_insert_eq. intros [= <-]. cbn.
      unfold OfferController.pending_by. cbn.
      by rewrite andb_false_r.
    + rewrite !lookup_insert_ne by done.
      apply (proj1 (findOne_None _ _) Hn).
Qed.

Lemma negotiation_counter_then_reject_witness :
  exists offer,
    offers
      (OfferController.respondToCounterOffer
         (OfferController.respondToOffer
            (OfferController.makeOffer Sample.quiet_market Sample.utc 5000 Sample.fresh_id
               Sample.bob Sample.shoes_id
               {| OfferController.offerPrice := Js.Num (Js.of_Z 50);
                  OfferController.message := None |}).2
            Sample.alice Sample.fresh_id
            {| OfferController.action := Js.Str "counter";
               OfferController.counterPrice := Js.Num (Js.of_Z 70);
               OfferController.counterMessage := None |}).2
         Sample.bob Sample.fresh_id (Js.Str "reject")).2 !! Sample.fresh_id
    = Some offer
    /\ Offer.status offer = Offer.rejected
    /\ Offer.counterOffer offer
       = Some {| Offer.counter_price := Js.of_Z 70; Offer.counter_message := "" |}.
Proof.
  destruct (negotiation_counter_then_reject Sample.quiet_market Sample.utc 5000
              Sample.fresh_id Sample.bob Sample.shoes_id Sample.shoes_id
              Sample.shoes
              {| OfferController.offerPrice := Js.Num (Js.of_Z 50);
                 OfferController.message := None |}
              (Js.Num (Js.of_Z 70)) None (5000 + Offer.hours48))
    as (_ & _ & _ & (offer & H1 & H2 & _ & H3 & _) & _);
    try reflexivity; [discriminate | apply Nat.leb_le; reflexivity |].
  exists offer. auto.
Defined.

(** X6: a counter offer is answered once.  After a response of the buyer
    that was answered 200, every further response to the same offer, by
    anyone and with any action, is refused and changes nothing; from the
    buyer the refusal is 400. *)
Theorem counter_offer_answered_once (st : store) (dbUser offerId : string)
    (action : Js.value) :
  let first := OfferController.respondToCounterOffer st dbUser offerId action in
  status first.1 = 200%nat ->
  forall (caller : string) (again : Js.value),
    let second :=
      OfferController.respondToCounterOffer first.2 caller offerId again in
    second.2 = first.2
    /\ status second.1 <> 200%nat
    /\ (caller = dbUser -> status second.1 = 400%nat).
Proof.
  cbv zeta. intros H200 caller again.
  destruct (respondToCounterOffer_cases st dbUser offerId action)
    as [[_ Hn]|(oid & offer & offer' & Hc & Ho & Hb & Hs & E & Hshape)];
    [contradiction|].
  rewrite E. cbn [fst snd].
  unfold OfferController.respondToCounterOffer. rewrite Hc. cbn [offers set_offers].
  rewrite lookup_insert_eq.
  assert (Offer.buyer offer' = dbUser /\ Offer.status offer' <> Offer.countered)
    as [Hb' Hs'] by (destruct Hshape as [->| ->]; by split).
  destruct (String.eqb (Offer.buyer offer') caller) eqn:Eb; cbn [negb].
  - rewrite (bool_decide_eq_false_2 _ Hs'). cbn. by repeat split.
  - apply string_eqb_false in Eb. cbn. repeat split; [done|].
    intros ->. congruence.
Qed.

Lemma counter_offer_answered_once_witness :
  status
    (OfferController.respondToCounterOffer
       (OfferController.respondToCounterOffer (Sample.market Offer.countered)
          Sample.bob Sample.offer_id (Js.Str "reject")).2
       Sample.bob Sample.offer_id (Js.Str "accept")).1 = 400%nat.
Proof.
  apply (counter_offer_answered_once (Sample.market Offer.countered) Sample.bob
           Sample.offer_id (Js.Str "reject") eq_refl Sample.bob
           (Js.Str "accept")).
  reflexivity.
Defined.

(** X7: no handler of the offers stores the status [expired]: an offer that
    is [expired] after a request was stored, as it is, before it. *)
Theorem expired_is_never_stored (st : store) (tz : Date.zone) (now : Z)
    (newId dbUser id : string) (b : OfferController.offer_body)
    (rb : OfferController.response_body) (action : Js.value) :
  let was_there (s : store) :=
    forall i o, offers s !! i = Some o -> Offer.status o = Offer.expired ->
                offers st !! i = Some o in
  was_there (OfferController.makeOffer st tz now newId dbUser id b).2
  /\ was_there (OfferController.respondToOffer st dbUser id rb).2
  /\ was_there (OfferController.respondToCounterOffer st dbUser id action).2.
Proof.
  cbv zeta. split; [|split].
  - destruct (makeOffer_cases st tz now newId dbUser id b)
      as [[-> _]|(pid & product & offer & _ & _ & Hn & _ & Hcr & ->)]; [done|].
    apply create_Some in Hcr as (_ & _ & _ & _ & _ & Hpending & _).
    cbn. intros i o. destruct (decide (newId = i)) as [<-|Hne].
    + rewrite lookup_insert_eq. intros [= <-]. congruence.
    + by rewrite lookup_insert_ne.
  - destruct (respondToOffer_cases st dbUser id rb)
      as [[-> _]|(oid & offer & offer' & product & _ & Ho & _ & _ & -> & Hs)];
      [done|].
    cbn. intros i o. destruct (decide (oid = i)) as [<-|Hne].
    + rewrite lookup_insert_eq. intros [= <-].
      destruct Hs as [->|[->|[c ->]]]; discriminate.
    + by rewrite lookup_insert_ne.
  - destruct (respondToCounterOffer_cases st dbUser id action)
      as [[-> _]|(oid & offer & offer' & _ & Ho & _ & _ & -> & Hs)]; [done|].
    cbn. intros i o. destruct (decide (oid = i)) as [<-|Hne].
    + rewrite lookup_insert_eq. intros [= <-].
      destruct Hs as [->| ->]; discriminate.
    + by rewrite lookup_insert_ne.
Qed.

(** ** Offers: who may read them *)

(** X8: [getOfferById] sends an offer only to its buyer or to its seller.
    When the records of both exist, the buyer and the seller are sent the
    stored offer with 200 and every other caller is answered 403; an id
    that names no offer is answered 404. *)
Theorem getOfferById_parties_only (st : store) (dbUser offerId : string) :
  (forall sent, OfferQueries.getOfferById st dbUser offerId = Sent 200 sent ->
     offers st !! sent.1 = Some sent.2
     /\ (Offer.buyer sent.2 = dbUser \/ Offer.seller sent.2 = dbUser))
  /\ (forall code sent,
        OfferQueries.getOfferById st dbUser offerId = Sent code sent ->
        code = 200%nat)
  /\ (forall oid offer,
        ObjectId.cast offerId = Some oid -> offers st !! oid = Some offer ->
        is_Some (users st !! Offer.buyer offer) ->
        is_Some (users st !! Offer.seller offer) ->
        (Offer.buyer offer = dbUser \/ Offer.seller offer = dbUser ->
           OfferQueries.getOfferById st dbUser offerId = Sent 200 (oid, offer))
        /\ (Offer.buyer offer <> dbUser -> Offer.seller offer <> dbUser ->
              OfferQueries.getOfferById st dbUser offerId
              = Refused 403 "Not authorized to view this offer"))
  /\ (forall oid,
        ObjectId.cast offerId = Some oid -> offers st !! oid = None ->
        OfferQueries.getOfferById st dbUser offerId
        = Refused 404 "Offer not found").
Proof.
  unfold OfferQueries.getOfferById.
  split; [|split; [|split]].
  - intros sent.
    destruct (ObjectId.cast offerId) as [oid|]; [|discriminate].
    destruct (offers st !! oid) as [offer|] eqn:Ho; [|discriminate].
    destruct (users st !! Offer.buyer offer); [|discriminate].
    destruct (String.eqb (Offer.buyer offer) dbUser) eqn:Eb.
    { intros [= <-]. apply string_eqb_true in Eb. cbn. auto. }
    destruct (users st !! Offer.seller offer); [|discriminate].
    destruct (String.eqb (Offer.seller offer) dbUser) eqn:Es; [|discriminate].
    intros [= <-]. apply string_eqb_true in Es. cbn. auto.
  - intros code sent.
    destruct (ObjectId.cast offerId) as [oid|]; [|discriminate].
    destruct (offers st !! oid) as [offer|]; [|discriminate].
    destruct (users st !! Offer.buyer offer); [|discriminate].
    destruct (String.eqb (Offer.buyer offer) dbUser); [congruence|].
    destruct (users st !! Offer.seller offer); [|discriminate].
    destruct (String.eqb (Offer.seller offer) dbUser); [congruence|discriminate].
  - intros oid offer -> -> [ub ->] [us ->]. split.
    + intros [Hb|Hs].
      * apply string_eqb_true in Hb. by rewrite Hb.
      * apply string_eqb_true in Hs. rewrite Hs.
        by destruct (String.eqb (Offer.buyer offer) dbUser).
    + intros Hb Hs. apply string_eqb_false in Hb, Hs. by rewrite Hb, Hs.
  - intros oid -> ->. reflexivity.
Qed.

Lemma getOfferById_parties_only_witness :
  OfferQueries.getOfferById (Sample.market Offer.pending) Sample.alice
    Sample.offer_id
  = Sent 200 (Sample.offer_id, Sample.offer_in Offer.pending)
  /\ OfferQueries.getOfferById (Sample.market Offer.pending) Sample.shoes_id
       Sample.offer_id
     = Refused 403 "Not authorized to view this offer".
Proof.
  split.
  - destruct (getOfferById_parties_only (Sample.market Offer.pending)
                Sample.alice Sample.offer_id) as (_ & _ & H & _).
    destruct (H Sample.offer_id (Sample.offer_in Offer.pending) eq_refl eq_refl)
      as [H1 _]; [by eexists | by eexists |].
    apply H1. by right.
  - destruct (getOfferById_parties_only (Sample.market Offer.pending)
                Sample.shoes_id Sample.offer_id) as (_ & _ & H & _).
    destruct (H Sample.offer_id (Sample.offer_in Offer.pending) eq_refl eq_refl)
      as [_ H2]; [by eexists | by eexists |].
    apply H2; discriminate.
Defined.

(** ** Favorites and cart: what the handlers keep *)

Lemma set_user_twice (st : store) (id : string) (u u' : User.t) :
  set_user id u (set_user id u' st) = set_user id u st.
Proof. unfold set_user. cbn. by rewrite insert_insert_eq. Qed.

(** The total of a cart is undefined exactly when an entry names a product
    that is gone. *)
Lemma cart_total_None (ps : gmap string Product.t) (c : list User.cart_item) :
  UserController.cart_total ps c = None
  <-> Exists (fun item => ps !! User.product item = None) c.
Proof.
  unfold UserController.cart_total. generalize (Js.of_Z 0).
  induction c as [|item c IH]; intros acc; cbn.
  - split; [discriminate | by intros ?%Exists_nil].
  - rewrite Exists_cons. destruct (ps !! User.product item) as [p|] eqn:Hp.
    + rewrite IH. split; [auto | by intros [?|?]].
    + split; [auto|]. intros _. clear. induction c as [|x c IH]; [done|].
      exact IH.
Qed.

Lemma cart_response_500 (st : store) (u : User.t) :
  status (UserController.cart_response st u) = 500%nat
  <-> Exists (fun item => products st !! User.product item = None) (User.cart u).
Proof.
  rewrite <- cart_total_None. unfold UserController.cart_response.
  destruct (UserController.cart_total _ _); cbn; split; congruence.
Qed.

Lemma cart_response_200 (st : store) (u : User.t) :
  status (UserController.cart_response st u) = 200%nat
  <-> Forall (fun item => is_Some (products st !! User.product item))
        (User.cart u).
Proof.
  destruct (cart_response_status st u) as [H|H].
  - split; [|done]. intros _. apply Forall_forall. intros item Hin.
    destruct (products st !! User.product item) eqn:E; [by eexists|].
    assert (status (UserController.cart_response st u) = 500%nat); [|congruence].
    apply cart_response_500, Exists_exists. by exists item.
  - split; [congruence|]. intros Hall. exfalso.
    apply cart_response_500, Exists_exists in H as (item & Hin & Hnone).
    rewrite Forall_forall in Hall. destruct (Hall item Hin). congruence.
Qed.

Lemma addToFavorites_stores (st : store) (dbUser productId : string) :
  stores_caller st dbUser (UserController.addToFavorites st dbUser productId).2
    (fun user u => User.cart u = User.cart user).
Proof.
  unfold stores_caller, UserController.addToFavorites.
  destruct (ObjectId.cast productId) as [pid|]; [|by left].
  destruct (products st !! pid); [|by left].
  destruct (users st !! dbUser) as [user|]; [|by left].
  destruct (User.addToFavorites user productId) as [u|] eqn:E; [|by left].
  right. exists user, u. repeat split. revert E. unfold User.addToFavorites.
  destruct (negb _); [destruct (ObjectId.cast productId); [|done]|];
    by intros ->%save_Saved.
Qed.

Lemma removeFromFavorites_stores (st : store) (dbUser productId : string) :
  stores_caller st dbUser
    (UserController.removeFromFavorites st dbUser productId).2
    (fun user u => User.cart u = User.cart user).
Proof.
  unfold stores_caller, UserController.removeFromFavorites.
  destruct (users st !! dbUser) as [user|]; [|by left].
  destruct (User.removeFromFavorites user productId) as [u|] eqn:E; [|by left].
  right. exists user, u. repeat split. revert E.
  unfold User.removeFromFavorites. by intros ->%save_Saved.
Qed.

Lemma addToCart_handler_stores (st : store) (dbUser productId : string)
    (quantity : Js.value) :
  stores_caller st dbUser
    (UserController.addToCart st dbUser productId quantity).2
    (fun user u => User.favorites u = User.favorites user).
Proof.
  unfold stores_caller, UserController.addToCart.
  destruct (ObjectId.cast productId) as [pid|] eqn:Hc; [|by left].
  destruct (products st !! pid) as [product|]; [|by left].
  destruct (negb (Product.isAvailable product)); [by left|].
  destruct (users st !! dbUser) as [user|]; [|by left].
  destruct (User.addToCart user productId _) as [u|] eqn:E; [|by left].
  right. exists user, u. repeat split. revert E. unfold User.addToCart.
  destruct (User.find_item _ _) as [[i item]|]; [|rewrite Hc];
    by intros ->%save_Saved.
Qed.

Lemma updateCartItem_stores (st : store) (dbUser productId : string)
    (quantity : Js.value) :
  stores_caller st dbUser
    (UserController.updateCartItem st dbUser productId quantity).2
    (fun user u => User.favorites u = User.favorites user).
Proof.
  unfold stores_caller, UserController.updateCartItem.
  destruct (negb (Js.truthy quantity) || _); [by left|].
  destruct (users st !! dbUser) as [user|]; [|by left].
  destruct (User.updateCartItem user productId _) as [u|[]] eqn:E;
    [|by left..].
  right. exists user, u. repeat split. revert E. unfold User.updateCartItem.
  destruct (User.find_item _ _) as [[i item]|]; [|done].
  by intros ->%save_Saved.
Qed.

Lemma removeFromCart_stores (st : store) (dbUser productId : string) :
  stores_caller st dbUser (UserController.removeFromCart st dbUser productId).2
    (fun user u => User.favorites u = User.favorites user).
Proof.
  unfold stores_caller, UserController.removeFromCart.
  destruct (users st !! dbUser) as [user|]; [|by left].
  destruct (User.removeFromCart user productId) as [u|] eqn:E; [|by left].
  right. exists user, u. repeat split. revert E.
  unfold User.removeFromCart. by intros ->%save_Saved.
Qed.

Lemma clearCart_stores (st : store) (dbUser : string) :
  stores_caller st dbUser (UserController.clearCart st dbUser).2
    (fun user u => User.favorites u = User.favorites user).
Proof.
  unfold stores_caller, UserController.clearCart.
  destruct (users st !! dbUser) as [user|]; [|by left].
  destruct (User.clearCart user) as [u|] eqn:E; [|by left].
  right. exists user, u. repeat split. revert E.
  unfold User.clearCart. by intros ->%save_Saved.
Qed.

Lemma stores_caller_frame (st : store) (dbUser : string) (st' : store) keeps :
  stores_caller st dbUser st' keeps ->
  products st' = products st /\ offers st' = offers st
  /\ (forall id, is_Some (users st' !! id) <-> is_Some (users st !! id))
  /\ (forall id, id <> dbUser -> users st' !! id = users st !! id).
Proof.
  intros [->|(user & u & Hu & -> & _)]; [done|].
  cbn. repeat split; try done.
  - destruct (decide (dbUser = id)) as [<-|Hne].
    + by rewrite Hu.
    + by rewrite lookup_insert_ne.
  - destruct (decide (dbUser = id)) as [<-|Hne].
    + by rewrite lookup_insert_eq.
    + by rewrite lookup_insert_ne.
  - intros id Hne. by rewrite lookup_insert_ne.
Qed.



(** ** The cart: removing, and entries whose product is gone *)

Lemma removeFromCart_saved (user : User.t) (productId : string) :
  User.validate user = true ->
  User.removeFromCart user productId
  = User.Saved
      (User.set_cart
         (List.filter
            (fun item => negb (String.eqb (User.product item) productId))
            (User.cart user)) user).
Proof.
  intros Hv. unfold User.removeFromCart. apply save_valid.
  unfold User.validate. cbn. by apply forallb_filter.
Qed.

Lemma filter_twice {A} (f : A -> bool) (l : list A) :
  List.filter f (List.filter f l) = List.filter f l.
Proof.
  induction l as [|x l IH]; [done|]. cbn.
  destruct (f x) eqn:E; cbn; [rewrite E, IH|]; done.
Qed.

Lemma removeFromCart_valid (st : store) (dbUser productId : string)
    (user : User.t) :
  users st !! dbUser = Some user -> User.validate user = true ->
  let u :=
    User.set_cart
      (List.filter
         (fun item => negb (String.eqb (User.product item) productId))
         (User.cart user)) user in
  UserController.removeFromCart st dbUser productId
  = (UserController.cart_response (set_user dbUser u st) u,
     set_user dbUser u st).
Proof.
  intros Hu Hv. cbv zeta. unfold UserController.removeFromCart.
  by rewrite Hu, (removeFromCart_saved _ _ Hv).
Qed.

(** X10: [removeFromCart], for a caller whose stored cart is valid.  The
    cart that is stored has no entry of the product, keeps every other
    entry, in the order they had, and the favorites; the answer is 200
    exactly when every product that is left in the cart exists; and the
    same request again is answered the same and changes nothing more. *)
Theorem removeFromCart_removes (st : store) (dbUser productId : string)
    (user : User.t) :
  users st !! dbUser = Some user -> User.validate user = true ->
  let result := UserController.removeFromCart st dbUser productId in
  (exists u,
     users result.2 !! dbUser = Some u
     /\ User.favorites u = User.favorites user
     /\ User.cart u `sublist_of` User.cart user
     /\ (forall item, item ∈ User.cart u
           <-> item ∈ User.cart user /\ User.product item <> productId)
     /\ (status result.1 = 200%nat
         <-> Forall (fun item => is_Some (products st !! User.product item))
               (User.cart u)))
  /\ (status result.1 = 200%nat \/ status result.1 = 500%nat)
  /\ UserController.removeFromCart result.2 dbUser productId = result.
Proof.
  intros Hu Hv. cbv zeta.
  rewrite (removeFromCart_valid st dbUser productId user Hu Hv).
  cbn [fst snd].
  set (kept := List.filter _ (User.cart user)).
  split; [|split].
  - exists (User.set_cart kept user). cbn. rewrite lookup_insert_eq.
    split; [done|]. split; [done|]. split; [apply filter_sublist|].
    split;
      [|exact (cart_response_200
                 (set_user dbUser (User.set_cart kept user) st)
                 (User.set_cart kept user))].
    intros item. unfold kept. rewrite !list_elem_of_In, filter_In.
    rewrite negb_true_iff, string_eqb_false. done.
  - apply cart_response_status.
  - rewrite (removeFromCart_valid _ dbUser productId (User.set_cart kept user)).
    + cbn [User.cart User.set_cart]. unfold kept. rewrite filter_twice.
      fold kept.
      replace (User.set_cart kept (User.set_cart kept user))
        with (User.set_cart kept user) by done.
      by rewrite set_user_twice.
    + cbn. by rewrite lookup_insert_eq.
    + unfold User.validate. cbn. by apply forallb_filter.
Qed.

Lemma removeFromCart_removes_witness :
  UserController.removeFromCart
    (UserController.removeFromCart Sample.quiet_market Sample.bob
       Sample.shoes_id).2 Sample.bob Sample.shoes_id
  = UserController.removeFromCart Sample.quiet_market Sample.bob
      Sample.shoes_id.
Proof.
  apply (removeFromCart_removes Sample.quiet_market Sample.bob Sample.shoes_id
           (Sample.bob_with 5) eq_refl eq_refl).
Defined.

(** X11: a cart with an entry whose product is gone.  [getCart] answers
    500; removing another product stores the cart without that product and
    answers 500 all the same; removing the entry itself, when it is the
    only one of its kind, is answered 200. *)
Theorem stale_cart_entry (st : store) (dbUser : string) (user : User.t)
    (item : User.cart_item) :
  users st !! dbUser = Some user -> User.validate user = true ->
  item ∈ User.cart user -> products st !! User.product item = None ->
  status (UserQueries.getCart st dbUser) = 500%nat
  /\ (forall productId,
        productId <> User.product item ->
        let result := UserController.removeFromCart st dbUser productId in
        status result.1 = 500%nat
        /\ result.2
           = set_user dbUser
               (User.set_cart
                  (List.filter
                     (fun x => negb (String.eqb (User.product x) productId))
                     (User.cart user)) user) st)
  /\ ((forall x, x ∈ User.cart user -> User.product x <> User.product item ->
                 is_Some (products st !! User.product x)) ->
      status (UserController.removeFromCart st dbUser (User.product item)).1
      = 200%nat).
Proof.
  intros Hu Hv Hin Hgone. split; [|split].
  - unfold UserQueries.getCart. rewrite Hu. apply cart_response_500.
    apply Exists_exists. by exists item.
  - intros productId Hne. cbv zeta. unfold UserController.removeFromCart.
    rewrite Hu, (removeFromCart_saved _ _ Hv). cbn [fst snd].
    split; [|done]. apply cart_response_500. cbn.
    apply Exists_exists. exists item. split; [|done].
    apply list_elem_of_In, filter_In. split; [by apply list_elem_of_In|].
    apply negb_true_iff, string_eqb_false. congruence.
  - intros Hrest. unfold UserController.removeFromCart.
    rewrite Hu, (removeFromCart_saved _ _ Hv). cbn [fst snd].
    apply cart_response_200. cbn. apply Forall_forall. intros x Hx.
    apply list_elem_of_In, filter_In in Hx as [Hx Hp].
    apply negb_true_iff, string_eqb_false in Hp.
    apply Hrest; [by apply list_elem_of_In | done].
Qed.

Lemma stale_cart_entry_witness :
  status (UserQueries.getCart Fixture.stale_market Sample.bob) = 500%nat
  /\ status (UserController.removeFromCart Fixture.stale_market Sample.bob
               Sample.boots_id).1 = 500%nat.
Proof.
  destruct (stale_cart_entry Fixture.stale_market Sample.bob Fixture.bob_two
              {| User.product := Sample.shoes_id; User.quantity := Js.of_Z 1 |}
              eq_refl eq_refl (list_elem_of_here _ _) eq_refl)
    as (H1 & H2 & _).
  split; [exact H1|].
  apply (H2 Sample.boots_id). discriminate.
Defined.

(** ** Adding and removing again *)

Lemma removeFromFavorites_saved (user : User.t) (productId : string) :
  User.validate user = true ->
  User.removeFromFavorites user productId
  = User.Saved
      (User.set_favorites
         (List.filter (fun id => negb (String.eqb id productId))
            (User.favorites user)) user).
Proof. intros Hv. unfold User.removeFromFavorites. by apply save_valid. Qed.

Lemma filter_snoc_other_id (ids : list string) (p : string) :
  p ∉ ids -> List.filter (fun id => negb (String.eqb id p)) (ids ++ [p]) = ids.
Proof.
  intros Hp. rewrite List.filter_app, (filter_other_id _ _ Hp). cbn.
  rewrite (proj2 (string_eqb_true p p) eq_refl). cbn. apply app_nil_r.
Qed.

Lemma filter_other_product (c : list User.cart_item) (p : string) :
  Forall (fun item => User.product item <> p) c ->
  List.filter (fun item => negb (String.eqb (User.product item) p)) c = c.
Proof.
  induction c as [|x c IH]; [done|]. rewrite Forall_cons. intros [Hx Hc].
  cbn. rewrite (proj2 (string_eqb_false _ _) Hx). cbn. by rewrite IH.
Qed.

Lemma set_favorites_same (user : User.t) :
  User.set_favorites (User.favorites user) user = user.
Proof. by destruct user. Qed.

Lemma set_cart_same (user : User.t) : User.set_cart (User.cart user) user = user.
Proof. by destruct user. Qed.

(** X12: a favorite that is added and removed again.  For a product that
    exists, named by its id as printed and not among the favorites of the
    caller: [addToFavorites] answers 200 and stores the favorites with the
    product at the end, and [removeFromFavorites] then gives back the store
    as it was. *)
Theorem favorite_added_then_removed (st : store) (dbUser productId : string)
    (user : User.t) :
  ObjectId.canonical productId = true ->
  is_Some (products st !! productId) ->
  users st !! dbUser = Some user -> User.validate user = true ->
  productId ∉ User.favorites user ->
  let added := UserController.addToFavorites st dbUser productId in
  status added.1 = 200%nat
  /\ users added.2 !! dbUser
     = Some (User.set_favorites (User.favorites user ++ [productId]) user)
  /\ (UserController.removeFromFavorites added.2 dbUser productId).2 = st.
Proof.
  intros Hc [product Hp] Hu Hv Hnot. cbv zeta.
  assert (UserController.addToFavorites st dbUser productId
          = let u := User.set_favorites (User.favorites user ++ [productId])
                       user in
            (UserController.favorites_response (set_user dbUser u st) u,
             set_user dbUser u st)) as ->.
  { unfold UserController.addToFavorites, User.addToFavorites.
    rewrite (cast_canonical _ Hc), Hp, Hu.
    destruct (User.includes (User.favorites user) productId) eqn:E.
    { apply includes_elem_of in E. contradiction. }
    cbn [negb]. by rewrite save_valid. }
  cbv zeta. cbn [fst snd]. split; [done|]. split.
  { cbn. by rewrite lookup_insert_eq. }
  unfold UserController.removeFromFavorites. cbn [users set_user].
  rewrite lookup_insert_eq, removeFromFavorites_saved by done.
  cbn [snd User.favorites User.set_favorites].
  rewrite (filter_snoc_other_id _ _ Hnot), set_user_twice.
  replace (User.set_favorites (User.favorites user)
             (User.set_favorites (User.favorites user ++ [productId]) user))
    with user by (by destruct user).
  by apply set_user_same.
Qed.

Lemma favorite_added_then_removed_witness :
  (UserController.removeFromFavorites
     (UserController.addToFavorites Sample.quiet_market Sample.alice
        Sample.shoes_id).2 Sample.alice Sample.shoes_id).2
  = Sample.quiet_market.
Proof.
  apply (favorite_added_then_removed Sample.quiet_market Sample.alice
           Sample.shoes_id Sample.empty_user eq_refl).
  - by eexists.
  - reflexivity.
  - reflexivity.
  - apply not_elem_of_nil.
Defined.

(** X13: a product that is put in the cart and removed again.  For an
    available product, named by its id as printed, of which the valid cart
    of the caller has no entry, and an amount ([parseInt] of the quantity
    of the body, 1 when the body has none) that is at least 1: [addToCart]
    stores the cart with one entry more, of that amount, at the end, and
    [removeFromCart] then gives back the store as it was. *)
Theorem cart_entry_added_then_removed (st : store) (dbUser productId : string)
    (product : Product.t) (user : User.t) (quantity : Js.value) :
  ObjectId.canonical productId = true ->
  products st !! productId = Some product ->
  Product.isAvailable product = true ->
  users st !! dbUser = Some user -> User.validate user = true ->
  Forall (fun item => User.product item <> productId) (User.cart user) ->
  let amount :=
    Js.parseInt (match quantity with
                 | Js.Undefined => Js.Num (Js.of_Z 1)
                 | v => v
                 end) in
  Js.ge amount (Js.of_Z 1) = true ->
  let added := UserController.addToCart st dbUser productId quantity in
  users added.2 !! dbUser
  = Some (User.set_cart
            (User.cart user
             ++ [{| User.product := productId; User.quantity := amount |}])
            user)
  /\ (UserController.removeFromCart added.2 dbUser productId).2 = st.
Proof.
  intros Hc Hp Ha Hu Hv Habsent amount Hn. cbv zeta.
  assert (User.addToCart user productId (Some amount)
          = User.Saved
              (User.set_cart
                 (User.cart user
                  ++ [{| User.product := productId;
                         User.quantity := amount |}]) user)) as Hm
    by (by apply addToCart_absent).
  rewrite (addToCart_stores st dbUser productId productId product user _
             quantity (cast_canonical _ Hc) Hp Ha Hu Hm).
  split; [cbn; by rewrite lookup_insert_eq|].
  rewrite (removeFromCart_valid _ dbUser productId
             (User.set_cart
                (User.cart user
                 ++ [{| User.product := productId;
                        User.quantity := amount |}]) user)).
  - cbn [snd User.cart User.set_cart].
    rewrite List.filter_app, (filter_other_product _ _ Habsent). cbn.
    rewrite (proj2 (string_eqb_true productId productId) eq_refl). cbn.
    rewrite app_nil_r, set_user_twice.
    replace (User.set_cart (User.cart user) _) with user by (by destruct user).
    by apply set_user_same.
  - cbn. by rewrite lookup_insert_eq.
  - unfold User.validate. cbn. apply forallb_snoc; [exact Hv|].
    by apply valid_item_ge.
Qed.

Lemma cart_entry_added_then_removed_witness :
  users
    (UserController.addToCart Sample.quiet_market Sample.alice
       Sample.shoes_id (Js.Str "2.9")).2 !! Sample.alice
  = Some (User.set_cart
            [{| User.product := Sample.shoes_id;
                User.quantity := Js.of_Z 2 |}] Sample.empty_user)
  /\ (UserController.removeFromCart
        (UserController.addToCart Sample.quiet_market Sample.alice
           Sample.shoes_id (Js.Str "2.9")).2 Sample.alice
        Sample.shoes_id).2
     = Sample.quiet_market.
Proof.
  apply (cart_entry_added_then_removed Sample.quiet_market Sample.alice
           Sample.shoes_id Sample.shoes Sample.empty_user (Js.Str "2.9")
           eq_refl eq_refl eq_refl eq_refl eq_refl (Forall_nil_2 _) eq_refl).
Defined.

Lemma canonical_other_spelling (id p : string) :
  ObjectId.canonical id = true -> ObjectId.canonical p = false -> id <> p.
Proof. intros Hid Hp ->. congruence. Qed.

(** X14: the removals compare the ids as they are printed.  When the
    favorites and the cart of the caller hold ids as printed, a parameter
    that is not one (the same 24 digits in capital letters, say) removes
    no favorite and no entry of the cart: the store is left as it was. *)
Theorem removal_of_other_spelling (st : store) (dbUser productId : string)
    (user : User.t) :
  users st !! dbUser = Some user -> User.validate user = true ->
  Forall (fun id => ObjectId.canonical id = true) (User.favorites user) ->
  Forall (fun item => ObjectId.canonical (User.product item) = true)
    (User.cart user) ->
  ObjectId.canonical productId = false ->
  UserController.removeFromFavorites st dbUser productId
  = (UserController.favorites_response st user, st)
  /\ UserController.removeFromCart st dbUser productId
     = (UserController.cart_response st user, st).
Proof.
  intros Hu Hv Hfav Hcart Hp. split.
  - unfold UserController.removeFromFavorites.
    rewrite Hu, removeFromFavorites_saved by done.
    rewrite filter_other_id.
    + by rewrite set_favorites_same, (set_user_same _ _ _ Hu).
    + intros Hin. rewrite Forall_forall in Hfav.
      specialize (Hfav _ Hin). congruence.
  - rewrite (removeFromCart_valid st dbUser productId user Hu Hv). cbv zeta.
    rewrite filter_other_product.
    + by rewrite set_cart_same, (set_user_same _ _ _ Hu).
    + eapply Forall_impl; [exact Hcart|]. intros item Hi.
      by apply canonical_other_spelling.
Qed.

Lemma removal_of_other_spelling_witness :
  ObjectId.cast Fixture.shoes_capitals = Some Sample.shoes_id
  /\ UserController.removeFromCart Sample.quiet_market Sample.bob
       Fixture.shoes_capitals
     = (UserController.cart_response Sample.quiet_market (Sample.bob_with 5),
        Sample.quiet_market).
Proof.
  split; [reflexivity|].
  apply (removal_of_other_spelling Sample.quiet_market Sample.bob
           Fixture.shoes_capitals (Sample.bob_with 5) eq_refl eq_refl).
  - apply Forall_cons. split; [reflexivity | apply Forall_nil_2].
  - apply Forall_cons. split; [reflexivity | apply Forall_nil_2].
  - reflexivity.
Defined.

(** ** Listings: what is sent, and in which order *)

Lemma order_total (o : ProductController.order) :
  Total (ProductController.precedes o).
Proof.
  intros x y. destruct o; unfold ProductController.precedes;
    rewrite ?price_le_key; unfold ProductController.key_le; lia.
Qed.

Lemma order_transitive (o : ProductController.order) :
  Transitive (ProductController.precedes o).
Proof.
  intros x y z. destruct o; unfold ProductController.precedes;
    rewrite ?price_le_key; unfold ProductController.key_le; lia.
Qed.

Lemma sorted_by_order (o : ProductController.order)
    (l : list (string * Product.t)) :
  StronglySorted (ProductController.precedes o)
    (merge_sort (ProductController.precedes o) l).
Proof.
  apply (@StronglySorted_merge_sort _ _ _ (order_transitive o) (order_total o)).
Qed.

Lemma StronglySorted_drop {A} (R : relation A) (l : list A) n :
  StronglySorted R l -> StronglySorted R (drop n l).
Proof.
  intros H. rewrite <- (take_drop n l) in H.
  by apply StronglySorted_app_1_r in H.
Qed.

Lemma StronglySorted_take {A} (R : relation A) (l : list A) n :
  StronglySorted R l -> StronglySorted R (take n l).
Proof.
  intros H. rewrite <- (take_drop n l) in H.
  by apply StronglySorted_app_1_l in H.
Qed.

(** A window of a list: some of its elements, in their order, after a
    number of them. *)
Lemma window_Some {A} (skip limit : Js.number) (l items : list A) :
  ProductController.window skip limit l = Some items ->
  exists s k, items = take k (drop s l).
Proof.
  unfold ProductController.window.
  destruct (Js.integer_of skip) as [s|]; [|discriminate].
  destruct (Js.integer_of limit) as [n|]; [|discriminate].
  destruct (s <? 0); [discriminate|].
  destruct (n =? 0); intros [= <-].
  - exists (Z.to_nat s), (length (drop (Z.to_nat s) l)).
    by rewrite take_ge.
  - by exists (Z.to_nat s), (Z.to_nat (Z.abs n)).
Qed.





(** X17: what [getRelatedProducts] sends.  With 200: the parameter names a
    product of the store, and at most 6 products are sent, each once, the
    newest first; each is another product of the store, of the category of
    that one; and a product of that category that is left out is no newer
    than any that is sent.  Otherwise the answer is 404. *)
Theorem getRelatedProducts_sends (st : store) (id : string) :
  (forall items,
     ProductQueries.getRelatedProducts st id = Sent 200 items ->
     exists pid product,
       ObjectId.cast id = Some pid /\ products st !! pid = Some product
       /\ (length items <= 6)%nat
       /\ NoDup items.*1
       /\ StronglySorted
            (fun x y => Product.createdAt y.2 <= Product.createdAt x.2) items
       /\ (forall i p, (i, p) ∈ items ->
             products st !! i = Some p /\ i <> pid
             /\ Product.category p = Product.category product)
       /\ (forall i p, products st !! i = Some p -> i <> pid ->
             Product.category p = Product.category product ->
             (i, p) ∉ items ->
             forall x, x ∈ items ->
                       Product.createdAt p <= Product.createdAt x.2))
  /\ (forall code items,
        ProductQueries.getRelatedProducts st id = Sent code items ->
        code = 200%nat)
  /\ (forall code m,
        ProductQueries.getRelatedProducts st id = Refused code m ->
        code = 404%nat).
Proof.
  unfold ProductQueries.getRelatedProducts. split; [|split].
  - intros items.
    destruct (ObjectId.cast id) as [pid|]; [|discriminate].
    destruct (products st !! pid) as [product|] eqn:Hpid; [|discriminate].
    set (f := fun kv : string * Product.t =>
                negb (String.eqb kv.1 pid)
                && String.eqb (Product.category kv.2)
                     (Product.category product)).
    set (found := List.filter f (map_to_list (products st))).
    set (R := ProductController.precedes ProductController.CreatedDesc).
    intros [= <-]. exists pid, product.
    assert (merge_sort R found ≡ₚ found) as Hperm
      by apply merge_sort_Permutation.
    assert (StronglySorted R (merge_sort R found)) as Hsorted
      by apply sorted_by_order.
    assert (forall i p, (i, p) ∈ found
              <-> products st !! i = Some p /\ i <> pid
                  /\ Product.category p = Product.category product) as Hfound.
    { intros i p. unfold found. rewrite elem_of_filter_docs. unfold f. cbn.
      rewrite andb_true_iff, negb_true_iff, string_eqb_false, string_eqb_true.
      tauto. }
    split; [done|]. split; [done|].
    split; [rewrite length_take; lia|].
    split.
    { eapply sublist_NoDup; [|apply fmap_sublist, sublist_take].
      rewrite Hperm. apply NoDup_filter_docs. }
    split; [by apply StronglySorted_take|].
    split.
    + intros i p Hin. apply Hfound. rewrite <- Hperm.
      eapply elem_of_sublist; [exact Hin | apply sublist_take].
    + intros i p Hp Hne Hcat Hout x Hx.
      assert ((i, p) ∈ merge_sort R found) as Hin
        by (rewrite Hperm; by apply Hfound).
      rewrite <- (take_drop 6 (merge_sort R found)) in Hin, Hsorted.
      apply elem_of_app in Hin as [Hin|Hin]; [contradiction|].
      exact (StronglySorted_app_1_elem_of R _ _ _ _ Hsorted Hx Hin).
  - intros code items.
    destruct (ObjectId.cast id) as [pid|]; [|discriminate].
    destruct (products st !! pid); [congruence | discriminate].
  - intros code m.
    destruct (ObjectId.cast id) as [pid|]; [|congruence].
    destruct (products st !! pid); [discriminate | congruence].
Qed.

Lemma getRelatedProducts_sends_witness :
  ProductQueries.getRelatedProducts Sample.catalogue Sample.boots_id
  = Sent 200 [(Sample.heels_id, Sample.footwear 5 4);
              (Sample.flats_id, Sample.footwear 25 3);
              (Sample.clogs_id, Sample.footwear 40 2)]
  /\ exists pid product,
       ObjectId.cast Sample.boots_id = Some pid
       /\ products Sample.catalogue !! pid = Some product.
Proof.
  assert (ProductQueries.getRelatedProducts Sample.catalogue Sample.boots_id
          = Sent 200 [(Sample.heels_id, Sample.footwear 5 4);
                      (Sample.flats_id, Sample.footwear 25 3);
                      (Sample.clogs_id, Sample.footwear 40 2)]) as E
    by (vm_compute; reflexivity).
  split; [exact E|].
  destruct (getRelatedProducts_sends Sample.catalogue Sample.boots_id)
    as (H & _).
  destruct (H _ E) as (pid & product & Hc & Hp & _).
  exists pid, product. exact (conj Hc Hp).
Defined.

(** X18: [getUserListings] answers 200 with the products of the store
    that the caller sells, and no other, each once, the newest first. *)
Theorem getUserListings_sends (st : store) (dbUser : string) :
  exists items,
    UserQueries.getUserListings st dbUser = Sent 200 items
    /\ (forall i p, (i, p) ∈ items
          <-> products st !! i = Some p /\ Product.seller p = dbUser)
    /\ NoDup items.*1
    /\ StronglySorted
         (fun x y => Product.createdAt y.2 <= Product.createdAt x.2) items.
Proof.
  eexists. split; [reflexivity|].
  set (R := ProductController.precedes ProductController.CreatedDesc).
  unfold find_docs.
  set (found := List.filter _ (map_to_list (products st))).
  assert (merge_sort R found ≡ₚ found) as Hperm by apply merge_sort_Permutation.
  split; [|split].
  - intros i p. rewrite Hperm. unfold found. rewrite elem_of_filter_docs. cbn.
    by rewrite string_eqb_true.
  - rewrite Hperm. apply NoDup_filter_docs.
  - exact (sorted_by_order ProductController.CreatedDesc found).
Qed.

Lemma newest_total (created : string -> Z) :
  Total (OfferQueries.newest created).
Proof. intros x y. unfold OfferQueries.newest. lia. Qed.

Lemma newest_transitive (created : string -> Z) :
  Transitive (OfferQueries.newest created).
Proof. intros x y z. unfold OfferQueries.newest. lia. Qed.

(** X19: [getProductOffers] sends offers to the seller of the product
    alone.  For a product of the store, the seller is answered 200 with
    the offers on that product, and no other, each once, the newest first;
    any other caller is answered 403; and nothing is ever sent with
    another code or to another caller. *)
Theorem getProductOffers_seller_only (created : string -> Z) (st : store)
    (dbUser productId : string) :
  (forall pid product,
     ObjectId.cast productId = Some pid -> products st !! pid = Some product ->
     (Product.seller product = dbUser ->
      exists sent,
        OfferQueries.getProductOffers created st dbUser productId
        = Sent 200 sent
        /\ (forall i o, (i, o) ∈ sent
              <-> offers st !! i = Some o /\ Offer.product o = pid)
        /\ NoDup sent.*1
        /\ StronglySorted (fun x y => created y.1 <= created x.1) sent)
     /\ (Product.seller product <> dbUser ->
         OfferQueries.getProductOffers created st dbUser productId
         = Refused 403 "Not authorized to view these offers"))
  /\ (forall code sent,
        OfferQueries.getProductOffers created st dbUser productId
        = Sent code sent ->
        code = 200%nat
        /\ exists pid product,
             ObjectId.cast productId = Some pid
             /\ products st !! pid = Some product
             /\ Product.seller product = dbUser).
Proof.
  unfold OfferQueries.getProductOffers. split.
  - intros pid product -> ->. split.
    + intros Hs. rewrite (proj2 (string_eqb_true _ _) Hs). cbn [negb].
      eexists. split; [reflexivity|]. unfold find_docs.
      set (found := List.filter _ (map_to_list (offers st))).
      assert (merge_sort (OfferQueries.newest created) found ≡ₚ found)
        as Hperm by apply merge_sort_Permutation.
      split; [|split].
      * intros i o. rewrite Hperm. unfold found.
        rewrite elem_of_filter_docs. cbn. by rewrite string_eqb_true.
      * rewrite Hperm. apply NoDup_filter_docs.
      * apply (@StronglySorted_merge_sort _ _ _ (newest_transitive created)
                 (newest_total created)).
    + intros Hs. by rewrite (proj2 (string_eqb_false _ _) Hs).
  - intros code sent.
    destruct (ObjectId.cast productId) as [pid|]; [|discriminate].
    destruct (products st !! pid) as [product|] eqn:Hpid; [|discriminate].
    destruct (String.eqb (Product.seller product) dbUser) eqn:E;
      [|discriminate].
    cbn [negb]. intros [= <- _]. split; [done|].
    exists pid, product. apply string_eqb_true in E. by repeat split.
Qed.

Lemma getProductOffers_seller_only_witness :
  OfferQueries.getProductOffers Fixture.offer_created
    (Sample.market Offer.pending) Sample.bob Sample.shoes_id
  = Refused 403 "Not authorized to view these offers"
  /\ exists sent,
       OfferQueries.getProductOffers Fixture.offer_created
         (Sample.market Offer.pending) Sample.alice Sample.shoes_id
       = Sent 200 sent.
Proof.
  destruct (getProductOffers_seller_only Fixture.offer_created
              (Sample.market Offer.pending) Sample.bob Sample.shoes_id)
    as [H _].
  destruct (H Sample.shoes_id Sample.shoes eq_refl eq_refl) as [_ H403].
  split; [apply H403; discriminate|].
  destruct (getProductOffers_seller_only Fixture.offer_created
              (Sample.market Offer.pending) Sample.alice Sample.shoes_id)
    as [H' _].
  destruct (H' Sample.shoes_id Sample.shoes eq_refl eq_refl) as [H200 _].
  destruct (H200 eq_refl) as (sent & E & _).
  by exists sent.
Defined.
